(** * The hybrid recommendation engine of
      [recommendation_service/core/recommendation_engine.py]

    A shallow embedding of [RecommendationEngine]: the storage it reads
    through SQLAlchemy is an explicit [Database] value, every method is a
    function over it, Python exceptions are the [Raise] results of a small
    error monad, and the one write of the engine (the history commit)
    returns the new database.

    Python's [float] is an interface ([PyFloat]) whose instance is IEEE
    binary64 as specified by the Standard Library's [SpecFloat]: what the
    interpreter computes, and every definition evaluates on it. *)

From Stdlib Require Import ZArith NArith List String Bool Lia.
From Stdlib Require Import Sorted Permutation.
From Stdlib Require Import Floats.SpecFloat.
Import ListNotations.

Local Open Scope string_scope.
Local Open Scope list_scope.

Set Implicit Arguments.

(* ================================================================= *)
(** ** Python values *)

(** *** Floats *)

Class PyFloat (F : Type) : Type := {
  f_0 : F;                       (* 0.0 *)
  f_1 : F;                       (* 1.0 *)
  f_2 : F;                       (* 2 / 2.0 *)
  f_2_5 : F;                     (* 2.5 *)
  f_3 : F;                       (* 3.0 *)
  f_0_6 : F;                     (* 0.6 *)
  f_0_4 : F;                     (* 0.4 *)
  fadd : F -> F -> F;
  fsub : F -> F -> F;
  fmul : F -> F -> F;
  fdiv : F -> F -> F;            (* numpy division: no exception on zero *)
  fsqrt : F -> F;
  fltb : F -> F -> bool          (* Python [<]; [a > b] is [fltb b a] *)
}.

(** The two facts about float arithmetic that the ranking arguments use. *)
Class PyFloatLaws {F : Type} (ops : PyFloat F) : Prop := {
  fltb_asym : forall x y : F, fltb x y = true -> fltb y x = false;
  fmul_comm : forall x y : F, fmul x y = fmul y x
}.

(** IEEE 754 binary64: 53 bits of precision, exponent bound 1024. *)
Definition binary64 : Type := spec_float.

Definition b64_of_Z (z : Z) : binary64 := binary_normalize 53 1024 z 0 false.

(** The double nearest to the decimal literal [a/b] (both exactly
    representable, the division rounds correctly). *)
Definition b64_ratio (a b : Z) : binary64 :=
  SFdiv 53 1024 (b64_of_Z a) (b64_of_Z b).

Definition b64_1 : binary64 := Eval vm_compute in b64_of_Z 1.
Definition b64_2 : binary64 := Eval vm_compute in b64_of_Z 2.
Definition b64_2_5 : binary64 := Eval vm_compute in b64_ratio 5 2.
Definition b64_3 : binary64 := Eval vm_compute in b64_of_Z 3.
Definition b64_0_6 : binary64 := Eval vm_compute in b64_ratio 6 10.
Definition b64_0_4 : binary64 := Eval vm_compute in b64_ratio 4 10.

#[export] Instance binary64_float : PyFloat binary64 := {
  f_0 := S754_zero false;
  f_1 := b64_1;
  f_2 := b64_2;
  f_2_5 := b64_2_5;
  f_3 := b64_3;
  f_0_6 := b64_0_6;
  f_0_4 := b64_0_4;
  fadd := SFadd 53 1024;
  fsub := SFsub 53 1024;
  fmul := SFmul 53 1024;
  fdiv := SFdiv 53 1024;
  fsqrt := SFsqrt 53 1024;
  fltb := SFltb
}.

(** *** Exceptions *)

Inductive PyError : Type :=
| ValueError        (* numpy / scipy: operands of different shapes *)
| KeyError          (* subscript of a dict on a missing key *)
| IndexError        (* assignment to a list index out of range *)
| DatabaseError.    (* the session could not commit *)

Inductive result (A : Type) : Type :=
| Ok (a : A)
| Raise (e : PyError).

Arguments Ok {A} a.
Arguments Raise {A} e.

Definition bind {A B : Type} (m : result A) (k : A -> result B) : result B :=
  match m with
  | Ok a => k a
  | Raise e => Raise e
  end.

Notation "'do' x <- m ; k" := (bind m (fun x => k))
  (at level 10, x pattern, m at level 100, k at level 200).

(** A [for] loop whose body may raise: the first exception ends it. *)
Fixpoint for_each {A S : Type} (body : S -> A -> result S)
         (l : list A) (s : S) : result S :=
  match l with
  | [] => Ok s
  | x :: l' => do s' <- body s x; for_each body l' s'
  end.

(** *** Dictionaries

    A Python [dict] keeps its keys in insertion order and the engine
    iterates over [items()], so a dictionary is the list of its items in
    that order, with at most one item per key. *)

Section Dict.
Context {K V : Type} (eqb : K -> K -> bool).

Fixpoint dict_get (d : list (K * V)) (k : K) : option V :=
  match d with
  | [] => None
  | (k', v) :: d' => if eqb k k' then Some v else dict_get d' k
  end.

Definition dict_contains (d : list (K * V)) (k : K) : bool :=
  match dict_get d k with Some _ => true | None => false end.

(** [d[k] = v]: an existing key keeps its place, a new one goes last. *)
Fixpoint dict_set (d : list (K * V)) (k : K) (v : V) : list (K * V) :=
  match d with
  | [] => [(k, v)]
  | (k', v') :: d' =>
      if eqb k k' then (k', v) :: d' else (k', v') :: dict_set d' k v
  end.

(** [d.update(d2)], also [{**d, **d2}] and [dict(pairs)] from [[]]. *)
Definition dict_update (d d2 : list (K * V)) : list (K * V) :=
  fold_left (fun acc kv => dict_set acc (fst kv) (snd kv)) d2 d.

End Dict.

(** *** Lists *)

(** [l[:n]]: a negative [n] counts from the end. *)
Definition slice_to {A : Type} (l : list A) (n : Z) : list A :=
  if (0 <=? n)%Z then firstn (Z.to_nat n) l
  else firstn (List.length l - Z.to_nat (- n)) l.

(** [l[idx] = v] *)
Fixpoint list_set {A : Type} (l : list A) (idx : nat) (v : A)
  : result (list A) :=
  match l, idx with
  | [], _ => Raise IndexError
  | _ :: l', O => Ok (v :: l')
  | x :: l', S i => do r <- list_set l' i v; Ok (x :: r)
  end.

(** [l.sort(key=key, reverse=True)]: the sort is stable, also when
    reversed, so elements with equal keys keep their order. An element is
    inserted in front of the first one that is not strictly greater. When
    [<] orders the keys totally (no NaN among them) a stable sort has one
    possible result, and this is it; with a NaN key the order that
    [list.sort] returns depends on the runs it finds and can differ. *)
Section SortDesc.
Context {A K : Type} (key : A -> K) (ltb : K -> K -> bool).

Fixpoint insert_desc (x : A) (l : list A) : list A :=
  match l with
  | [] => [x]
  | h :: t =>
      if ltb (key x) (key h) then h :: insert_desc x t else x :: h :: t
  end.

Definition sort_desc (l : list A) : list A := fold_right insert_desc [] l.

End SortDesc.

(** Sets of identifiers: membership, and [sorted(s)]. *)
Definition UUID : Type := N.
Bind Scope N_scope with UUID.

Definition mem (x : UUID) (s : list UUID) : bool := existsb (N.eqb x) s.

Fixpoint set_of (l : list UUID) : list UUID :=
  match l with
  | [] => []
  | x :: l' => if mem x l' then set_of l' else x :: set_of l'
  end.

Fixpoint insert_asc (x : UUID) (l : list UUID) : list UUID :=
  match l with
  | [] => [x]
  | h :: t => if (x <=? h)%N then x :: h :: t else h :: insert_asc x t
  end.

Definition sorted (s : list UUID) : list UUID := fold_right insert_asc [] s.

(** *** numpy arrays and scipy's cosine distance

    One-dimensional float64 arrays are lists. Two arrays of different
    lengths combine only by broadcasting an array of length one; anything
    else raises [ValueError]. *)

Section Numpy.
Context {F : Type} `{PyFloat F}.

Definition zip_add (a b : list F) : list F :=
  map (fun p => fadd (fst p) (snd p)) (combine a b).

(** [np.array(v) * w] *)
Definition np_scale (v : list F) (w : F) : list F :=
  map (fun x => fmul x w) v.

(** [a / w] *)
Definition np_div (a : list F) (w : F) : list F :=
  map (fun x => fdiv x w) a.

(** [a += b]: the result must have the shape of [a]. *)
Definition np_iadd (a b : list F) : result (list F) :=
  if Nat.eqb (List.length b) (List.length a) then Ok (zip_add a b)
  else match b with
       | [y] => Ok (map (fun x => fadd x y) a)
       | _ => Raise ValueError
       end.

(** [a + b] *)
Definition np_add (a b : list F) : result (list F) :=
  if Nat.eqb (List.length b) (List.length a) then Ok (zip_add a b)
  else match a, b with
       | _, [y] => Ok (map (fun x => fadd x y) a)
       | [x], _ => Ok (map (fun y => fadd x y) b)
       | _, _ => Raise ValueError
       end.

(** [np.dot(u, v)] on arrays of one length. *)
Definition dot (u v : list F) : F :=
  fold_left (fun acc p => fadd acc (fmul (fst p) (snd p))) (combine u v) f_0.

(** [np.clip(x, 0.0, 2.0)]: a value below 0.0 becomes 0.0, one above 2.0
    becomes 2.0, and NaN stays NaN. *)
Definition clip_0_2 (x : F) : F :=
  if fltb x f_0 then f_0 else if fltb f_2 x then f_2 else x.

(** [scipy.spatial.distance.cosine(u, v)], the library function the engine
    imports: the distance [1 - u.v / sqrt(u.u * v.v)] clipped to
    [[0, 2]], and [ValueError] from [np.dot] when the lengths differ. The
    three dot products are sums in the order of the components; a BLAS
    may add in another order and differ in the last bit. *)
Definition cosine (u v : list F) : result F :=
  if Nat.eqb (List.length u) (List.length v)
  then Ok (clip_0_2
             (fsub f_1 (fdiv (dot u v) (fsqrt (fmul (dot u u) (dot v v))))))
  else Raise ValueError.

End Numpy.

(* ================================================================= *)
(** ** Schemas and tables *)

(** [RecommendationType] of [schemas/recommendation.py]. *)
Inductive RecommendationType : Type :=
| COLLABORATIVE
| CONTENT_BASED
| HYBRID.

(** [InteractionType] is a [str] enumeration and the column that stores it
    is a plain [String]: an interaction type is a string. *)
Definition VIEW : string := "view".
Definition COMPLETE : string := "complete".
Definition LIKE : string := "like".
Definition BOOKMARK : string := "bookmark".

Record UserPreference : Type := {
  up_user_id : UUID;
  preferred_subjects : list string;
  preferred_content_types : list string;
  preferred_difficulty_levels : list string;
  learning_style : option string;
  interests : list string
}.

Section Tables.
Variable F : Type.

Record UserContentInteraction : Type := {
  uci_user_id : UUID;
  uci_content_id : UUID;
  interaction_type : string;
  engagement_score : F;
  created_at : Z
}.

(** [metadata] holds the fields the filters read, as text. *)
Record ContentFeatureVector : Type := {
  cfv_content_id : UUID;
  feature_vector : list F;
  cfv_metadata : list (string * string)
}.

(** A value of a recommendation's [metadata] dictionary. *)
Inductive MetaValue : Type :=
| MFloat (x : F)
| MStr (s : string).

Definition Metadata : Type := list (string * MetaValue).

Record RecommendationResponse : Type := {
  rec_content_id : UUID;
  score : F;
  recommendation_type : RecommendationType;
  metadata : Metadata
}.

Record RecommendationHistory : Type := {
  rh_user_id : UUID;
  rh_content_id : UUID;
  rh_recommendation_type : RecommendationType;
  rh_score : F;
  rh_metadata : Metadata
}.

(** What the engine's [AsyncSession] reaches: the four tables, rows in
    storage order, and whether the storage refuses the next commit. *)
Record Database : Type := {
  user_preferences : list UserPreference;
  user_content_interactions : list UserContentInteraction;
  content_feature_vectors : list ContentFeatureVector;
  recommendation_history : list RecommendationHistory;
  commit_fails : bool
}.

(** An entry of [merged_recs] in the hybrid merger. *)
Record MergedEntry : Type := {
  me_content_id : UUID;
  content_based_score : F;
  collaborative_score : F;
  me_metadata : Metadata
}.

End Tables.

Arguments MStr {F} s.

(* ================================================================= *)
(** ** [RecommendationEngine] *)

Section Engine.
Context {F : Type} `{PyFloat F}.

Abbreviation Interaction := (UserContentInteraction F).
Abbreviation Recommendation := (RecommendationResponse F).

(** [self.interaction_weights] *)
Definition interaction_weights : list (string * F) :=
  [(VIEW, f_1); (COMPLETE, f_3); (LIKE, f_2); (BOOKMARK, f_2_5)].

(** [self.interaction_weights.get(interaction_type, 1.0)] *)
Definition interaction_weight (interaction_type : string) : F :=
  match dict_get String.eqb interaction_weights interaction_type with
  | Some w => w
  | None => f_1
  end.

Definition _get_user_preferences (db : Database F) (user_id : UUID)
  : option UserPreference :=
  find (fun p => N.eqb (up_user_id p) user_id) (user_preferences db).

(** One [RecommendationHistory] is added to the session per
    recommendation, then the session commits; a commit that fails raises
    and stores nothing. *)
Definition history_of (user_id : UUID) (rec : Recommendation)
  : RecommendationHistory F :=
  {| rh_user_id := user_id;
     rh_content_id := rec_content_id rec;
     rh_recommendation_type := recommendation_type rec;
     rh_score := score rec;
     rh_metadata := metadata rec |}.

Definition _record_recommendations (db : Database F) (user_id : UUID)
           (recommendations : list Recommendation)
  : result unit * Database F :=
  let added := map (history_of user_id) recommendations in
  if commit_fails db then (Raise DatabaseError, db)
  else (Ok tt,
        {| user_preferences := user_preferences db;
           user_content_interactions := user_content_interactions db;
           content_feature_vectors := content_feature_vectors db;
           recommendation_history := recommendation_history db ++ added;
           commit_fails := commit_fails db |}).

Definition is_empty {A : Type} (l : list A) : bool :=
  match l with [] => true | _ :: _ => false end.

Definition is_none {A : Type} (o : option A) : bool :=
  match o with None => true | Some _ => false end.

Definition _calculate_similarity_score (vec1 vec2 : list F) : result F :=
  if is_empty vec1 || is_empty vec2 then Ok f_0
  else do d <- cosine vec1 vec2; Ok (fsub f_1 d).

(** [select ... where user_id == user_id order by created_at desc] *)
Definition _get_user_interactions (db : Database F) (user_id : UUID)
  : list Interaction :=
  sort_desc (@created_at F) Z.ltb
    (filter (fun i => N.eqb (uci_user_id i) user_id)
            (user_content_interactions db)).

(** Truth value of an [Optional[str]] argument. *)
Definition truthy (s : option string) : bool :=
  match s with
  | Some s' => negb (String.eqb s' EmptyString)
  | None => false
  end.

(** [ContentFeatureVector.metadata[key].astext == value], applied only
    for a filter that is given. *)
Definition passes (key : string) (value : option string)
           (v : ContentFeatureVector F) : bool :=
  if truthy value then
    match dict_get String.eqb (cfv_metadata v) key, value with
    | Some x, Some y => String.eqb x y
    | _, _ => false
    end
  else true.

(** [{v.content_id: v.feature_vector for v in vectors}] *)
Definition vector_dict (vectors : list (ContentFeatureVector F))
  : list (UUID * list F) :=
  fold_left (fun d v => dict_set N.eqb d (cfv_content_id v) (feature_vector v))
            vectors [].

Definition _get_content_feature_vectors (db : Database F)
           (content_type subject difficulty_level : option string)
  : list (UUID * list F) :=
  let vectors :=
    if truthy content_type || truthy subject || truthy difficulty_level
    then filter (fun v => passes "content_type" content_type v
                          && passes "subject" subject v
                          && passes "difficulty_level" difficulty_level v)
                (content_feature_vectors db)
    else content_feature_vectors db in
  vector_dict vectors.

(** The placeholder of the source: no preference vector is ever built. *)
Definition _calculate_preference_vector (user_prefs : UserPreference)
  : option (list F) := None.

(** The body of the loop over the interactions in
    [_calculate_user_profile]; the state is
    [(profile_vector, total_weight)]. *)
Definition profile_step (content_vectors : list (UUID * list F))
           (st : option (list F) * F) (interaction : Interaction)
  : result (option (list F) * F) :=
  match dict_get N.eqb content_vectors (uci_content_id interaction) with
  | None => Ok st
  | Some vector =>
      let weight := fmul (interaction_weight (interaction_type interaction))
                         (engagement_score interaction) in
      do pv <- match fst st with
               | None => Ok (np_scale vector weight)
               | Some p => np_iadd p (np_scale vector weight)
               end;
      Ok (Some pv, fadd (snd st) weight)
  end.

(** Feature vectors of the interacted content, then the loop. *)
Definition accumulate_profile (db : Database F)
           (interactions : list Interaction)
  : result (option (list F) * F) :=
  let interacted_content_ids := map (@uci_content_id F) interactions in
  let content_vectors :=
    if is_empty interacted_content_ids then []
    else vector_dict
           (filter (fun v => mem (cfv_content_id v) interacted_content_ids)
                   (content_feature_vectors db)) in
  for_each (profile_step content_vectors) interactions (None, f_0).

(** The interaction profile: the weighted sum, divided by the total
    weight when that is positive. *)
Definition interaction_profile (db : Database F)
           (interactions : list Interaction)
  : result (option (list F)) :=
  do st <- accumulate_profile db interactions;
  match fst st with
  | Some p => if fltb f_0 (snd st) then Ok (Some (np_div p (snd st)))
              else Ok (Some p)
  | None => Ok None
  end.

Definition _calculate_user_profile (db : Database F) (user_id : UUID)
           (interactions : list Interaction)
           (user_prefs : option UserPreference)
  : result (list F) :=
  if is_empty interactions && is_none user_prefs then Ok []
  else
    do profile_vector <- interaction_profile db interactions;
    do profile_vector <-
       match user_prefs, profile_vector with
       | Some prefs, Some p =>
           match _calculate_preference_vector prefs with
           | Some (x :: q) =>
               do s <- np_add p (x :: q); Ok (Some (np_div s f_2))
           | _ => Ok (Some p)
           end
       | Some prefs, None =>
           match _calculate_preference_vector prefs with
           | Some (x :: q) => Ok (Some (x :: q))
           | _ => Ok None
           end
       | None, _ => Ok profile_vector
       end;
    Ok (match profile_vector with Some p => p | None => [] end).

(** *** Content-based scorer *)

Definition content_based_rec (content_id : UUID) (similarity : F)
  : Recommendation :=
  {| rec_content_id := content_id;
     score := similarity;
     recommendation_type := CONTENT_BASED;
     metadata := [("similarity_score", MFloat similarity);
                  ("recommendation_source", MStr "content_based")] |}.

(** The body of the loop over [content_vectors.items()]. *)
Definition content_based_step (user_profile : list F)
           (interactions : list Interaction)
           (recommendations : list Recommendation)
           (item : UUID * list F)
  : result (list Recommendation) :=
  if mem (fst item) (set_of (map (@uci_content_id F) interactions))
  then Ok recommendations
  else
    do similarity <- _calculate_similarity_score user_profile (snd item);
    if fltb f_0 similarity
    then Ok (recommendations ++ [content_based_rec (fst item) similarity])
    else Ok recommendations.

Definition _get_content_based_recommendations (db : Database F)
           (user_id : UUID) (user_prefs : option UserPreference)
           (content_type subject difficulty_level : option string)
           (limit : Z)
  : result (list Recommendation) :=
  let interactions := _get_user_interactions db user_id in
  if is_empty interactions && is_none user_prefs then Ok []
  else
    let content_vectors :=
      _get_content_feature_vectors db content_type subject difficulty_level in
    if is_empty content_vectors then Ok []
    else
      do user_profile <-
         _calculate_user_profile db user_id interactions user_prefs;
      do recommendations <-
         for_each (content_based_step user_profile interactions)
                  content_vectors [];
      Ok (slice_to (sort_desc (@score F) fltb recommendations) limit).

(** *** Collaborative scorer *)

(** [{id_: idx for idx, id_ in enumerate(sorted(content_ids))}] *)
Definition content_id_to_index (content_ids : list UUID)
  : list (UUID * nat) :=
  dict_update N.eqb []
    (combine (sorted content_ids) (seq 0 (List.length content_ids))).

(** [content_ids] is a set: a list without repetition. *)
Definition _create_interaction_vector (interactions : list Interaction)
           (content_ids : list UUID)
  : result (list F) :=
  let vector := repeat f_0 (List.length content_ids) in
  let index := content_id_to_index content_ids in
  for_each
    (fun vector interaction =>
       match dict_get N.eqb index (uci_content_id interaction) with
       | Some idx =>
           let weight := interaction_weight (interaction_type interaction) in
           list_set vector idx (fmul weight (engagement_score interaction))
       | None => Ok vector
       end)
    interactions vector.

(** [user_interactions_map]: the interactions of each other user, users in
    order of first appearance. *)
Definition group_by_user (interactions : list Interaction)
  : list (UUID * list Interaction) :=
  fold_left
    (fun m interaction =>
       let m' := if dict_contains N.eqb m (uci_user_id interaction) then m
                 else dict_set N.eqb m (uci_user_id interaction) [] in
       match dict_get N.eqb m' (uci_user_id interaction) with
       | Some l => dict_set N.eqb m' (uci_user_id interaction)
                            (l ++ [interaction])
       | None => m'
       end)
    interactions [].

Definition _find_similar_users (db : Database F) (user_id : UUID)
           (user_interactions : list Interaction)
  : result (list (UUID * F)) :=
  let interacted_content_ids :=
    set_of (map (@uci_content_id F) user_interactions) in
  if is_empty interacted_content_ids then Ok []
  else
    let other_users_interactions :=
      filter (fun i => mem (uci_content_id i) interacted_content_ids
                       && negb (N.eqb (uci_user_id i) user_id))
             (user_content_interactions db) in
    let user_interactions_map := group_by_user other_users_interactions in
    do target_user_vector <-
       _create_interaction_vector user_interactions interacted_content_ids;
    do user_similarities <-
       for_each
         (fun user_similarities entry =>
            do other_user_vector <-
               _create_interaction_vector (snd entry) interacted_content_ids;
            do similarity <-
               _calculate_similarity_score target_user_vector
                                           other_user_vector;
            if fltb f_0 similarity
            then Ok (user_similarities ++ [(fst entry, similarity)])
            else Ok user_similarities)
         user_interactions_map [];
    Ok (slice_to (sort_desc (@snd UUID F) fltb user_similarities) 10).

(** The body of the loop that fills [content_scores]. *)
Definition score_step (user_content_ids : list UUID)
           (similar_user_weights : list (UUID * F))
           (content_scores : list (UUID * F)) (interaction : Interaction)
  : result (list (UUID * F)) :=
  if mem (uci_content_id interaction) user_content_ids
  then Ok content_scores
  else
    match dict_get N.eqb similar_user_weights (uci_user_id interaction) with
    | None => Raise KeyError
    | Some user_weight =>
        let interaction_weight :=
          fmul (interaction_weight (interaction_type interaction))
               (engagement_score interaction) in
        let score := fmul user_weight interaction_weight in
        let content_scores :=
          if dict_contains N.eqb content_scores (uci_content_id interaction)
          then content_scores
          else dict_set N.eqb content_scores (uci_content_id interaction) f_0
        in
        match dict_get N.eqb content_scores (uci_content_id interaction) with
        | Some s => Ok (dict_set N.eqb content_scores
                                 (uci_content_id interaction) (fadd s score))
        | None => Raise KeyError
        end
    end.

Definition collaborative_rec (item : UUID * F) : Recommendation :=
  {| rec_content_id := fst item;
     score := snd item;
     recommendation_type := COLLABORATIVE;
     metadata := [("collaborative_score", MFloat (snd item));
                  ("recommendation_source", MStr "collaborative")] |}.

(** The three filter arguments are received and not read. *)
Definition _get_recommendations_from_similar_users (db : Database F)
           (user_id : UUID) (similar_users : list (UUID * F))
           (content_type subject difficulty_level : option string)
  : result (list Recommendation) :=
  let user_interactions := _get_user_interactions db user_id in
  let user_content_ids := set_of (map (@uci_content_id F) user_interactions) in
  let similar_user_ids := map fst similar_users in
  let similar_user_weights := dict_update N.eqb [] similar_users in
  let similar_users_interactions :=
    filter (fun i => mem (uci_user_id i) similar_user_ids)
           (user_content_interactions db) in
  do content_scores <-
     for_each (score_step user_content_ids similar_user_weights)
              similar_users_interactions [];
  Ok (map collaborative_rec content_scores).

Definition _get_collaborative_recommendations (db : Database F)
           (user_id : UUID)
           (content_type subject difficulty_level : option string)
           (limit : Z)
  : result (list Recommendation) :=
  let user_interactions := _get_user_interactions db user_id in
  if is_empty user_interactions then Ok []
  else
    do similar_users <- _find_similar_users db user_id user_interactions;
    if is_empty similar_users then Ok []
    else
      do recommendations <-
         _get_recommendations_from_similar_users
           db user_id similar_users content_type subject difficulty_level;
      Ok (slice_to (sort_desc (@score F) fltb recommendations) limit).

(** *** Hybrid merger *)

Definition merge_content_based (merged_recs : list (UUID * MergedEntry F))
           (rec : Recommendation) : list (UUID * MergedEntry F) :=
  dict_set N.eqb merged_recs (rec_content_id rec)
    {| me_content_id := rec_content_id rec;
       content_based_score := score rec;
       collaborative_score := f_0;
       me_metadata := metadata rec |}.

Definition merge_collaborative (merged_recs : list (UUID * MergedEntry F))
           (rec : Recommendation) : list (UUID * MergedEntry F) :=
  match dict_get N.eqb merged_recs (rec_content_id rec) with
  | Some data =>
      dict_set N.eqb merged_recs (rec_content_id rec)
        {| me_content_id := me_content_id data;
           content_based_score := content_based_score data;
           collaborative_score := score rec;
           me_metadata :=
             dict_update String.eqb (me_metadata data) (metadata rec) |}
  | None =>
      dict_set N.eqb merged_recs (rec_content_id rec)
        {| me_content_id := rec_content_id rec;
           content_based_score := f_0;
           collaborative_score := score rec;
           me_metadata := metadata rec |}
  end.

Definition merged_recs_of (content_based_recs collaborative_recs
                           : list Recommendation)
  : list (UUID * MergedEntry F) :=
  fold_left merge_collaborative collaborative_recs
    (fold_left merge_content_based content_based_recs []).

Definition content_based_weight : F := f_0_6.
Definition collaborative_weight : F := f_0_4.

Definition hybrid_score_of (data : MergedEntry F) : F :=
  fadd (fmul (content_based_score data) content_based_weight)
       (fmul (collaborative_score data) collaborative_weight).

(** The literal's own four keys come first, then [**data["metadata"]]:
    a key of the component metadata replaces the literal's. *)
Definition hybrid_rec (item : UUID * MergedEntry F) : Recommendation :=
  let data := snd item in
  let hybrid_score := hybrid_score_of data in
  {| rec_content_id := fst item;
     score := hybrid_score;
     recommendation_type := HYBRID;
     metadata :=
       dict_update String.eqb
         [("hybrid_score", MFloat hybrid_score);
          ("content_based_score", MFloat (content_based_score data));
          ("collaborative_score", MFloat (collaborative_score data));
          ("recommendation_source", MStr "hybrid")]
         (me_metadata data) |}.

Definition _hybrid_merge_recommendations
           (content_based_recs collaborative_recs : list Recommendation)
           (limit : Z)
  : list Recommendation :=
  let merged_recs := merged_recs_of content_based_recs collaborative_recs in
  let recommendations := map hybrid_rec merged_recs in
  slice_to (sort_desc (@score F) fltb recommendations) limit.

(** *** The request *)

Definition get_recommendations (db : Database F) (user_id : UUID)
           (content_type subject difficulty_level : option string)
           (limit : Z)
  : result (list Recommendation) * Database F :=
  let user_prefs := _get_user_preferences db user_id in
  match _get_content_based_recommendations
          db user_id user_prefs content_type subject difficulty_level limit
  with
  | Raise e => (Raise e, db)
  | Ok content_based_recs =>
      match _get_collaborative_recommendations
              db user_id content_type subject difficulty_level limit
      with
      | Raise e => (Raise e, db)
      | Ok collab_recs =>
          let final_recs :=
            _hybrid_merge_recommendations content_based_recs collab_recs
                                          limit in
          match _record_recommendations db user_id final_recs with
          | (Raise e, db') => (Raise e, db')
          | (Ok _, db') => (Ok final_recs, db')
          end
      end
  end.

End Engine.

(* ================================================================= *)
(** ** Vocabulary of the properties *)

Section Vocabulary.
Context {F : Type} `{PyFloat F}.

(** The score that a result list gives to a content id: the score of its
    last entry for that id (a later entry replaces an earlier one in the
    merger's map), and [0.0] when the list has no entry for it. *)
Definition component_score (recs : list (RecommendationResponse F))
           (content_id : UUID) : F :=
  fold_left (fun acc r => if N.eqb (rec_content_id r) content_id
                          then score r else acc)
            recs f_0.

(** A ranking is non-increasing when no entry is followed by an entry of
    strictly larger score. *)
Definition score_no_ascent (a b : RecommendationResponse F) : Prop :=
  fltb (score a) (score b) = false.

(** The three shapes of the metadata that a component scorer, or the
    merger from the two of them, attaches to a content id. *)
Inductive component_metadata : Metadata F -> Prop :=
| content_based_metadata (s : F) :
    component_metadata [("similarity_score", MFloat s);
                        ("recommendation_source", MStr "content_based")]
| collaborative_metadata (c : F) :
    component_metadata [("collaborative_score", MFloat c);
                        ("recommendation_source", MStr "collaborative")]
| both_metadata (s c : F) :
    component_metadata [("similarity_score", MFloat s);
                        ("recommendation_source", MStr "collaborative");
                        ("collaborative_score", MFloat c)].

(** [metadata["recommendation_source"]] *)
Definition recommendation_source (r : RecommendationResponse F)
  : option (MetaValue F) :=
  dict_get String.eqb (metadata r) "recommendation_source".

(** The four members of [InteractionType]. *)
Definition known_interaction_type (t : string) : bool :=
  existsb (String.eqb t) [VIEW; COMPLETE; LIKE; BOOKMARK].

(** The interaction with an unknown type replaced by [view]. *)
Definition as_view (i : UserContentInteraction F) : UserContentInteraction F :=
  if known_interaction_type (interaction_type i) then i
  else {| uci_user_id := uci_user_id i;
          uci_content_id := uci_content_id i;
          interaction_type := VIEW;
          engagement_score := engagement_score i;
          created_at := created_at i |}.

(** What the merger's map holds after the content-based results [cbs] and
    the collaborative results [cls] have been processed. *)
Definition merged_inv (m : list (UUID * MergedEntry F))
           (cbs cls : list (RecommendationResponse F))
  : Prop :=
  NoDup (map fst m)
  /\ (forall k d, In (k, d) m ->
        content_based_score d = component_score cbs k
        /\ collaborative_score d = component_score cls k)
  /\ (forall k, ~ In k (map fst m) -> component_score cbs k = f_0).

(** What the scoring loop keeps true of the list it builds. *)
Definition content_based_ok (interactions : list (UserContentInteraction F))
           (r : RecommendationResponse F) : Prop :=
  metadata r = [("similarity_score", MFloat (score r));
                ("recommendation_source", MStr "content_based")]
  /\ ~ In (rec_content_id r) (map (@uci_content_id F) interactions).

(** The metadata that the collaborative scorer attaches. *)
Definition collaborative_ok (r : RecommendationResponse F) : Prop :=
  metadata r = [("collaborative_score", MFloat (score r));
                ("recommendation_source", MStr "collaborative")].

(** Every entry of the merger's map carries component metadata. *)
Definition metadata_ok (m : list (UUID * MergedEntry F)) : Prop :=
  forall k d, In (k, d) m -> component_metadata (me_metadata d).

End Vocabulary.

(** [abs(x - 1.0) <= 1e-9], which is false of NaN. *)
Definition within_tolerance_of_one (x : binary64) : bool :=
  SFleb (SFabs (SFsub 53 1024 x b64_1)) (b64_ratio 1 1000000000).

(** The normal binary64 numbers [m * 2 ^ e] whose square neither overflows
    nor leaves the normal range: those from [2 ^ -511] up to, and without,
    [2 ^ 511]. *)
Definition squarable (x : binary64) : Prop :=
  match x with
  | S754_finite false m e =>
      (2 ^ 52 <= Z.pos m < 2 ^ 53)%Z /\ (-563 <= e <= 458)%Z
  | _ => False
  end.

(* ================================================================= *)
(** ** Example databases, on binary64 *)

Module Examples.

Definition interaction (user_id content_id : UUID) (type : string)
           (engagement : binary64) (time : Z)
  : UserContentInteraction binary64 :=
  {| uci_user_id := user_id; uci_content_id := content_id;
     interaction_type := type; engagement_score := engagement;
     created_at := time |}.

Definition vector (content_id : UUID) (v : list binary64)
           (md : list (string * string)) : ContentFeatureVector binary64 :=
  {| cfv_content_id := content_id; feature_vector := v; cfv_metadata := md |}.

Definition database (interactions : list (UserContentInteraction binary64))
           (vectors : list (ContentFeatureVector binary64))
           (fails : bool) : Database binary64 :=
  {| user_preferences := []; user_content_interactions := interactions;
     content_feature_vectors := vectors; recommendation_history := [];
     commit_fails := fails |}.

Definition zero : binary64 := f_0.
Definition one : binary64 := f_1.


(** User 1 has completed content 10, of vector [[1, 0]]; content 11 has a
    vector of three components. *)
Definition db_mismatch : Database binary64 :=
  database [interaction 1 10 COMPLETE one 0]
           [vector 10 [one; zero] []; vector 11 [one; zero; zero] []]
           false.

(** Users 1 and 2 both like content 20, a story; user 1 has also completed
    content 21, a quiz, that user 2 has not touched. *)
Definition db_two_users (fails : bool) : Database binary64 :=
  database [interaction 1 20 LIKE one 0; interaction 2 20 LIKE one 1;
            interaction 1 21 COMPLETE one 2]
           [vector 20 [one; zero] [("content_type", "story")];
            vector 21 [one; zero] [("content_type", "quiz")]]
           fails.

(** The scenario of the specification: user 1 has completed content 10;
    contents 11 and 12 are the candidates. *)
Definition db_scenario : Database binary64 :=
  database [interaction 1 10 COMPLETE one 0]
           [vector 10 [one; zero] []; vector 11 [one; zero] [];
            vector 12 [zero; one] []]
           false.

(** User 1 has an interaction of a type outside the table. *)
Definition db_unknown_type : Database binary64 :=
  database [interaction 1 10 "share" one 0]
           [vector 10 [one; zero] []; vector 11 [one; zero] []]
           false.

(** [2 ^ 400] and [2 ^ 600]. *)
Definition two_to_400 : binary64 := S754_finite false 4503599627370496 348.
Definition two_to_600 : binary64 := S754_finite false 4503599627370496 548.

Definition example_content_based : list (RecommendationResponse binary64) :=
  [content_based_rec 21 one].

Definition example_collaborative : list (RecommendationResponse binary64) :=
  [collaborative_rec (22%N, f_2); collaborative_rec (21%N, f_3)].

(** The first recommendation merged from the two lists above. *)
Definition example_top : RecommendationResponse binary64 :=
  hd (content_based_rec 0 f_0)
     (_hybrid_merge_recommendations example_content_based
                                    example_collaborative 10).

(** The recommendation that user 2 of [db_two_users] receives. *)
Definition example_hybrid : RecommendationResponse binary64 :=
  hd (content_based_rec 0 f_0)
     (_hybrid_merge_recommendations [content_based_rec 21 one]
                                    [collaborative_rec (21%N, f_3)] 10).

End Examples.

(* ================================================================= *)
(** ** The order of binary64 *)

(** Any binary64 value but NaN. *)
Definition b64_is_number (x : binary64) : bool :=
  match x with
  | S754_nan => false
  | _ => true
  end.

(** The place of a number in the order of binary64: its class (the
    infinities, the negative and the positive finite numbers, zero of
    either sign), then exponent and mantissa, reversed for the negative
    numbers. *)
Definition b64_rank (x : binary64) : Z * Z * Z :=
  match x with
  | S754_infinity true => (-2, 0, 0)%Z
  | S754_finite true m e => (-1, - e, Zneg m)%Z
  | S754_zero _ => (0, 0, 0)%Z
  | S754_nan => (0, 0, 0)%Z
  | S754_finite false m e => (1, e, Zpos m)%Z
  | S754_infinity false => (2, 0, 0)%Z
  end.

Definition rank_le (a b : Z * Z * Z) : Prop :=
  (fst (fst a) < fst (fst b))%Z
  \/ (fst (fst a) = fst (fst b)
      /\ ((snd (fst a) < snd (fst b))%Z
          \/ (snd (fst a) = snd (fst b) /\ (snd a <= snd b)%Z))).

(** Python [a.score >= b.score] on two recommendations. *)
Definition score_ge (a b : RecommendationResponse binary64) : Prop :=
  SFleb (score b) (score a) = true.

(** The hybrid scores of all merged entries, before they are ranked and
    cut to the limit. *)
Definition hybrid_scores {F : Type} `{PyFloat F}
           (content_based_recs collaborative_recs
            : list (RecommendationResponse F)) : list F :=
  map (fun item => hybrid_score_of (snd item))
      (merged_recs_of content_based_recs collaborative_recs).

(* ================================================================= *)
(** ** [_normalize_scores] *)

Section NormalizeScores.
Context {F : Type} `{PyFloat F}.

(** NaN is the one float that is neither below 1.0 nor above 0.0. *)
Definition is_nan (x : F) : bool := negb (fltb x f_1) && negb (fltb f_0 x).

(** Python [x == y] on floats: neither is NaN and neither is smaller. *)
Definition feqb (x y : F) : bool :=
  negb (is_nan x) && negb (is_nan y) && negb (fltb x y) && negb (fltb y x).

(** One step of numpy's [min] reduction: NaN propagates, otherwise the
    smaller of the two, the one reached first on a tie. The one tie between
    different floats is that of [0.0] and [-0.0]: there numpy's vectorised
    reduction may return either zero, and this step keeps the first. *)
Definition np_min_step (m y : F) : F :=
  if is_nan m then m
  else if is_nan y then y
  else if fltb y m then y else m.

Definition np_max_step (m y : F) : F :=
  if is_nan m then m
  else if is_nan y then y
  else if fltb m y then y else m.

(** [np.array(x :: l).min()] and [.max()] *)
Definition np_min (x : F) (l : list F) : F := fold_left np_min_step l x.
Definition np_max (x : F) (l : list F) : F := fold_left np_max_step l x.

Definition _normalize_scores (scores : list F) (min_score max_score : F)
  : list F :=
  match scores with
  | [] => []
  | x :: rest =>
      let score_min := np_min x rest in
      let score_max := np_max x rest in
      if feqb score_min score_max
      then repeat max_score (List.length scores)
      else
        map (fun s =>
               fadd (fmul (fdiv (fsub s score_min)
                                (fsub score_max score_min))
                          (fsub max_score min_score))
                    min_score)
            scores
  end.

End NormalizeScores.

(* ================================================================= *)
(** ** Well-formed storage *)

(** The invariant of the feature table: every stored vector has the same
    number [n] of components. *)
Definition uniform_dimension {F : Type} (db : Database F) (n : nat) : Prop :=
  Forall (fun v => List.length (feature_vector v) = n)
         (content_feature_vectors db).

(** A stored vector row passes the three filters of a query. *)
Definition passes_filters {F : Type}
           (content_type subject difficulty_level : option string)
           (v : ContentFeatureVector F) : Prop :=
  passes "content_type" content_type v = true
  /\ passes "subject" subject v = true
  /\ passes "difficulty_level" difficulty_level v = true.

(** The state of the profile loop on vectors of [n] components. *)
Definition profile_state_ok {F : Type} (n : nat) (st : option (list F) * F)
  : Prop :=
  match fst st with
  | Some p => List.length p = n
  | None => True
  end.

(** The strength that a list of interactions gives to one content id:
    weight times engagement of the last interaction with that content in
    the list, and [0.0] when there is none. *)
Definition interaction_strength {F : Type} `{PyFloat F}
           (interactions : list (UserContentInteraction F)) (content_id : UUID)
  : F :=
  fold_left (fun acc i =>
               if N.eqb (uci_content_id i) content_id
               then fmul (interaction_weight (interaction_type i))
                         (engagement_score i)
               else acc)
            interactions f_0.

(** The interaction vector over [keys] while the interactions [seen] have
    been processed. *)
Definition vector_inv {F : Type} `{PyFloat F} (keys : list UUID)
           (seen : list (UserContentInteraction F)) (vector : list F)
  : Prop :=
  List.length vector = List.length keys
  /\ forall j k, nth_error keys j = Some k ->
                 nth_error vector j = Some (interaction_strength seen k).

(** The vector that the feature table gives for a content id: that of its
    last row with the id. *)
Definition stored_vector {F : Type} (db : Database F) (content_id : UUID)
  : option (list F) :=
  dict_get N.eqb (vector_dict (content_feature_vectors db)) content_id.

(** The database with one more row at the end of the interaction table. *)
Definition with_interaction {F : Type} (db : Database F)
           (i : UserContentInteraction F) : Database F :=
  {| user_preferences := user_preferences db;
     user_content_interactions := user_content_interactions db ++ [i];
     content_feature_vectors := content_feature_vectors db;
     recommendation_history := recommendation_history db;
     commit_fails := commit_fails db |}.

(* ================================================================= *)
(** ** The two float instances satisfy the laws *)

Lemma SFltb_asym (x y : spec_float) :
  SFltb x y = true -> SFltb y x = false.
Proof.
  unfold SFltb.
  destruct x as [sx|sx| |sx mx ex], y as [sy|sy| |sy my ey]; simpl;
    try destruct sx; try destruct sy; simpl;
    try discriminate; try reflexivity.
  - rewrite (Z.compare_antisym ex ey).
    destruct (ex ?= ey)%Z eqn:E; simpl; try discriminate; try reflexivity.
    change (Pos.compare_cont Eq mx my) with (Pos.compare mx my).
    change (Pos.compare_cont Eq my mx) with (Pos.compare my mx).
    rewrite (Pos.compare_antisym mx my).
    destruct (Pos.compare mx my); simpl; try discriminate; reflexivity.
  - rewrite (Z.compare_antisym ex ey).
    destruct (ex ?= ey)%Z eqn:E; simpl; try discriminate; try reflexivity.
    change (Pos.compare_cont Eq mx my) with (Pos.compare mx my).
    change (Pos.compare_cont Eq my mx) with (Pos.compare my mx).
    rewrite (Pos.compare_antisym mx my).
    destruct (Pos.compare mx my); simpl; try discriminate; reflexivity.
Qed.

Lemma SFmul_comm (x y : spec_float) :
  SFmul 53 1024 x y = SFmul 53 1024 y x.
Proof.
  destruct x as [sx|sx| |sx mx ex], y as [sy|sy| |sy my ey]; simpl;
    try reflexivity; try (rewrite xorb_comm; reflexivity).
  rewrite xorb_comm, Pos.mul_comm, Z.add_comm. reflexivity.
Qed.

#[export] Instance binary64_laws : PyFloatLaws binary64_float.
Proof.
  split.
  - exact SFltb_asym.
  - exact SFmul_comm.
Qed.

(* ================================================================= *)
(** ** Lists, sorting and dictionaries *)

Section SortFacts.
Context {A K : Type} (key : A -> K) (ltb : K -> K -> bool).

Lemma insert_desc_In (x y : A) (l : list A) :
  In y (insert_desc key ltb x l) <-> y = x \/ In y l.
Proof.
  induction l as [|h t IH]; simpl.
  - intuition congruence.
  - destruct (ltb (key x) (key h)); simpl; rewrite ?IH; intuition congruence.
Qed.

Lemma sort_desc_In (y : A) (l : list A) :
  In y (sort_desc key ltb l) <-> In y l.
Proof.
  induction l as [|x l IH]; simpl.
  - reflexivity.
  - rewrite insert_desc_In, IH. intuition congruence.
Qed.

Lemma insert_desc_length (x : A) (l : list A) :
  List.length (insert_desc key ltb x l) = S (List.length l).
Proof.
  induction l as [|h t IH]; simpl; trivial.
  destruct (ltb (key x) (key h)); simpl; congruence.
Qed.

Lemma sort_desc_length (l : list A) :
  List.length (sort_desc key ltb l) = List.length l.
Proof.
  induction l as [|x l IH]; simpl; trivial.
  rewrite insert_desc_length. congruence.
Qed.

(** No element is followed by one with a strictly larger key. *)
Definition no_ascent (a b : A) : Prop := ltb (key a) (key b) = false.

Hypothesis ltb_asym : forall x y, ltb x y = true -> ltb y x = false.

Lemma insert_desc_sorted (x : A) (l : list A) :
  Sorted no_ascent l -> Sorted no_ascent (insert_desc key ltb x l).
Proof.
  induction l as [|h t IH]; simpl; intros Hs.
  - repeat constructor.
  - destruct (ltb (key x) (key h)) eqn:E.
    + inversion Hs as [|? ? Ht Hh]; subst. constructor.
      * apply IH, Ht.
      * destruct t as [|h' t']; simpl.
        -- constructor. apply ltb_asym, E.
        -- destruct (ltb (key x) (key h')); constructor.
           ++ inversion Hh; assumption.
           ++ apply ltb_asym, E.
    + constructor; [assumption|]. constructor. exact E.
Qed.

Lemma sort_desc_sorted (l : list A) : Sorted no_ascent (sort_desc key ltb l).
Proof.
  induction l as [|x l IH]; simpl.
  - constructor.
  - apply insert_desc_sorted, IH.
Qed.

End SortFacts.

Lemma Sorted_firstn {A : Type} (R : A -> A -> Prop) (n : nat) (l : list A) :
  Sorted R l -> Sorted R (firstn n l).
Proof.
  revert l. induction n as [|n IH]; intros l Hs; simpl.
  - constructor.
  - destruct l as [|x l]; [constructor|].
    inversion Hs as [|? ? Hl Hx]; subst. constructor.
    + apply IH, Hl.
    + destruct l as [|y l]; destruct n; simpl; constructor.
      inversion Hx; assumption.
Qed.

Lemma firstn_incl {A : Type} (n : nat) (l : list A) (x : A) :
  In x (firstn n l) -> In x l.
Proof.
  revert l. induction n as [|n IH]; intros [|y l]; simpl; try tauto.
  intros [->|Hin]; auto.
Qed.

Lemma slice_to_incl {A : Type} (l : list A) (n : Z) (x : A) :
  In x (slice_to l n) -> In x l.
Proof.
  unfold slice_to. destruct (0 <=? n)%Z; apply firstn_incl.
Qed.

Lemma slice_to_length {A : Type} (l : list A) (n : Z) :
  (0 <= n)%Z -> (Z.of_nat (List.length (slice_to l n)) <= n)%Z.
Proof.
  intros Hn. unfold slice_to.
  destruct (0 <=? n)%Z eqn:E; [|apply Z.leb_gt in E; lia].
  pose proof (firstn_le_length (Z.to_nat n) l).
  rewrite length_firstn. lia.
Qed.

Lemma slice_to_sorted {A : Type} (R : A -> A -> Prop) (l : list A) (n : Z) :
  Sorted R l -> Sorted R (slice_to l n).
Proof.
  intros Hs. unfold slice_to. destruct (0 <=? n)%Z; apply Sorted_firstn, Hs.
Qed.

Lemma slice_to_all {A : Type} (l : list A) (n : Z) :
  (Z.of_nat (List.length l) <= n)%Z -> slice_to l n = l.
Proof.
  intros Hn. unfold slice_to.
  destruct (0 <=? n)%Z eqn:E; [|apply Z.leb_gt in E; lia].
  apply firstn_all2. lia.
Qed.

Section ForEach.
Context {A S : Type}.

(** An invariant of the loop state that every iteration keeps holds of
    the state the loop ends in. *)
Lemma for_each_invariant (P : S -> Prop) (body : S -> A -> result S)
      (l : list A) :
  (forall s x s', In x l -> P s -> body s x = Ok s' -> P s') ->
  forall s s', P s -> for_each body l s = Ok s' -> P s'.
Proof.
  induction l as [|x l IH]; simpl; intros Hbody s s' Hs Hrun.
  - congruence.
  - destruct (body s x) as [s1|e] eqn:E; simpl in Hrun; [|discriminate].
    apply (IH (fun s x s' Hin => Hbody s x s' (or_intror Hin)) s1 s'); trivial.
    apply (Hbody s x s1); auto.
Qed.

(** Two bodies that agree on the elements of the list run alike. *)
Lemma for_each_ext (body body' : S -> A -> result S) (l : list A) (s : S) :
  (forall s x, In x l -> body s x = body' s x) ->
  for_each body l s = for_each body' l s.
Proof.
  revert s. induction l as [|x l IH]; simpl; intros s Hb; trivial.
  rewrite (Hb s x (or_introl eq_refl)).
  destruct (body' s x); simpl; trivial.
  apply IH. intros; apply Hb; auto.
Qed.

Lemma for_each_map {B : Type} (f : B -> A) (body : S -> A -> result S)
      (l : list B) (s : S) :
  for_each body (map f l) s = for_each (fun s x => body s (f x)) l s.
Proof.
  revert s. induction l as [|x l IH]; simpl; intros s; trivial.
  destruct (body s (f x)); simpl; trivial.
Qed.

(** If some iteration raises whatever the state, and every exception of
    the body is the same [e], the loop raises [e]. *)
Lemma for_each_raises (body : S -> A -> result S) (e : PyError)
      (l : list A) (x : A) :
  In x l ->
  (forall s, body s x = Raise e) ->
  (forall s y e', body s y = Raise e' -> e' = e) ->
  forall s, for_each body l s = Raise e.
Proof.
  intros Hin Hx Hall. induction l as [|y l IH]; simpl; intros s.
  - destruct Hin.
  - destruct (body s y) as [s1|e'] eqn:E; simpl.
    + destruct Hin as [->|Hin].
      * rewrite Hx in E. discriminate.
      * apply IH, Hin.
    + f_equal. apply (Hall s y), E.
Qed.

End ForEach.

Section DictFacts.
Context {K V : Type} (eqb : K -> K -> bool).
Hypothesis eqb_eq : forall a b, eqb a b = true <-> a = b.

Lemma dict_get_In (d : list (K * V)) (k : K) (v : V) :
  dict_get eqb d k = Some v -> In (k, v) d.
Proof.
  induction d as [|[k' v'] d IH]; simpl; [discriminate|].
  destruct (eqb k k') eqn:E.
  - apply eqb_eq in E. subst. intros [= ->]. auto.
  - auto.
Qed.

Lemma dict_get_None (d : list (K * V)) (k : K) :
  dict_get eqb d k = None <-> ~ In k (map fst d).
Proof.
  induction d as [|[k' v'] d IH]; simpl; [tauto|].
  destruct (eqb k k') eqn:E.
  - apply eqb_eq in E. subst. split; [discriminate|tauto].
  - rewrite IH. split.
    + intros Hn [->|Hin]; [|tauto].
      assert (eqb k k = true) by (apply eqb_eq; reflexivity). congruence.
    + tauto.
Qed.

(** An item of [d] after [d[k] = v] is the new item or an item of [d]
    under another key. *)
Lemma dict_set_In (d : list (K * V)) (k : K) (v : V) (k' : K) (v' : V) :
  NoDup (map fst d) ->
  In (k', v') (dict_set eqb d k v) ->
  (k' = k /\ v' = v) \/ (k' <> k /\ In (k', v') d).
Proof.
  induction d as [|[k0 v0] d IH]; simpl; intros Hnd Hin.
  - destruct Hin as [[= <- <-]|[]]. auto.
  - inversion Hnd as [|? ? Hk0 Hd]; subst.
    destruct (eqb k k0) eqn:E.
    + apply eqb_eq in E. subst k0. destruct Hin as [[= <- <-]|Hin]; auto.
      right. split; auto. intros ->. apply Hk0.
      apply (in_map fst) in Hin. exact Hin.
    + destruct Hin as [[= <- <-]|Hin].
      * right. split; auto. intros ->.
        assert (eqb k k = true) by (apply eqb_eq; reflexivity). congruence.
      * destruct (IH Hd Hin) as [?|[? ?]]; auto.
Qed.

Lemma dict_set_keys (d : list (K * V)) (k : K) (v : V) (k' : K) :
  In k' (map fst (dict_set eqb d k v)) <-> k' = k \/ In k' (map fst d).
Proof.
  induction d as [|[k0 v0] d IH]; simpl.
  - intuition congruence.
  - destruct (eqb k k0) eqn:E; simpl.
    + apply eqb_eq in E. subst. intuition congruence.
    + rewrite IH. intuition congruence.
Qed.

Lemma dict_set_NoDup (d : list (K * V)) (k : K) (v : V) :
  NoDup (map fst d) -> NoDup (map fst (dict_set eqb d k v)).
Proof.
  induction d as [|[k0 v0] d IH]; simpl; intros Hnd.
  - repeat constructor. intros [].
  - inversion Hnd as [|? ? Hk0 Hd]; subst.
    destruct (eqb k k0) eqn:E; simpl.
    + constructor; assumption.
    + constructor; [|apply IH, Hd].
      rewrite dict_set_keys. intros [->|Hin]; [|tauto].
      assert (eqb k k = true) by (apply eqb_eq; reflexivity). congruence.
Qed.

(** Without the uniqueness of keys: a value of [d] after [d[k] = v] is
    [v] or a value of [d]. *)
Lemma dict_set_values (d : list (K * V)) (k : K) (v : V) (k' : K) (v' : V) :
  In (k', v') (dict_set eqb d k v) -> v' = v \/ In (k', v') d.
Proof.
  induction d as [|[k0 v0] d IH]; simpl; intros Hin.
  - destruct Hin as [[= <- <-]|[]]. auto.
  - destruct (eqb k k0).
    + destruct Hin as [[= <- <-]|Hin]; auto.
    + destruct Hin as [[= <- <-]|Hin]; auto.
      destruct (IH Hin); auto.
Qed.

End DictFacts.

Lemma mem_In (x : UUID) (s : list UUID) : mem x s = true <-> In x s.
Proof.
  unfold mem. rewrite existsb_exists. split.
  - intros [y [Hy E]]. apply N.eqb_eq in E. subst. exact Hy.
  - intros Hin. exists x. split; trivial. apply N.eqb_refl.
Qed.

Lemma set_of_In (x : UUID) (l : list UUID) : In x (set_of l) <-> In x l.
Proof.
  induction l as [|y l IH]; simpl; [tauto|].
  destruct (mem y l) eqn:E; simpl; rewrite IH.
  - apply mem_In in E. intuition congruence.
  - tauto.
Qed.

(* ================================================================= *)
(** ** Comparison of binary64 numbers *)

Lemma SFleb_rank (x y : binary64) :
  SFleb x y = true
  <-> b64_is_number x = true /\ b64_is_number y = true
      /\ rank_le (b64_rank x) (b64_rank y).
Proof.
  unfold SFleb, SFcompare, rank_le.
  destruct x as [sx|sx| |sx mx ex], y as [sy|sy| |sy my ey];
    try destruct sx; try destruct sy; simpl;
    try (split; [intros E; try discriminate; repeat split; lia
                |intros (H1 & H2 & H3); try discriminate; try reflexivity;
                 lia]).
  - change (Pos.compare_cont Eq mx my) with (Pos.compare mx my).
    destruct (Z.compare_spec ex ey); destruct (Pos.compare_spec mx my);
      simpl; split; intros E; try discriminate; try reflexivity;
        try (repeat split; lia); destruct E as (_ & _ & E); lia.
  - change (Pos.compare_cont Eq mx my) with (Pos.compare mx my).
    destruct (Z.compare_spec ex ey); destruct (Pos.compare_spec mx my);
      simpl; split; intros E; try discriminate; try reflexivity;
        try (repeat split; lia); destruct E as (_ & _ & E); lia.
Qed.

Lemma SFltb_rank (x y : binary64) :
  b64_is_number x = true -> b64_is_number y = true ->
  SFltb x y = false -> rank_le (b64_rank y) (b64_rank x).
Proof.
  unfold SFltb, SFcompare, rank_le.
  destruct x as [sx|sx| |sx mx ex], y as [sy|sy| |sy my ey];
    try destruct sx; try destruct sy; simpl; intros H1 H2 E;
    try discriminate; try lia.
  - change (Pos.compare_cont Eq mx my) with (Pos.compare mx my) in E.
    destruct (Z.compare_spec ex ey); destruct (Pos.compare_spec mx my);
      simpl in E; try discriminate; lia.
  - change (Pos.compare_cont Eq mx my) with (Pos.compare mx my) in E.
    destruct (Z.compare_spec ex ey); destruct (Pos.compare_spec mx my);
      simpl in E; try discriminate; lia.
Qed.

(** Between numbers, [not (x < y)] is [y <= x]. *)
Lemma SFltb_false_SFleb (x y : binary64) :
  b64_is_number x = true -> b64_is_number y = true ->
  SFltb x y = false -> SFleb y x = true.
Proof.
  intros Hx Hy E. apply SFleb_rank. repeat split; trivial.
  apply SFltb_rank; trivial.
Qed.

Lemma SFleb_trans (x y z : binary64) :
  SFleb x y = true -> SFleb y z = true -> SFleb x z = true.
Proof.
  rewrite !SFleb_rank. unfold rank_le.
  intros (Hx & Hy & Hxy) (_ & Hz & Hyz). repeat split; trivial. lia.
Qed.

Lemma Sorted_weaken {A : Type} (R R' : A -> A -> Prop) (P : A -> Prop)
      (l : list A) :
  (forall a b, P a -> P b -> R a b -> R' a b) ->
  Forall P l -> Sorted R l -> Sorted R' l.
Proof.
  intros Himp Hall Hs. induction Hs as [|a l Hl IH Hhd]; constructor.
  - apply IH. inversion Hall; assumption.
  - inversion Hall as [|? ? Ha Hrest]; subst.
    destruct Hhd as [|b l Hab]; constructor.
    apply Himp; trivial. inversion Hrest; assumption.
Qed.

(** A list of binary64-keyed entries without NaN, sorted descending and
    cut, has every entry at least as large as every later one. *)
Lemma ranked_strongly_sorted {A : Type} (key : A -> binary64)
      (l : list A) (n : Z) :
  Forall (fun x => b64_is_number (key x) = true) l ->
  StronglySorted (fun a b => SFleb (key b) (key a) = true)
                 (slice_to (sort_desc key SFltb l) n).
Proof.
  intros Hall. apply Sorted_StronglySorted.
  - intros a b c Hab Hbc. apply (SFleb_trans _ _ _ Hbc Hab).
  - apply slice_to_sorted.
    apply (@Sorted_weaken A (no_ascent key SFltb)
             (fun a b => SFleb (key b) (key a) = true)
             (fun x => b64_is_number (key x) = true)).
    + intros a b Ha Hb Hab. apply SFltb_false_SFleb; trivial.
    + rewrite Forall_forall in *. intros x Hx. apply Hall.
      apply sort_desc_In in Hx. exact Hx.
    + apply sort_desc_sorted. exact SFltb_asym.
Qed.

(* ================================================================= *)
(** ** The hybrid merger *)

Section Merger.
Context {F : Type} {ops : PyFloat F}.

Lemma neqb_of_neq (a b : N) : a <> b -> N.eqb a b = false.
Proof. intros Hab. apply N.eqb_neq, Hab. Qed.

Lemma component_score_snoc (recs : list (RecommendationResponse F))
      (r : RecommendationResponse F) (k : UUID) :
  component_score (recs ++ [r]) k =
  if N.eqb (rec_content_id r) k then score r else component_score recs k.
Proof.
  unfold component_score. rewrite fold_left_app. reflexivity.
Qed.

Lemma component_score_absent (recs : list (RecommendationResponse F))
      (k : UUID) :
  ~ In k (map (@rec_content_id F) recs) -> component_score recs k = f_0.
Proof.
  unfold component_score. generalize (f_0 : F).
  induction recs as [|r recs IH]; simpl; intros acc Hk; trivial.
  rewrite neqb_of_neq by tauto. apply IH. tauto.
Qed.

Lemma merge_content_based_inv m cbs (r : RecommendationResponse F) :
  merged_inv m cbs [] -> merged_inv (merge_content_based m r) (cbs ++ [r]) [].
Proof.
  intros (Hnd & Hval & Habs). unfold merge_content_based.
  split; [|split].
  - apply (dict_set_NoDup N.eqb N.eqb_eq), Hnd.
  - intros k d Hin. rewrite component_score_snoc.
    apply (dict_set_In N.eqb N.eqb_eq) in Hin; trivial.
    destruct Hin as [[-> ->]|[Hk Hin]]; simpl.
    + rewrite N.eqb_refl. auto.
    + rewrite neqb_of_neq by congruence. apply Hval, Hin.
  - intros k Hk. rewrite component_score_snoc.
    rewrite (dict_set_keys N.eqb N.eqb_eq) in Hk.
    rewrite neqb_of_neq by (intros E; apply Hk; auto).
    apply Habs. tauto.
Qed.

Lemma merge_collaborative_inv m cbs cls (r : RecommendationResponse F) :
  merged_inv m cbs cls ->
  merged_inv (merge_collaborative m r) cbs (cls ++ [r]).
Proof.
  intros (Hnd & Hval & Habs). unfold merge_collaborative.
  destruct (dict_get N.eqb m (rec_content_id r)) as [data|] eqn:G.
  - apply (dict_get_In N.eqb N.eqb_eq) in G.
    split; [|split].
    + apply (dict_set_NoDup N.eqb N.eqb_eq), Hnd.
    + intros k d Hin. rewrite component_score_snoc.
      apply (dict_set_In N.eqb N.eqb_eq) in Hin; trivial.
      destruct Hin as [[-> ->]|[Hk Hin]]; simpl.
      * rewrite N.eqb_refl. split; trivial. apply (Hval _ _ G).
      * rewrite neqb_of_neq by congruence. apply Hval, Hin.
    + intros k Hk. apply Habs.
      rewrite (dict_set_keys N.eqb N.eqb_eq) in Hk. tauto.
  - apply (dict_get_None N.eqb N.eqb_eq) in G.
    split; [|split].
    + apply (dict_set_NoDup N.eqb N.eqb_eq), Hnd.
    + intros k d Hin. rewrite component_score_snoc.
      apply (dict_set_In N.eqb N.eqb_eq) in Hin; trivial.
      destruct Hin as [[-> ->]|[Hk Hin]]; simpl.
      * rewrite N.eqb_refl. split; trivial. symmetry. apply Habs, G.
      * rewrite neqb_of_neq by congruence. apply Hval, Hin.
    + intros k Hk. apply Habs.
      rewrite (dict_set_keys N.eqb N.eqb_eq) in Hk. tauto.
Qed.

Lemma fold_content_based_inv rest : forall m cbs,
  merged_inv m cbs [] ->
  merged_inv (fold_left merge_content_based rest m) (cbs ++ rest) [].
Proof.
  induction rest as [|r rest IH]; intros m cbs Hinv; simpl.
  - rewrite app_nil_r. exact Hinv.
  - replace (cbs ++ r :: rest) with ((cbs ++ [r]) ++ rest)
      by (rewrite <- app_assoc; reflexivity).
    apply IH, merge_content_based_inv, Hinv.
Qed.

Lemma fold_collaborative_inv rest : forall m cbs cls,
  merged_inv m cbs cls ->
  merged_inv (fold_left merge_collaborative rest m) cbs (cls ++ rest).
Proof.
  induction rest as [|r rest IH]; intros m cbs cls Hinv; simpl.
  - rewrite app_nil_r. exact Hinv.
  - replace (cls ++ r :: rest) with ((cls ++ [r]) ++ rest)
      by (rewrite <- app_assoc; reflexivity).
    apply IH, merge_collaborative_inv, Hinv.
Qed.

Lemma merged_recs_of_inv (cbs cls : list (RecommendationResponse F)) :
  merged_inv (merged_recs_of cbs cls) cbs cls.
Proof.
  unfold merged_recs_of.
  apply (fold_collaborative_inv cls (cbs := cbs) (cls := [])).
  apply (fold_content_based_inv cbs (cbs := [])).
  split; [constructor|split]; simpl; [intros ? ? []|reflexivity].
Qed.

(** Every entry of the merger's output comes from an item of its map. *)
Lemma hybrid_merge_In (cbs cls : list (RecommendationResponse F)) (limit : Z)
      (r : RecommendationResponse F) :
  In r (_hybrid_merge_recommendations cbs cls limit) ->
  exists item, In item (merged_recs_of cbs cls) /\ r = hybrid_rec item.
Proof.
  unfold _hybrid_merge_recommendations. intros Hin.
  apply slice_to_incl, sort_desc_In, in_map_iff in Hin.
  destruct Hin as [item [E Hin]]. exists item. auto.
Qed.

End Merger.

(** C6. Every entry that the hybrid merger returns has the score
    [0.6 * content_based_score + 0.4 * collaborative_score], where the two
    component scores are those of the entry's content id in the two input
    lists, and the component score of a list that does not have the id is
    [0.0]. *)
Theorem hybrid_score_is_weighted_sum
        (F : Type) (ops : PyFloat F) (laws : PyFloatLaws ops)
        (content_based_recs collaborative_recs
         : list (RecommendationResponse F))
        (limit : Z) (r : RecommendationResponse F) :
  In r (_hybrid_merge_recommendations content_based_recs collaborative_recs
                                      limit) ->
  score r =
  fadd (fmul f_0_6 (component_score content_based_recs (rec_content_id r)))
       (fmul f_0_4 (component_score collaborative_recs (rec_content_id r)))
  /\ (~ In (rec_content_id r)
          (map (@rec_content_id F) content_based_recs) ->
      component_score content_based_recs (rec_content_id r) = f_0)
  /\ (~ In (rec_content_id r)
          (map (@rec_content_id F) collaborative_recs) ->
      component_score collaborative_recs (rec_content_id r) = f_0).
Proof.
  intros Hin. split; [|split; apply component_score_absent].
  apply hybrid_merge_In in Hin.
  destruct Hin as [[k d] [Hin ->]].
  destruct (merged_recs_of_inv content_based_recs collaborative_recs)
    as (_ & Hval & _).
  destruct (Hval k d Hin) as [Hcb Hcl].
  simpl. unfold hybrid_score_of, content_based_weight, collaborative_weight.
  rewrite Hcb, Hcl, (fmul_comm f_0_6), (fmul_comm f_0_4). reflexivity.
Qed.

Lemma hybrid_score_is_weighted_sum_witness :
  score Examples.example_top =
  fadd (fmul f_0_6 (component_score Examples.example_content_based 21))
       (fmul f_0_4 (component_score Examples.example_collaborative 21)).
Proof.
  apply (@hybrid_score_is_weighted_sum
           binary64 binary64_float binary64_laws
           Examples.example_content_based Examples.example_collaborative
           10%Z Examples.example_top).
  vm_compute. left. reflexivity.
Defined.

(** C8, as the code has it. For a limit [N >= 0] the merger returns at
    most [N] entries. When none of the hybrid scores of the merged
    entries is NaN, its output is sorted in non-increasing order: the
    score of every entry is [>=] the score of every later entry. *)
Theorem hybrid_merge_bounded_and_sorted_without_nan
        (content_based_recs collaborative_recs
         : list (RecommendationResponse binary64))
        (limit : Z) :
  ((0 <= limit)%Z ->
   (Z.of_nat (List.length (_hybrid_merge_recommendations
                             content_based_recs collaborative_recs limit))
    <= limit)%Z)
  /\ (Forall (fun s => b64_is_number s = true)
             (hybrid_scores content_based_recs collaborative_recs) ->
      StronglySorted score_ge
                     (_hybrid_merge_recommendations
                        content_based_recs collaborative_recs limit)).
Proof.
  unfold _hybrid_merge_recommendations. split.
  - apply slice_to_length.
  - intros Hnum. apply (ranked_strongly_sorted (@score binary64)).
    unfold hybrid_scores in Hnum. rewrite Forall_forall in *.
    intros r Hr. apply in_map_iff in Hr. destruct Hr as [item [<- Hitem]].
    apply Hnum. apply in_map_iff. exists item. auto.
Qed.

Lemma hybrid_merge_bounded_and_sorted_without_nan_witness :
  (Z.of_nat (List.length (_hybrid_merge_recommendations
                            Examples.example_content_based
                            Examples.example_collaborative 1))
   <= 1)%Z
  /\ StronglySorted score_ge
                    (_hybrid_merge_recommendations
                       Examples.example_content_based
                       Examples.example_collaborative 10).
Proof.
  split.
  - apply (proj1 (hybrid_merge_bounded_and_sorted_without_nan
                    Examples.example_content_based
                    Examples.example_collaborative 1)).
    lia.
  - apply (proj2 (hybrid_merge_bounded_and_sorted_without_nan
                    Examples.example_content_based
                    Examples.example_collaborative 10)).
    repeat constructor.
Defined.

(** C8 as stated fails on a NaN score. A content-based result of score
    1.0 and two collaborative results, of scores NaN and 3.0, merge into
    the hybrid scores 0.6, NaN and 1.2, and the sort leaves them in this
    order ([list.sort] finds a single run in the reversed list): the
    first score is strictly smaller than the last, and NaN is [>=]
    nothing. *)
Lemma hybrid_merge_with_nan_is_not_sorted :
  let merged :=
    _hybrid_merge_recommendations
      [content_based_rec 1 Examples.one]
      [collaborative_rec (2%N, S754_nan); collaborative_rec (3%N, b64_3)]
      10 in
  map (@rec_content_id binary64) merged = [1%N; 2%N; 3%N]
  /\ (exists a b c,
        map (@score binary64) merged = [a; b; c]
        /\ b = S754_nan /\ SFltb a c = true)
  /\ ~ Sorted score_ge merged.
Proof.
  intros merged. split; [vm_compute; reflexivity|]. split.
  - exists b64_0_6, S754_nan, (SFmul 53 1024 b64_3 b64_0_4).
    repeat split; vm_compute; reflexivity.
  - intros Hs.
    assert (Hm : Sorted (fun x y => SFleb y x = true)
                        (map (@score binary64) merged)).
    { induction Hs as [|a l Hl IH Hhd]; simpl; constructor; trivial.
      destruct Hhd; simpl; constructor; assumption. }
    replace (map (@score binary64) merged)
      with [b64_0_6; S754_nan; SFmul 53 1024 b64_3 b64_0_4] in Hm
      by (vm_compute; reflexivity).
    inversion Hm as [|? ? _ Hhd]; subst. inversion Hhd as [|? ? E]; subst.
    discriminate.
Qed.

(* ================================================================= *)
(** ** The content-based scorer *)

Section ContentBased.
Context {F : Type} {ops : PyFloat F}.

Lemma content_based_step_ok user_profile interactions recs item recs' :
  Forall (content_based_ok interactions) recs ->
  content_based_step user_profile interactions recs item = Ok recs' ->
  Forall (content_based_ok interactions) recs'.
Proof.
  intros Hrecs. unfold content_based_step.
  destruct (mem (fst item) (set_of (map (@uci_content_id F) interactions)))
    eqn:M.
  - intros [= <-]. exact Hrecs.
  - destruct (_calculate_similarity_score user_profile (snd item))
      as [similarity|e]; simpl; [|discriminate].
    destruct (fltb f_0 similarity); intros [= <-]; trivial.
    apply Forall_app. split; trivial. constructor; [|constructor].
    split; [reflexivity|]. simpl. intros Hin.
    apply set_of_In, mem_In in Hin. congruence.
Qed.

Lemma content_based_recs_ok db user_id user_prefs content_type subject
      difficulty_level limit recs :
  _get_content_based_recommendations
    db user_id user_prefs content_type subject difficulty_level limit
  = Ok recs ->
  Forall (content_based_ok (_get_user_interactions db user_id)) recs.
Proof.
  unfold _get_content_based_recommendations.
  set (interactions := _get_user_interactions db user_id).
  destruct (is_empty interactions && is_none user_prefs).
  { intros [= <-]. constructor. }
  destruct (is_empty (_get_content_feature_vectors _ _ _ _)).
  { intros [= <-]. constructor. }
  destruct (_calculate_user_profile db user_id interactions user_prefs)
    as [user_profile|e]; simpl; [|discriminate].
  destruct (for_each (content_based_step user_profile interactions) _ [])
    as [recommendations|e] eqn:Loop; simpl; [|discriminate].
  intros [= <-].
  assert (Hall : Forall (content_based_ok interactions) recommendations).
  { eapply (for_each_invariant (Forall (content_based_ok interactions)));
      [|constructor|exact Loop].
    intros s x s' _ Hs Hstep. eapply content_based_step_ok; eauto. }
  rewrite Forall_forall in *. intros r Hin.
  apply Hall. apply slice_to_incl, sort_desc_In in Hin. exact Hin.
Qed.

Lemma user_interactions_In db user_id (i : UserContentInteraction F) :
  In i (_get_user_interactions db user_id) <->
  In i (user_content_interactions db) /\ uci_user_id i = user_id.
Proof.
  unfold _get_user_interactions. rewrite sort_desc_In, filter_In.
  rewrite N.eqb_eq. reflexivity.
Qed.

End ContentBased.

(** The engine on the scenario: the profile is the vector of the completed
    content, and of the two candidates only the one with positive
    similarity is returned, with score 1.0. *)
Example scenario_content_based :
  _calculate_user_profile
    Examples.db_scenario 1 (_get_user_interactions Examples.db_scenario 1)
    None
  = Ok [Examples.one; Examples.zero]
  /\ _get_content_based_recommendations
       Examples.db_scenario 1 None None None None 10
     = Ok [content_based_rec 11 Examples.one].
Proof. split; reflexivity. Qed.

(** A user without interactions and preferences gets the empty list. *)
Example scenario_new_user :
  get_recommendations Examples.db_scenario 7 None None None 10
  = (Ok [], Examples.db_scenario).
Proof. reflexivity. Qed.

(** C7. A content id that the content-based scorer returns for a user is
    the content id of no interaction of that user in the interaction
    table. *)
Theorem content_based_excludes_interacted
        (F : Type) (ops : PyFloat F) (db : Database F) (user_id : UUID)
        (user_prefs : option UserPreference)
        (content_type subject difficulty_level : option string) (limit : Z)
        (recs : list (RecommendationResponse F)) :
  _get_content_based_recommendations
    db user_id user_prefs content_type subject difficulty_level limit
  = Ok recs ->
  forall r i,
    In r recs ->
    In i (user_content_interactions db) ->
    uci_user_id i = user_id ->
    uci_content_id i <> rec_content_id r.
Proof.
  intros Hrun r i Hr Hi Hu E.
  apply content_based_recs_ok in Hrun.
  rewrite Forall_forall in Hrun. destruct (Hrun r Hr) as [_ Hnot].
  apply Hnot. rewrite <- E. apply in_map.
  apply user_interactions_In. auto.
Qed.

Lemma content_based_excludes_interacted_witness :
  uci_content_id (Examples.interaction 2 20 LIKE Examples.one 1)
  <> rec_content_id (content_based_rec 21 Examples.one).
Proof.
  apply (@content_based_excludes_interacted
           binary64 binary64_float (Examples.db_two_users false) 2%N
           None None None None 10%Z [content_based_rec 21 Examples.one]).
  - reflexivity.
  - left. reflexivity.
  - simpl. right. left. reflexivity.
  - reflexivity.
Defined.

(* ================================================================= *)
(** ** The source recorded in the metadata of a hybrid recommendation *)

Section Source.
Context {F : Type} {ops : PyFloat F}.

Lemma collaborative_recs_ok db user_id content_type subject difficulty_level
      limit recs :
  _get_collaborative_recommendations
    db user_id content_type subject difficulty_level limit = Ok recs ->
  Forall collaborative_ok recs.
Proof.
  unfold _get_collaborative_recommendations.
  destruct (is_empty (_get_user_interactions db user_id)).
  { intros [= <-]. constructor. }
  destruct (_find_similar_users db user_id _) as [similar_users|e];
    simpl; [|discriminate].
  destruct (is_empty similar_users).
  { intros [= <-]. constructor. }
  unfold _get_recommendations_from_similar_users.
  destruct (for_each _ _ []) as [content_scores|e]; simpl; [|discriminate].
  intros [= <-]. rewrite Forall_forall. intros r Hin.
  apply slice_to_incl, sort_desc_In, in_map_iff in Hin.
  destruct Hin as [item [<- _]]. reflexivity.
Qed.

Lemma fold_left_invariant {A B : Type} (P : B -> Prop) (step : B -> A -> B)
      (l : list A) :
  (forall b x, In x l -> P b -> P (step b x)) ->
  forall b, P b -> P (fold_left step l b).
Proof.
  induction l as [|x l IH]; simpl; intros Hstep b Hb; trivial.
  apply IH; auto.
Qed.

Lemma merge_content_based_metadata interactions m r :
  content_based_ok interactions r ->
  metadata_ok m -> metadata_ok (merge_content_based m r).
Proof.
  intros [Hr _] Hm k d Hin. unfold merge_content_based in Hin.
  apply dict_set_values in Hin. destruct Hin as [->|Hin]; [|eapply Hm, Hin].
  simpl. rewrite Hr. constructor.
Qed.

Lemma merge_collaborative_metadata m r :
  collaborative_ok r ->
  metadata_ok m -> metadata_ok (merge_collaborative m r).
Proof.
  intros Hr Hm k d Hin. unfold merge_collaborative in Hin.
  destruct (dict_get N.eqb m (rec_content_id r)) as [data|] eqn:G;
    apply dict_set_values in Hin;
    (destruct Hin as [->|Hin]; [|eapply Hm, Hin]); simpl; rewrite Hr.
  - apply (dict_get_In N.eqb N.eqb_eq) in G.
    destruct (Hm _ _ G); constructor.
  - constructor.
Qed.

Lemma merged_recs_of_metadata interactions cbs cls :
  Forall (content_based_ok interactions) cbs ->
  Forall collaborative_ok cls ->
  metadata_ok (merged_recs_of cbs cls).
Proof.
  rewrite !Forall_forall. intros Hcb Hcl. unfold merged_recs_of.
  apply fold_left_invariant.
  - intros m r Hin. apply merge_collaborative_metadata, Hcl, Hin.
  - apply fold_left_invariant.
    + intros m r Hin.
      apply (merge_content_based_metadata (interactions := interactions)).
      apply Hcb, Hin.
    + intros ? ? [].
Qed.

Lemma hybrid_rec_source (item : UUID * MergedEntry F) :
  component_metadata (me_metadata (snd item)) ->
  recommendation_source (hybrid_rec item) = Some (MStr "content_based")
  \/ recommendation_source (hybrid_rec item) = Some (MStr "collaborative").
Proof.
  unfold recommendation_source, hybrid_rec. simpl.
  intros Hmd. destruct Hmd; [left|right|right]; reflexivity.
Qed.

End Source.

(** C9. Every recommendation that [get_recommendations] returns has the
    type [hybrid], and the [recommendation_source] of its metadata is
    ["content_based"] or ["collaborative"], the value of a component
    scorer, and so is not ["hybrid"]. *)
Theorem hybrid_type_with_component_source
        (F : Type) (ops : PyFloat F) (db db' : Database F) (user_id : UUID)
        (content_type subject difficulty_level : option string) (limit : Z)
        (recs : list (RecommendationResponse F)) :
  get_recommendations db user_id content_type subject difficulty_level limit
  = (Ok recs, db') ->
  forall r, In r recs ->
    recommendation_type r = HYBRID
    /\ (recommendation_source r = Some (MStr "content_based")
        \/ recommendation_source r = Some (MStr "collaborative"))
    /\ recommendation_source r <> Some (MStr "hybrid").
Proof.
  unfold get_recommendations. intros Hrun r Hin.
  destruct (_get_content_based_recommendations _ _ _ _ _ _ _)
    as [cbs|e] eqn:Hcb; [|discriminate].
  destruct (_get_collaborative_recommendations _ _ _ _ _ _)
    as [cls|e] eqn:Hcl; [|discriminate].
  destruct (_record_recommendations db user_id _) as [[u|e] db1];
    [|discriminate].
  injection Hrun as <- <-.
  apply hybrid_merge_In in Hin. destruct Hin as [item [Hitem ->]].
  apply content_based_recs_ok in Hcb. apply collaborative_recs_ok in Hcl.
  pose proof (merged_recs_of_metadata Hcb Hcl) as Hmd.
  destruct item as [k d]. specialize (Hmd k d Hitem).
  split; [reflexivity|].
  destruct (hybrid_rec_source (k, d) Hmd) as [E|E]; rewrite E.
  - split; [auto|discriminate].
  - split; [auto|discriminate].
Qed.

Lemma hybrid_type_with_component_source_witness :
  recommendation_type Examples.example_hybrid = HYBRID
  /\ (recommendation_source Examples.example_hybrid
      = Some (MStr "content_based")
      \/ recommendation_source Examples.example_hybrid
         = Some (MStr "collaborative"))
  /\ recommendation_source Examples.example_hybrid <> Some (MStr "hybrid").
Proof.
  apply (@hybrid_type_with_component_source
           binary64 binary64_float
           (Examples.db_two_users false)
           (snd (get_recommendations (Examples.db_two_users false) 2
                                     None None None 10))
           2%N None None None 10%Z [Examples.example_hybrid]).
  - reflexivity.
  - left. reflexivity.
Defined.

(* ================================================================= *)
(** ** Interaction types outside the weight table *)

Section UnknownType.
Context {F : Type} {ops : PyFloat F}.

Lemma interaction_weight_unknown (t : string) :
  known_interaction_type t = false -> interaction_weight t = f_1.
Proof.
  unfold known_interaction_type, interaction_weight, interaction_weights.
  simpl. intros Hk.
  destruct (String.eqb t VIEW); [discriminate|].
  destruct (String.eqb t COMPLETE); [discriminate|].
  destruct (String.eqb t LIKE); [discriminate|].
  destruct (String.eqb t BOOKMARK); [discriminate|].
  reflexivity.
Qed.

Lemma as_view_weight (i : UserContentInteraction F) :
  interaction_weight (interaction_type (as_view i))
  = interaction_weight (interaction_type i).
Proof.
  unfold as_view.
  destruct (known_interaction_type (interaction_type i)) eqn:Hk; trivial.
  simpl. rewrite (interaction_weight_unknown _ Hk). reflexivity.
Qed.

Lemma as_view_content_id (i : UserContentInteraction F) :
  uci_content_id (as_view i) = uci_content_id i.
Proof.
  unfold as_view. destruct (known_interaction_type _); reflexivity.
Qed.

Lemma as_view_user_id (i : UserContentInteraction F) :
  uci_user_id (as_view i) = uci_user_id i.
Proof.
  unfold as_view. destruct (known_interaction_type _); reflexivity.
Qed.

Lemma as_view_engagement (i : UserContentInteraction F) :
  engagement_score (as_view i) = engagement_score i.
Proof.
  unfold as_view. destruct (known_interaction_type _); reflexivity.
Qed.

Lemma as_view_content_ids (l : list (UserContentInteraction F)) :
  map (@uci_content_id F) (map as_view l) = map (@uci_content_id F) l.
Proof.
  rewrite map_map. apply map_ext. exact as_view_content_id.
Qed.

Lemma profile_step_as_view content_vectors st (i : UserContentInteraction F) :
  profile_step content_vectors st (as_view i)
  = profile_step content_vectors st i.
Proof.
  unfold profile_step.
  rewrite as_view_content_id, as_view_weight, as_view_engagement.
  reflexivity.
Qed.

Lemma accumulate_profile_as_view db (l : list (UserContentInteraction F)) :
  accumulate_profile db (map as_view l) = accumulate_profile db l.
Proof.
  unfold accumulate_profile. rewrite as_view_content_ids, for_each_map.
  apply for_each_ext. intros s x _. apply profile_step_as_view.
Qed.

Lemma calculate_user_profile_as_view db user_id
      (l : list (UserContentInteraction F)) user_prefs :
  _calculate_user_profile db user_id (map as_view l) user_prefs
  = _calculate_user_profile db user_id l user_prefs.
Proof.
  unfold _calculate_user_profile, interaction_profile.
  rewrite accumulate_profile_as_view.
  destruct l; reflexivity.
Qed.

Lemma create_interaction_vector_as_view
      (l : list (UserContentInteraction F)) content_ids :
  _create_interaction_vector (map as_view l) content_ids
  = _create_interaction_vector l content_ids.
Proof.
  unfold _create_interaction_vector. rewrite for_each_map.
  apply for_each_ext. intros s x _.
  rewrite as_view_content_id, as_view_weight, as_view_engagement.
  reflexivity.
Qed.

Lemma score_step_as_view user_content_ids similar_user_weights content_scores
      (i : UserContentInteraction F) :
  score_step user_content_ids similar_user_weights content_scores (as_view i)
  = score_step user_content_ids similar_user_weights content_scores i.
Proof.
  unfold score_step.
  rewrite as_view_content_id, as_view_user_id, as_view_weight,
    as_view_engagement.
  reflexivity.
Qed.

End UnknownType.

(* ================================================================= *)
(** ** The profile builder *)

Section Profile.
Context {F : Type} {ops : PyFloat F}.




End Profile.




(* ================================================================= *)
(** ** Exceptions: the history write and vectors of different lengths *)

(** C1, as the code has it. Once both scorers have returned, the request
    commits the history of the merged list: if the commit fails, the
    exception leaves [get_recommendations] (nothing catches it), the
    caller gets no list and nothing is stored; if it succeeds, the caller
    gets the merged list and one history record per recommendation is
    stored. *)
Theorem history_write_failure_propagates
        (F : Type) (ops : PyFloat F) (db : Database F) (user_id : UUID)
        (content_type subject difficulty_level : option string) (limit : Z)
        (content_based_recs collab_recs : list (RecommendationResponse F)) :
  _get_content_based_recommendations
    db user_id (_get_user_preferences db user_id)
    content_type subject difficulty_level limit = Ok content_based_recs ->
  _get_collaborative_recommendations
    db user_id content_type subject difficulty_level limit = Ok collab_recs ->
  let final_recs :=
    _hybrid_merge_recommendations content_based_recs collab_recs limit in
  let outcome :=
    get_recommendations db user_id content_type subject difficulty_level
                        limit in
  (commit_fails db = true -> outcome = (Raise DatabaseError, db))
  /\ (commit_fails db = false ->
      fst outcome = Ok final_recs
      /\ recommendation_history (snd outcome)
         = recommendation_history db ++ map (history_of user_id) final_recs).
Proof.
  intros Hcb Hcl final_recs outcome. subst outcome final_recs.
  unfold get_recommendations. rewrite Hcb, Hcl.
  unfold _record_recommendations.
  split; intros Hcommit; rewrite Hcommit; simpl; auto.
Qed.

Lemma history_write_failure_propagates_witness :
  get_recommendations (Examples.db_two_users true) 2 None None None 10
  = (Raise DatabaseError, Examples.db_two_users true)
  /\ fst (get_recommendations (Examples.db_two_users false) 2
                              None None None 10)
     = Ok (_hybrid_merge_recommendations
             [content_based_rec 21 Examples.one]
             [collaborative_rec (21%N, f_3)] 10).
Proof.
  split.
  - apply (@history_write_failure_propagates
             binary64 binary64_float (Examples.db_two_users true) 2%N
             None None None 10%Z
             [content_based_rec 21 Examples.one]
             [collaborative_rec (21%N, f_3)]);
      reflexivity.
  - apply (@history_write_failure_propagates
             binary64 binary64_float (Examples.db_two_users false) 2%N
             None None None 10%Z
             [content_based_rec 21 Examples.one]
             [collaborative_rec (21%N, f_3)]);
      reflexivity.
Defined.

(** C1 as stated fails: the merger has produced a list of one
    recommendation, the commit of its history fails, and the request ends
    in the exception instead of returning the list. *)
Lemma history_write_failure_fails_request :
  _hybrid_merge_recommendations
    [content_based_rec 21 Examples.one] [collaborative_rec (21%N, f_3)] 10
  <> []
  /\ _get_content_based_recommendations
       (Examples.db_two_users true) 2 None None None None 10
     = Ok [content_based_rec 21 Examples.one]
  /\ _get_collaborative_recommendations
       (Examples.db_two_users true) 2 None None None 10
     = Ok [collaborative_rec (21%N, f_3)]
  /\ fst (get_recommendations (Examples.db_two_users true) 2
                              None None None 10)
     = Raise DatabaseError.
Proof.
  repeat split; try reflexivity. vm_compute. discriminate.
Qed.

Section Mismatch.
Context {F : Type} {ops : PyFloat F}.

Lemma similarity_raises_ValueError (vec1 vec2 : list F) (e : PyError) :
  _calculate_similarity_score vec1 vec2 = Raise e -> e = ValueError.
Proof.
  unfold _calculate_similarity_score, cosine.
  destruct (is_empty vec1 || is_empty vec2); [discriminate|].
  destruct (Nat.eqb (List.length vec1) (List.length vec2)); simpl;
    congruence.
Qed.

Lemma similarity_of_mismatch (vec1 vec2 : list F) :
  vec1 <> [] -> vec2 <> [] -> List.length vec2 <> List.length vec1 ->
  _calculate_similarity_score vec1 vec2 = Raise ValueError.
Proof.
  intros H1 H2 Hlen. unfold _calculate_similarity_score, cosine.
  destruct vec1; [congruence|]. destruct vec2; [congruence|].
  simpl is_empty. simpl orb. cbv iota.
  destruct (Nat.eqb (List.length (f :: vec1)) (List.length (f0 :: vec2)))
    eqn:E; trivial.
  apply Nat.eqb_eq in E. congruence.
Qed.

Lemma content_based_step_raises user_profile interactions recs item e :
  content_based_step (F := F) user_profile interactions recs item = Raise e ->
  e = ValueError.
Proof.
  unfold content_based_step.
  destruct (mem _ _); [discriminate|].
  destruct (_calculate_similarity_score user_profile (snd item))
    as [similarity|e'] eqn:E; simpl.
  - destruct (fltb f_0 similarity); discriminate.
  - intros [= <-]. eapply similarity_raises_ValueError, E.
Qed.

End Mismatch.

(** C2, as the code has it. When the profile vector and the vector of a
    candidate the user has not interacted with are both non-empty and of
    different lengths, the comparison raises [ValueError], nothing catches
    it, and both the content-based scorer and the request as a whole end
    in that exception: no candidate is excluded and no list is
    returned. *)
Theorem dimension_mismatch_aborts_request
        (F : Type) (ops : PyFloat F) (db : Database F) (user_id : UUID)
        (content_type subject difficulty_level : option string) (limit : Z)
        (user_profile : list F) (content_id : UUID)
        (feature_vector : list F) :
  let user_prefs := _get_user_preferences db user_id in
  let interactions := _get_user_interactions db user_id in
  _calculate_user_profile db user_id interactions user_prefs
  = Ok user_profile ->
  In (content_id, feature_vector)
     (_get_content_feature_vectors db content_type subject
                                   difficulty_level) ->
  ~ In content_id (map (@uci_content_id F) interactions) ->
  user_profile <> [] ->
  feature_vector <> [] ->
  List.length feature_vector <> List.length user_profile ->
  _get_content_based_recommendations
    db user_id user_prefs content_type subject difficulty_level limit
  = Raise ValueError
  /\ get_recommendations db user_id content_type subject difficulty_level
                         limit
     = (Raise ValueError, db).
Proof.
  intros user_prefs interactions Hprofile Hcand Hnew Hp Hv Hlen.
  assert (Hcb : _get_content_based_recommendations
                  db user_id user_prefs content_type subject
                  difficulty_level limit = Raise ValueError).
  { unfold _get_content_based_recommendations.
    fold interactions.
    destruct (is_empty interactions && is_none user_prefs) eqn:Hsignal.
    { unfold _calculate_user_profile in Hprofile.
      rewrite Hsignal in Hprofile. congruence. }
    destruct (_get_content_feature_vectors db content_type subject
                                           difficulty_level)
      as [|item items] eqn:Hvectors; [destruct Hcand|].
    assert (Hloop : for_each (content_based_step user_profile interactions)
                             (item :: items) [] = Raise ValueError).
    { apply for_each_raises with (x := (content_id, feature_vector)).
      - exact Hcand.
      - intros recs. unfold content_based_step. simpl fst. simpl snd.
        destruct (mem content_id
                      (set_of (map (@uci_content_id F) interactions)))
          eqn:M.
        + rewrite mem_In, set_of_In in M. contradiction.
        + rewrite (similarity_of_mismatch Hp Hv Hlen). reflexivity.
      - intros recs y e. apply content_based_step_raises. }
    simpl is_empty. cbv iota. rewrite Hprofile. cbn [bind].
    rewrite Hloop. reflexivity. }
  split; trivial.
  unfold get_recommendations. fold user_prefs. rewrite Hcb. reflexivity.
Qed.

Lemma dimension_mismatch_aborts_request_witness :
  _get_content_based_recommendations
    Examples.db_mismatch 1 (_get_user_preferences Examples.db_mismatch 1)
    None None None 10
  = Raise ValueError
  /\ get_recommendations Examples.db_mismatch 1 None None None 10
     = (Raise ValueError, Examples.db_mismatch).
Proof.
  apply (@dimension_mismatch_aborts_request
           binary64 binary64_float Examples.db_mismatch 1%N None None None
           10%Z [Examples.one; Examples.zero] 11%N
           [Examples.one; Examples.zero; Examples.zero]).
  - reflexivity.
  - simpl. right. left. reflexivity.
  - simpl. intros [E|[]]. discriminate.
  - discriminate.
  - discriminate.
  - simpl. lia.
Defined.

(** C2 as stated fails: content 11 has a vector of three components, the
    profile of user 1 has two, and the request for user 1 ends in
    [ValueError]; it does not return a list without content 11. *)
Lemma dimension_mismatch_fails_request :
  _calculate_user_profile
    Examples.db_mismatch 1 (_get_user_interactions Examples.db_mismatch 1)
    None
  = Ok [Examples.one; Examples.zero]
  /\ _calculate_similarity_score
       [Examples.one; Examples.zero]
       [Examples.one; Examples.zero; Examples.zero]
     = Raise ValueError
  /\ forall recs,
       fst (get_recommendations Examples.db_mismatch 1 None None None 10)
       <> Ok recs.
Proof.
  repeat split; try reflexivity. intros recs. vm_compute. discriminate.
Qed.

(* ================================================================= *)
(** ** The collaborative scorer and the filters *)

(** The collaborative scorer returns the same list whatever the filters
    are: it never reads them. *)
Lemma collaborative_ignores_filters
      (F : Type) (ops : PyFloat F) (db : Database F) (user_id : UUID)
      (content_type subject difficulty_level : option string) (limit : Z) :
  _get_collaborative_recommendations
    db user_id content_type subject difficulty_level limit
  = _get_collaborative_recommendations db user_id None None None limit.
Proof. reflexivity. Qed.

(** C4 fails on the code. Content 21 is stored with the metadata
    [content_type = "quiz"], so the filtered vector query for
    [content_type = "story"] does not return it; the collaborative scorer
    called with that filter returns it all the same, and so does the
    request. *)
Theorem collaborative_scorer_does_not_filter :
  let db := Examples.db_two_users false in
  map fst (_get_content_feature_vectors db (Some "story") None None)
  = [20%N]
  /\ _get_collaborative_recommendations db 2 (Some "story") None None 10
     = Ok [collaborative_rec (21%N, f_3)]
  /\ option_map (map (@rec_content_id binary64))
       (match fst (get_recommendations db 2 (Some "story") None None 10) with
        | Ok recs => Some recs
        | Raise _ => None
        end)
     = Some [21%N].
Proof. repeat split. Qed.

(* ================================================================= *)
(** ** Cosine similarity *)

Section Similarity.
Context {F : Type} {ops : PyFloat F} {laws : PyFloatLaws ops}.

Lemma dot_fold_comm (u v : list F) : forall acc,
  fold_left (fun acc p => fadd acc (fmul (fst p) (snd p))) (combine u v) acc
  = fold_left (fun acc p => fadd acc (fmul (fst p) (snd p))) (combine v u)
              acc.
Proof.
  revert v. induction u as [|x u IH]; intros [|y v] acc; simpl; trivial.
  rewrite (fmul_comm x y). apply IH.
Qed.

Lemma dot_comm (u v : list F) : dot u v = dot v u.
Proof. apply dot_fold_comm. Qed.

Lemma cosine_comm (u v : list F) : cosine u v = cosine v u.
Proof.
  unfold cosine. rewrite (Nat.eqb_sym (List.length u) (List.length v)).
  rewrite (dot_comm u v), (fmul_comm (dot u u) (dot v v)). reflexivity.
Qed.

Lemma similarity_comm (vec1 vec2 : list F) :
  _calculate_similarity_score vec1 vec2
  = _calculate_similarity_score vec2 vec1.
Proof.
  unfold _calculate_similarity_score.
  rewrite (orb_comm (is_empty vec1)), (cosine_comm vec1 vec2). reflexivity.
Qed.

End Similarity.

(* ================================================================= *)
(** ** Score normalisation *)

Lemma b64_is_nan (x : binary64) : is_nan x = true <-> x = S754_nan.
Proof.
  unfold is_nan. cbn [fltb f_1 f_0 binary64_float]. unfold b64_1.
  destruct x as [s|s| |s m e].
  - destruct s; split; intros E; discriminate.
  - destruct s; split; intros E; discriminate.
  - split; reflexivity.
  - destruct s.
    + split; intros E; discriminate.
    + replace (SFltb (S754_zero false) (S754_finite false m e)) with true
        by reflexivity.
      rewrite andb_false_r. split; intros E; discriminate.
Qed.

Section NormalizeConstant.
Context {F : Type} {ops : PyFloat F} {laws : PyFloatLaws ops}.

Lemma fltb_irrefl (x : F) : fltb x x = false.
Proof.
  destruct (fltb x x) eqn:E; trivial.
  rewrite (fltb_asym x x E) in E. discriminate.
Qed.

Lemma np_min_constant (x : F) (l : list F) :
  Forall (eq x) l -> np_min x l = x.
Proof.
  unfold np_min. induction 1 as [|y l <- _ IH]; simpl; trivial.
  unfold np_min_step at 2. rewrite fltb_irrefl.
  destruct (is_nan x); exact IH.
Qed.

Lemma np_max_constant (x : F) (l : list F) :
  Forall (eq x) l -> np_max x l = x.
Proof.
  unfold np_max. induction 1 as [|y l <- _ IH]; simpl; trivial.
  unfold np_max_step at 2. rewrite fltb_irrefl.
  destruct (is_nan x); exact IH.
Qed.

End NormalizeConstant.

(** X3. [_normalize_scores]: when every score is the same number (not NaN),
    there is no range to divide by and every normalised score is
    [max_score]. *)
Theorem normalize_scores_of_equal_scores
        (F : Type) (ops : PyFloat F) (laws : PyFloatLaws ops)
        (x : F) (rest : list F) (min_score max_score : F) :
  is_nan x = false ->
  Forall (eq x) rest ->
  _normalize_scores (x :: rest) min_score max_score
  = repeat max_score (S (List.length rest)).
Proof.
  intros Hx Hall. unfold _normalize_scores.
  rewrite (np_min_constant Hall), (np_max_constant Hall).
  unfold feqb. rewrite Hx, fltb_irrefl. reflexivity.
Qed.

Lemma normalize_scores_of_equal_scores_witness :
  _normalize_scores [b64_2; b64_2; b64_2] Examples.zero Examples.one
  = repeat Examples.one 3.
Proof.
  apply (@normalize_scores_of_equal_scores
           binary64 binary64_float binary64_laws b64_2 [b64_2; b64_2]
           Examples.zero Examples.one).
  - reflexivity.
  - repeat constructor.
Defined.

(* ================================================================= *)
(** ** Similarity: when it raises *)

(** X4. [_calculate_similarity_score] raises exactly when both vectors are
    non-empty and their lengths differ, and the exception is then
    [ValueError]; in every other case it returns a number. *)
Theorem similarity_raises_iff_mismatch
        (F : Type) (ops : PyFloat F) (vec1 vec2 : list F) (e : PyError) :
  _calculate_similarity_score vec1 vec2 = Raise e
  <-> (vec1 <> [] /\ vec2 <> []
       /\ List.length vec1 <> List.length vec2 /\ e = ValueError).
Proof.
  unfold _calculate_similarity_score, cosine. split.
  - destruct vec1 as [|x u]; [discriminate|].
    destruct vec2 as [|y v]; [discriminate|].
    simpl is_empty. simpl orb. cbv iota.
    destruct (Nat.eqb (List.length (x :: u)) (List.length (y :: v))) eqn:E;
      simpl bind; [discriminate|].
    intros [= <-]. apply Nat.eqb_neq in E.
    repeat split; trivial; discriminate.
  - intros (H1 & H2 & Hlen & ->).
    destruct vec1 as [|x u]; [congruence|].
    destruct vec2 as [|y v]; [congruence|].
    simpl is_empty. simpl orb. cbv iota.
    apply Nat.eqb_neq in Hlen. rewrite Hlen. reflexivity.
Qed.

(* ================================================================= *)
(** ** The queries *)

Section SortPermutation.
Context {A K : Type} (key : A -> K) (ltb : K -> K -> bool).

Lemma insert_desc_perm (x : A) (l : list A) :
  Permutation (x :: l) (insert_desc key ltb x l).
Proof.
  induction l as [|h t IH]; simpl; [apply Permutation_refl|].
  destruct (ltb (key x) (key h)); [|apply Permutation_refl].
  apply perm_trans with (h :: x :: t); [apply perm_swap|].
  apply perm_skip, IH.
Qed.

Lemma sort_desc_perm (l : list A) : Permutation l (sort_desc key ltb l).
Proof.
  induction l as [|x l IH]; simpl; [apply perm_nil|].
  apply perm_trans with (x :: sort_desc key ltb l).
  - apply perm_skip, IH.
  - apply insert_desc_perm.
Qed.

End SortPermutation.

Lemma Zltb_asym (x y : Z) : Z.ltb x y = true -> Z.ltb y x = false.
Proof. intros Hxy. apply Z.ltb_lt in Hxy. apply Z.ltb_ge. lia. Qed.

(** X5. [_get_user_interactions] returns the rows of the interaction table
    that belong to the user, each as often as it is stored, the most
    recent first: no interaction is followed by a later one. *)
Theorem user_interactions_are_the_users_rows_newest_first
        (F : Type) (db : Database F) (user_id : UUID) :
  Permutation
    (filter (fun i => N.eqb (uci_user_id i) user_id)
            (user_content_interactions db))
    (_get_user_interactions db user_id)
  /\ Sorted (fun a b => (created_at b <= created_at a)%Z)
            (_get_user_interactions db user_id)
  /\ (forall i, In i (_get_user_interactions db user_id) ->
                uci_user_id i = user_id).
Proof.
  unfold _get_user_interactions. split; [apply sort_desc_perm|]. split.
  - pose proof (sort_desc_sorted (@created_at F) Z.ltb Zltb_asym
                  (filter (fun i => N.eqb (uci_user_id i) user_id)
                          (user_content_interactions db))) as Hs.
    induction Hs as [|a l Hl IH Hhd]; constructor; trivial.
    destruct Hhd as [|b l Hab]; constructor.
    unfold no_ascent in Hab. apply Z.ltb_ge in Hab. exact Hab.
  - intros i Hi. apply sort_desc_In, filter_In in Hi.
    apply N.eqb_eq, Hi.
Qed.

Section VectorQuery.
Context {F : Type} {ops : PyFloat F}.

Lemma vector_dict_fold_keys (rows : list (ContentFeatureVector F)) :
  forall (d : list (UUID * list F)) (k : UUID),
    In k (map fst (fold_left (fun d v => dict_set N.eqb d (cfv_content_id v)
                                                  (feature_vector v))
                             rows d))
    <-> In k (map fst d) \/ In k (map (@cfv_content_id F) rows).
Proof.
  induction rows as [|v rows IH]; intros d k; simpl; [tauto|].
  rewrite IH, (dict_set_keys N.eqb N.eqb_eq). intuition congruence.
Qed.

Lemma vector_dict_key_iff (rows : list (ContentFeatureVector F)) (k : UUID) :
  In k (map fst (vector_dict rows))
  <-> In k (map (@cfv_content_id F) rows).
Proof.
  unfold vector_dict. rewrite vector_dict_fold_keys. simpl. tauto.
Qed.

Lemma vector_dict_NoDup (rows : list (ContentFeatureVector F)) :
  NoDup (map fst (vector_dict rows)).
Proof.
  unfold vector_dict.
  apply (fold_left_invariant (fun d => NoDup (map fst d))).
  - intros d v _ Hd. apply (dict_set_NoDup N.eqb N.eqb_eq), Hd.
  - constructor.
Qed.

Lemma vector_dict_In (rows : list (ContentFeatureVector F))
      (k : UUID) (fv : list F) :
  In (k, fv) (vector_dict rows) ->
  exists v, In v rows /\ cfv_content_id v = k /\ feature_vector v = fv.
Proof.
  unfold vector_dict.
  apply (fold_left_invariant
           (fun d => NoDup (map fst d)
                     /\ forall k fv, In (k, fv) d ->
                          exists v, In v rows /\ cfv_content_id v = k
                                    /\ feature_vector v = fv)).
  - intros d v Hv [Hnd Hd]. split.
    + apply (dict_set_NoDup N.eqb N.eqb_eq), Hnd.
    + intros k' fv' Hin.
      apply (dict_set_In N.eqb N.eqb_eq) in Hin; trivial.
      destruct Hin as [[-> ->]|[_ Hin]]; [exists v; auto|].
      apply Hd, Hin.
  - split; [constructor|intros ? ? []].
Qed.

Lemma truthy_passes (key : string) (value : option string)
      (v : ContentFeatureVector F) :
  truthy value = false -> passes key value v = true.
Proof. unfold passes. intros ->. reflexivity. Qed.

(** The rows that the query selects are the rows that pass the filters. *)
Lemma selected_rows (db : Database F)
      (content_type subject difficulty_level : option string)
      (v : ContentFeatureVector F) :
  In v (if truthy content_type || truthy subject || truthy difficulty_level
        then filter (fun v => passes "content_type" content_type v
                              && passes "subject" subject v
                              && passes "difficulty_level" difficulty_level v)
                    (content_feature_vectors db)
        else content_feature_vectors db)
  <-> In v (content_feature_vectors db)
      /\ passes_filters content_type subject difficulty_level v.
Proof.
  unfold passes_filters.
  destruct (truthy content_type || truthy subject || truthy difficulty_level)
    eqn:E.
  - rewrite filter_In, !andb_true_iff. tauto.
  - apply orb_false_elim in E. destruct E as [E E3].
    apply orb_false_elim in E. destruct E as [E1 E2].
    rewrite !truthy_passes by assumption. tauto.
Qed.

End VectorQuery.

(** X6. [_get_content_feature_vectors] returns one entry per content id; an
    id is returned exactly when some stored row of that id passes every
    filter that is given, and the vector returned with it is the vector
    of such a row. A filter that is absent or the empty string lets every
    row pass; a row whose metadata lacks the key of a given filter does
    not pass it. *)
Theorem feature_vector_query_respects_filters
        (F : Type) (ops : PyFloat F) (db : Database F)
        (content_type subject difficulty_level : option string) :
  let result :=
    _get_content_feature_vectors db content_type subject difficulty_level in
  NoDup (map fst result)
  /\ (forall content_id,
        In content_id (map fst result) <->
        exists v, In v (content_feature_vectors db)
                  /\ cfv_content_id v = content_id
                  /\ passes_filters content_type subject difficulty_level v)
  /\ (forall content_id vector,
        In (content_id, vector) result ->
        exists v, In v (content_feature_vectors db)
                  /\ cfv_content_id v = content_id
                  /\ feature_vector v = vector
                  /\ passes_filters content_type subject difficulty_level v)
  /\ (forall key value v,
        truthy value = false -> passes (F := F) key value v = true)
  /\ (forall key value v,
        truthy value = true ->
        dict_get String.eqb (cfv_metadata v) key = None ->
        passes (F := F) key value v = false).
Proof.
  intros result. subst result. unfold _get_content_feature_vectors.
  split; [apply vector_dict_NoDup|]. split; [|split; [|split]].
  - intros k. rewrite vector_dict_key_iff, in_map_iff. split.
    + intros [v [E Hv]]. apply selected_rows in Hv. exists v. tauto.
    + intros [v (Hv & E & Hp)]. exists v. split; trivial.
      apply selected_rows. tauto.
  - intros k fv Hin. apply vector_dict_In in Hin.
    destruct Hin as [v (Hv & E1 & E2)]. apply selected_rows in Hv.
    exists v. tauto.
  - intros key value v. apply truthy_passes.
  - intros key value v Ht Hnone. unfold passes. rewrite Ht, Hnone.
    reflexivity.
Qed.

(* ================================================================= *)
(** ** More on loops, lists and dictionaries *)

Section LoopFacts.
Context {A S : Type}.

(** A loop whose body succeeds on every state that satisfies the
    invariant succeeds, in a state that satisfies it. *)
Lemma for_each_total (P : S -> Prop) (body : S -> A -> result S)
      (l : list A) :
  (forall s x, In x l -> P s -> exists s', body s x = Ok s' /\ P s') ->
  forall s, P s -> exists s', for_each body l s = Ok s' /\ P s'.
Proof.
  induction l as [|x l IH]; simpl; intros Hbody s Hs.
  - exists s. auto.
  - destruct (Hbody s x (or_introl eq_refl) Hs) as [s1 [E H1]].
    rewrite E. simpl. apply IH; trivial.
    intros s2 y Hy. apply Hbody. auto.
Qed.

(** The exception of a loop is an exception of its body. *)
Lemma for_each_raise_kind (Q : PyError -> Prop) (body : S -> A -> result S)
      (l : list A) :
  (forall s x e, body s x = Raise e -> Q e) ->
  forall s e, for_each body l s = Raise e -> Q e.
Proof.
  intros Hbody. induction l as [|x l IH]; simpl; intros s e Hrun.
  - discriminate.
  - destruct (body s x) as [s1|e1] eqn:E; simpl in Hrun.
    + apply (IH s1 e Hrun).
    + injection Hrun as <-. apply (Hbody s x e1 E).
Qed.

End LoopFacts.

(** A loop that appends to a list at most one entry per element, keyed
    like the element, builds a list without repeated keys from elements
    without repeated keys. *)
Lemma for_each_append_NoDup {A B K : Type} (key : B -> K) (key_of : A -> K)
      (body : list B -> A -> result (list B)) (l : list A) :
  (forall s x s', body s x = Ok s' ->
                  s' = s \/ exists b, s' = s ++ [b] /\ key b = key_of x) ->
  forall s s',
    NoDup (map key s ++ map key_of l) ->
    for_each body l s = Ok s' ->
    NoDup (map key s').
Proof.
  intros Hbody. induction l as [|x l IH]; simpl; intros s s' Hnd Hrun.
  - injection Hrun as <-. rewrite app_nil_r in Hnd. exact Hnd.
  - destruct (body s x) as [s1|e] eqn:E; simpl in Hrun; [|discriminate].
    apply (IH s1 s'); trivial.
    destruct (Hbody s x s1 E) as [->|[b [-> Hb]]].
    + apply NoDup_remove_1 in Hnd. exact Hnd.
    + rewrite map_app, <- app_assoc. simpl. rewrite Hb. exact Hnd.
Qed.

Lemma NoDup_firstn {A : Type} (n : nat) (l : list A) :
  NoDup l -> NoDup (firstn n l).
Proof.
  revert l. induction n as [|n IH]; intros [|x l] Hnd; simpl;
    try constructor.
  - inversion Hnd as [|? ? Hx Hl]; subst.
    intros Hin. apply Hx. apply firstn_incl in Hin. exact Hin.
  - inversion Hnd; subst. apply IH. assumption.
Qed.

(** Sorting and slicing keep a list free of repeated keys. *)
Lemma ranked_NoDup {A K I : Type} (key : A -> K) (ltb : K -> K -> bool)
      (id : A -> I) (l : list A) (n : Z) :
  NoDup (map id l) -> NoDup (map id (slice_to (sort_desc key ltb l) n)).
Proof.
  intros Hnd. unfold slice_to.
  assert (Hs : NoDup (map id (sort_desc key ltb l))).
  { apply (Permutation_NoDup (l := map id l)); trivial.
    apply Permutation_map, sort_desc_perm. }
  destruct (0 <=? n)%Z; rewrite <- firstn_map; apply NoDup_firstn, Hs.
Qed.

Lemma ranked_In {A K : Type} (key : A -> K) (ltb : K -> K -> bool)
      (l : list A) (n : Z) (x : A) :
  In x (slice_to (sort_desc key ltb l) n) -> In x l.
Proof. intros Hin. apply slice_to_incl, sort_desc_In in Hin. exact Hin. Qed.

Section MoreDictFacts.
Context {K V : Type} (eqb : K -> K -> bool).
Hypothesis eqb_eq : forall a b, eqb a b = true <-> a = b.

Lemma eqb_refl_of (k : K) : eqb k k = true.
Proof. apply eqb_eq. reflexivity. Qed.

Lemma dict_get_set_same (d : list (K * V)) (k : K) (v : V) :
  dict_get eqb (dict_set eqb d k v) k = Some v.
Proof.
  induction d as [|[k0 v0] d IH]; simpl.
  - rewrite eqb_refl_of. reflexivity.
  - destruct (eqb k k0) eqn:E; simpl; rewrite E; trivial.
Qed.

Lemma dict_get_set_other (d : list (K * V)) (k k' : K) (v : V) :
  k' <> k -> dict_get eqb (dict_set eqb d k v) k' = dict_get eqb d k'.
Proof.
  intros Hk. induction d as [|[k0 v0] d IH]; simpl.
  - destruct (eqb k' k) eqn:E; trivial. apply eqb_eq in E. contradiction.
  - destruct (eqb k k0) eqn:E; simpl.
    + apply eqb_eq in E. subst k0.
      destruct (eqb k' k) eqn:E'; trivial.
      apply eqb_eq in E'. contradiction.
    + destruct (eqb k' k0); trivial.
Qed.

Lemma dict_get_Some_key (d : list (K * V)) (k : K) :
  In k (map fst d) -> exists v, dict_get eqb d k = Some v.
Proof.
  intros Hin. destruct (dict_get eqb d k) as [v|] eqn:E; [eauto|].
  apply (dict_get_None eqb eqb_eq) in E. contradiction.
Qed.

Lemma dict_set_length (d : list (K * V)) (k : K) (v : V) :
  List.length (dict_set eqb d k v) <= S (List.length d).
Proof.
  induction d as [|[k0 v0] d IH]; simpl; [lia|].
  destruct (eqb k k0); simpl; lia.
Qed.

Lemma dict_update_keys (d2 : list (K * V)) : forall (d : list (K * V)) (k : K),
  In k (map fst (dict_update eqb d d2))
  <-> In k (map fst d) \/ In k (map fst d2).
Proof.
  unfold dict_update.
  induction d2 as [|[k2 v2] d2 IH]; intros d k; simpl; [tauto|].
  rewrite IH, (dict_set_keys eqb eqb_eq). intuition congruence.
Qed.

Lemma dict_update_NoDup (d2 d : list (K * V)) :
  NoDup (map fst d) -> NoDup (map fst (dict_update eqb d d2)).
Proof.
  unfold dict_update. revert d.
  induction d2 as [|[k2 v2] d2 IH]; intros d Hd; simpl; trivial.
  apply IH, (dict_set_NoDup eqb eqb_eq), Hd.
Qed.

Lemma dict_update_values (d2 : list (K * V)) :
  forall (d : list (K * V)) (k : K) (v : V),
    In (k, v) (dict_update eqb d d2) ->
    In (k, v) d \/ In v (map snd d2).
Proof.
  unfold dict_update.
  induction d2 as [|[k2 v2] d2 IH]; intros d k v Hin; simpl in *; auto.
  apply IH in Hin. destruct Hin as [Hin|Hin]; auto.
  apply dict_set_values in Hin. destruct Hin as [->|Hin]; auto.
Qed.

End MoreDictFacts.

(* ================================================================= *)
(** ** The profile builder and the content-based scorer on well-formed
       storage *)

Section ProfileTotal.
Context {F : Type} {ops : PyFloat F}.

Lemma zip_add_length (a b : list F) :
  List.length b = List.length a -> List.length (zip_add a b) = List.length a.
Proof.
  intros E. unfold zip_add. rewrite length_map, length_combine. lia.
Qed.

Lemma np_iadd_raises (a b : list F) (e : PyError) :
  np_iadd a b = Raise e -> e = ValueError.
Proof.
  unfold np_iadd. destruct (Nat.eqb (List.length b) (List.length a));
    [discriminate|].
  destruct b as [|y [|z b]]; congruence.
Qed.

Lemma profile_step_raises content_vectors st
      (i : UserContentInteraction F) (e : PyError) :
  profile_step content_vectors st i = Raise e -> e = ValueError.
Proof.
  unfold profile_step.
  destruct (dict_get N.eqb content_vectors (uci_content_id i)) as [vector|];
    [|discriminate].
  destruct (fst st) as [p|]; simpl; [|discriminate].
  destruct (np_iadd p _) as [pv|e'] eqn:E; simpl; [discriminate|].
  intros [= <-]. apply (np_iadd_raises _ _ E).
Qed.

Lemma profile_step_total (n : nat) content_vectors st
      (i : UserContentInteraction F) :
  (forall k v, dict_get N.eqb content_vectors k = Some v ->
               List.length v = n) ->
  profile_state_ok n st ->
  exists st', profile_step content_vectors st i = Ok st'
              /\ profile_state_ok n st'.
Proof.
  intros Hcv Hst. unfold profile_step.
  destruct (dict_get N.eqb content_vectors (uci_content_id i))
    as [vector|] eqn:G; [|eauto].
  apply Hcv in G. unfold profile_state_ok in Hst.
  set (w := fmul (interaction_weight (interaction_type i))
                 (engagement_score i)).
  assert (Hscaled : List.length (np_scale vector w) = n)
    by (unfold np_scale; rewrite length_map; exact G).
  destruct (fst st) as [p|]; simpl.
  - unfold np_iadd. rewrite Hscaled, Hst, Nat.eqb_refl. simpl.
    eexists. split; [reflexivity|]. unfold profile_state_ok. simpl.
    rewrite zip_add_length; congruence.
  - eexists. split; [reflexivity|]. exact Hscaled.
Qed.

Lemma interacted_vectors_uniform (db : Database F) (n : nat)
      (ids : list UUID) (k : UUID) (v : list F) :
  uniform_dimension db n ->
  dict_get N.eqb
    (if is_empty ids then []
     else vector_dict (filter (fun v => mem (cfv_content_id v) ids)
                              (content_feature_vectors db))) k = Some v ->
  List.length v = n.
Proof.
  intros Hu G. destruct (is_empty ids); [discriminate|].
  apply (dict_get_In N.eqb N.eqb_eq), vector_dict_In in G.
  destruct G as [row (Hrow & _ & <-)]. apply filter_In in Hrow.
  unfold uniform_dimension in Hu. rewrite Forall_forall in Hu.
  apply Hu, Hrow.
Qed.

Lemma accumulate_profile_total (db : Database F) (n : nat)
      (interactions : list (UserContentInteraction F)) :
  uniform_dimension db n ->
  exists st, accumulate_profile db interactions = Ok st
             /\ profile_state_ok n st.
Proof.
  intros Hu. unfold accumulate_profile.
  apply (for_each_total (profile_state_ok n)); [|exact I].
  intros st i _ Hst. apply profile_step_total; trivial.
  intros k v. apply interacted_vectors_uniform, Hu.
Qed.

Lemma user_profile_total (db : Database F) (n : nat) (user_id : UUID)
      (interactions : list (UserContentInteraction F))
      (user_prefs : option UserPreference) :
  uniform_dimension db n ->
  exists p, _calculate_user_profile db user_id interactions user_prefs = Ok p
            /\ (p = [] \/ List.length p = n).
Proof.
  intros Hu. unfold _calculate_user_profile.
  destruct (is_empty interactions && is_none user_prefs); [eauto|].
  unfold interaction_profile.
  destruct (accumulate_profile_total interactions Hu) as [[pv tw] [E Hst]].
  rewrite E. unfold profile_state_ok in Hst. simpl in *.
  destruct pv as [p|].
  - destruct (fltb f_0 tw); destruct user_prefs; simpl;
      eexists; (split; [reflexivity|]); right;
        unfold np_div; rewrite ?length_map; exact Hst.
  - destruct user_prefs; simpl; eauto.
Qed.

Lemma user_profile_raises (db : Database F) (user_id : UUID)
      (interactions : list (UserContentInteraction F))
      (user_prefs : option UserPreference) (e : PyError) :
  _calculate_user_profile db user_id interactions user_prefs = Raise e ->
  e = ValueError.
Proof.
  unfold _calculate_user_profile.
  destruct (is_empty interactions && is_none user_prefs); [discriminate|].
  unfold interaction_profile, accumulate_profile.
  destruct (for_each _ interactions (None, f_0)) as [[pv tw]|e'] eqn:E.
  - simpl. destruct pv as [p|]; [destruct (fltb f_0 tw)|];
      destruct user_prefs; simpl; discriminate.
  - simpl. intros [= <-].
    apply (for_each_raise_kind (fun e => e = ValueError) _ _
             (fun s x e => @profile_step_raises _ s x e) _ E).
Qed.

Lemma similarity_total (vec1 vec2 : list F) (n : nat) :
  vec1 = [] \/ List.length vec1 = n ->
  List.length vec2 = n ->
  exists s, _calculate_similarity_score vec1 vec2 = Ok s.
Proof.
  intros H1 H2. unfold _calculate_similarity_score, cosine.
  destruct (is_empty vec1 || is_empty vec2) eqn:E; [eauto|].
  destruct H1 as [->|H1]; [discriminate|].
  rewrite H1, H2, Nat.eqb_refl. simpl. eauto.
Qed.

Lemma content_based_total (db : Database F) (n : nat) (user_id : UUID)
      (user_prefs : option UserPreference)
      (content_type subject difficulty_level : option string) (limit : Z) :
  uniform_dimension db n ->
  exists recs,
    _get_content_based_recommendations
      db user_id user_prefs content_type subject difficulty_level limit
    = Ok recs.
Proof.
  intros Hu. unfold _get_content_based_recommendations.
  destruct (is_empty _ && is_none user_prefs); [eauto|].
  destruct (is_empty (_get_content_feature_vectors _ _ _ _)); [eauto|].
  destruct (user_profile_total user_id
              (_get_user_interactions db user_id) user_prefs Hu)
    as [p [E Hp]].
  rewrite E. cbn [bind].
  destruct (for_each_total (fun _ => True)
              (content_based_step p (_get_user_interactions db user_id))
              (_get_content_feature_vectors db content_type subject
                                            difficulty_level))
    with (s := @nil (RecommendationResponse F)) as [recs [E' _]]; trivial.
  - intros recs item Hitem _. unfold content_based_step.
    destruct (mem (fst item) _); [eauto|].
    destruct item as [k fv]. unfold _get_content_feature_vectors in Hitem.
    apply vector_dict_In in Hitem. destruct Hitem as [row (Hrow & _ & <-)].
    assert (Hlen : List.length (feature_vector row) = n).
    { unfold uniform_dimension in Hu. rewrite Forall_forall in Hu.
      apply Hu.
      destruct (truthy content_type || truthy subject
                || truthy difficulty_level);
        [apply filter_In in Hrow; tauto|exact Hrow]. }
    destruct (@similarity_total p (feature_vector row) n Hp Hlen) as [s Es].
    simpl snd. rewrite Es. simpl. destruct (fltb f_0 s); eauto.
  - rewrite E'. simpl. eauto.
Qed.

Lemma content_based_raises (db : Database F) (user_id : UUID)
      (user_prefs : option UserPreference)
      (content_type subject difficulty_level : option string) (limit : Z)
      (e : PyError) :
  _get_content_based_recommendations
    db user_id user_prefs content_type subject difficulty_level limit
  = Raise e ->
  e = ValueError.
Proof.
  unfold _get_content_based_recommendations.
  destruct (is_empty _ && is_none user_prefs); [discriminate|].
  destruct (is_empty (_get_content_feature_vectors _ _ _ _)); [discriminate|].
  destruct (_calculate_user_profile _ _ _ _) as [p|e'] eqn:E; cbn [bind].
  - destruct (for_each _ _ []) as [recs|e'] eqn:E'; simpl; [discriminate|].
    intros [= <-].
    apply (for_each_raise_kind (fun e => e = ValueError) _ _
             (fun s x e => @content_based_step_raises _ _ _ _ s x e) _ E').
  - intros [= <-]. apply (user_profile_raises _ _ _ _ E).
Qed.

End ProfileTotal.

(** X7. When every stored feature vector has the same number [n] of
    components, [_calculate_user_profile] does not raise, and the profile
    it returns is the empty vector or a vector of [n] components. *)
Theorem user_profile_on_uniform_vectors
        (F : Type) (ops : PyFloat F) (db : Database F) (n : nat)
        (user_id : UUID) (interactions : list (UserContentInteraction F))
        (user_prefs : option UserPreference) :
  uniform_dimension db n ->
  exists p, _calculate_user_profile db user_id interactions user_prefs = Ok p
            /\ (p = [] \/ List.length p = n).
Proof. apply user_profile_total. Qed.

Lemma user_profile_on_uniform_vectors_witness :
  exists p,
    _calculate_user_profile
      Examples.db_scenario 1 (_get_user_interactions Examples.db_scenario 1)
      None = Ok p
    /\ (p = [] \/ List.length p = 2).
Proof.
  apply (@user_profile_on_uniform_vectors
           binary64 binary64_float Examples.db_scenario 2 1%N).
  repeat constructor.
Defined.

Section ContentBasedResults.
Context {F : Type} {ops : PyFloat F}.

Lemma content_based_step_appends user_profile interactions
      (recs recs' : list (RecommendationResponse F)) (item : UUID * list F) :
  content_based_step user_profile interactions recs item = Ok recs' ->
  recs' = recs
  \/ exists s, recs' = recs ++ [content_based_rec (fst item) s]
               /\ fltb f_0 s = true.
Proof.
  unfold content_based_step. destruct (mem (fst item) _).
  - intros [= <-]. auto.
  - destruct (_calculate_similarity_score user_profile (snd item))
      as [s|e]; simpl; [|discriminate].
    destruct (fltb f_0 s) eqn:E; intros [= <-]; eauto.
Qed.

(** The list built by the scoring loop, before it is ranked. *)
Lemma content_based_loop user_profile interactions
      (content_vectors : list (UUID * list F))
      (recs : list (RecommendationResponse F)) :
  NoDup (map fst content_vectors) ->
  for_each (content_based_step user_profile interactions) content_vectors []
  = Ok recs ->
  NoDup (map (@rec_content_id F) recs)
  /\ Forall (fun r => recommendation_type r = CONTENT_BASED
                      /\ fltb f_0 (score r) = true
                      /\ In (rec_content_id r) (map fst content_vectors))
            recs.
Proof.
  intros Hnd Hrun. split.
  - apply (for_each_append_NoDup (@rec_content_id F) fst
             (content_based_step user_profile interactions)
             content_vectors) with (s := []); trivial.
    intros s x s' Hstep. apply content_based_step_appends in Hstep.
    destruct Hstep as [->|[sim [-> _]]]; eauto.
  - eapply (for_each_invariant
              (Forall (fun r => recommendation_type r = CONTENT_BASED
                                /\ fltb f_0 (score r) = true
                                /\ In (rec_content_id r)
                                      (map fst content_vectors))));
      [|constructor|exact Hrun].
    intros s x s' Hx Hs Hstep. apply content_based_step_appends in Hstep.
    destruct Hstep as [->|[sim [-> Hpos]]]; trivial.
    apply Forall_app. split; trivial. constructor; [|constructor].
    simpl. repeat split; trivial. apply in_map, Hx.
Qed.

End ContentBasedResults.

(** X8. What [_get_content_based_recommendations] returns: no content id
    twice; every entry of type [content_based], with a score above 0.0,
    for a content id that has a stored vector passing the filters; no
    entry followed by one of strictly larger score; and at most [limit]
    entries when [limit] is not negative. *)
Theorem content_based_results_are_ranked_candidates
        (F : Type) (ops : PyFloat F) (laws : PyFloatLaws ops)
        (db : Database F) (user_id : UUID)
        (user_prefs : option UserPreference)
        (content_type subject difficulty_level : option string) (limit : Z)
        (recs : list (RecommendationResponse F)) :
  _get_content_based_recommendations
    db user_id user_prefs content_type subject difficulty_level limit
  = Ok recs ->
  NoDup (map (@rec_content_id F) recs)
  /\ Sorted score_no_ascent recs
  /\ ((0 <= limit)%Z -> (Z.of_nat (List.length recs) <= limit)%Z)
  /\ forall r, In r recs ->
       recommendation_type r = CONTENT_BASED
       /\ fltb f_0 (score r) = true
       /\ exists v, In v (content_feature_vectors db)
                    /\ cfv_content_id v = rec_content_id r
                    /\ passes_filters content_type subject
                                      difficulty_level v.
Proof.
  unfold _get_content_based_recommendations.
  destruct (is_empty _ && is_none user_prefs).
  { intros [= <-].
    split; [constructor|split; [constructor|split; [simpl; lia|]]].
    intros r []. }
  destruct (is_empty (_get_content_feature_vectors _ _ _ _)).
  { intros [= <-].
    split; [constructor|split; [constructor|split; [simpl; lia|]]].
    intros r []. }
  destruct (_calculate_user_profile _ _ _ _) as [p|e]; cbn [bind];
    [|discriminate].
  destruct (for_each _ _ []) as [found|e] eqn:Loop; cbn [bind];
    [|discriminate].
  intros [= <-].
  apply content_based_loop in Loop;
    [|unfold _get_content_feature_vectors; apply vector_dict_NoDup].
  destruct Loop as [Hnd Hall]. split; [|split; [|split]].
  - apply ranked_NoDup, Hnd.
  - apply slice_to_sorted.
    apply (sort_desc_sorted (@score F) fltb (@fltb_asym F ops laws)).
  - apply slice_to_length.
  - intros r Hr. apply ranked_In in Hr. rewrite Forall_forall in Hall.
    destruct (Hall r Hr) as (Ht & Hpos & Hkey). repeat split; trivial.
    unfold _get_content_feature_vectors in Hkey.
    apply vector_dict_key_iff, in_map_iff in Hkey.
    destruct Hkey as [v [E Hv]]. apply selected_rows in Hv.
    exists v. tauto.
Qed.

Lemma content_based_results_are_ranked_candidates_witness :
  NoDup (map (@rec_content_id binary64)
             [content_based_rec 11 Examples.one])
  /\ Sorted score_no_ascent [content_based_rec 11 Examples.one]
  /\ ((0 <= 10)%Z ->
      (Z.of_nat (List.length [content_based_rec 11 Examples.one]) <= 10)%Z)
  /\ forall r, In r [content_based_rec 11 Examples.one] ->
       recommendation_type r = CONTENT_BASED
       /\ fltb f_0 (score r) = true
       /\ exists v, In v (content_feature_vectors Examples.db_scenario)
                    /\ cfv_content_id v = rec_content_id r
                    /\ passes_filters None None None v.
Proof.
  apply (@content_based_results_are_ranked_candidates
           binary64 binary64_float binary64_laws Examples.db_scenario 1%N
           None None None None 10%Z [content_based_rec 11 Examples.one]).
  reflexivity.
Defined.

(* ================================================================= *)
(** ** Interaction vectors *)

Lemma for_each_seen {A S : Type} (Inv : list A -> S -> Prop)
      (body : S -> A -> result S) (l : list A) :
  (forall seen s x, In x l -> Inv seen s ->
                    exists s', body s x = Ok s' /\ Inv (seen ++ [x]) s') ->
  forall seen s, Inv seen s ->
                 exists s', for_each body l s = Ok s' /\ Inv (seen ++ l) s'.
Proof.
  induction l as [|x l IH]; simpl; intros Hbody seen s Hs.
  - exists s. rewrite app_nil_r. auto.
  - destruct (Hbody seen s x (or_introl eq_refl) Hs) as [s1 [E H1]].
    rewrite E. simpl.
    replace (seen ++ x :: l) with ((seen ++ [x]) ++ l)
      by (rewrite <- app_assoc; reflexivity).
    apply IH; trivial. intros seen' s' y Hy. apply Hbody. auto.
Qed.

Lemma list_set_spec {A : Type} (l : list A) : forall (idx : nat) (v : A),
  idx < List.length l ->
  exists l', list_set l idx v = Ok l'
             /\ List.length l' = List.length l
             /\ forall j, nth_error l' j
                          = if Nat.eqb j idx then Some v else nth_error l j.
Proof.
  induction l as [|x l IH]; intros idx v Hidx; simpl in Hidx; [lia|].
  destruct idx as [|idx]; simpl.
  - eexists. split; [reflexivity|]. split; trivial.
    intros [|j]; reflexivity.
  - destruct (IH idx v) as [l' (E & Hlen & Hnth)]; [lia|].
    rewrite E. simpl. eexists. split; [reflexivity|]. split.
    + simpl. congruence.
    + intros [|j]; simpl; trivial.
Qed.

Lemma insert_asc_perm (x : UUID) (l : list UUID) :
  Permutation (x :: l) (insert_asc x l).
Proof.
  induction l as [|h t IH]; simpl; [apply Permutation_refl|].
  destruct (x <=? h)%N; [apply Permutation_refl|].
  apply perm_trans with (h :: x :: t); [apply perm_swap|].
  apply perm_skip, IH.
Qed.

Lemma sorted_perm (s : list UUID) : Permutation s (sorted s).
Proof.
  induction s as [|x s IH]; simpl; [apply perm_nil|].
  apply perm_trans with (x :: sorted s).
  - apply perm_skip, IH.
  - apply insert_asc_perm.
Qed.

Lemma insert_asc_sorted (x : UUID) (l : list UUID) :
  Sorted N.le l -> Sorted N.le (insert_asc x l).
Proof.
  induction l as [|h t IH]; simpl; intros Hs.
  - repeat constructor.
  - destruct (x <=? h)%N eqn:E.
    + constructor; trivial. constructor. apply N.leb_le, E.
    + apply N.leb_gt in E. inversion Hs as [|? ? Ht Hh]; subst.
      constructor; [apply IH, Ht|].
      destruct t as [|h' t']; simpl.
      * constructor. lia.
      * destruct (x <=? h')%N; constructor; [lia|].
        inversion Hh; assumption.
Qed.

Lemma sorted_is_sorted (s : list UUID) : Sorted N.le (sorted s).
Proof.
  induction s as [|x s IH]; simpl; [constructor|].
  apply insert_asc_sorted, IH.
Qed.

Lemma set_of_NoDup (l : list UUID) : NoDup (set_of l).
Proof.
  induction l as [|x l IH]; simpl; [constructor|].
  destruct (mem x l) eqn:E; trivial.
  constructor; trivial. rewrite set_of_In. intros Hin.
  apply mem_In in Hin. congruence.
Qed.

Section FreshKeys.
Context {K V : Type} (eqb : K -> K -> bool).
Hypothesis eqb_eq : forall a b, eqb a b = true <-> a = b.

Lemma dict_set_fresh (d : list (K * V)) (k : K) (v : V) :
  ~ In k (map fst d) -> dict_set eqb d k v = d ++ [(k, v)].
Proof.
  induction d as [|[k0 v0] d IH]; simpl; intros Hk; trivial.
  destruct (eqb k k0) eqn:E.
  - apply eqb_eq in E. subst. tauto.
  - rewrite IH by tauto. reflexivity.
Qed.

(** A dictionary built from pairs with distinct keys is the list of the
    pairs. *)
Lemma dict_update_fresh (d2 : list (K * V)) : forall d : list (K * V),
  NoDup (map fst d ++ map fst d2) -> dict_update eqb d d2 = d ++ d2.
Proof.
  unfold dict_update.
  induction d2 as [|[k v] d2 IH]; intros d Hnd; simpl.
  - rewrite app_nil_r. reflexivity.
  - rewrite dict_set_fresh.
    + rewrite IH.
      * rewrite <- app_assoc. reflexivity.
      * rewrite map_app, <- app_assoc. exact Hnd.
    + simpl in Hnd. apply NoDup_remove_2 in Hnd.
      intros Hin. apply Hnd, in_or_app. auto.
Qed.

End FreshKeys.

Lemma index_lookup (keys : list UUID) : forall (s : nat) (k : UUID),
  NoDup keys ->
  match dict_get N.eqb (combine keys (seq s (List.length keys))) k with
  | Some idx => exists j, idx = s + j /\ nth_error keys j = Some k
  | None => ~ In k keys
  end.
Proof.
  induction keys as [|k0 keys IH]; intros s k Hnd; simpl; [tauto|].
  inversion Hnd as [|? ? Hk0 Hkeys]; subst.
  destruct (N.eqb k k0) eqn:E.
  - apply N.eqb_eq in E. subst. exists 0. split; [lia|reflexivity].
  - apply N.eqb_neq in E. specialize (IH (S s) k Hkeys).
    destruct (dict_get N.eqb (combine keys (seq (S s) (List.length keys))) k).
    + destruct IH as [j [-> Hj]]. exists (S j). split; [lia|exact Hj].
    + intros [->|Hin]; tauto.
Qed.

Lemma map_fst_combine_eq {A B : Type} (l : list A) : forall l' : list B,
  List.length l = List.length l' -> map fst (combine l l') = l.
Proof.
  induction l as [|x l IH]; intros [|y l'] E; simpl in *; try lia; trivial.
  rewrite IH by lia. reflexivity.
Qed.

Lemma nth_error_NoDup_inj (keys : list UUID) (i j : nat) (k : UUID) :
  NoDup keys -> nth_error keys i = Some k -> nth_error keys j = Some k ->
  i = j.
Proof.
  intros Hnd Hi Hj. rewrite NoDup_nth_error in Hnd. apply Hnd.
  - apply nth_error_Some. congruence.
  - congruence.
Qed.

Section InteractionVector.
Context {F : Type} {ops : PyFloat F}.

Lemma interaction_strength_snoc
      (l : list (UserContentInteraction F)) (i : UserContentInteraction F)
      (k : UUID) :
  interaction_strength (l ++ [i]) k
  = if N.eqb (uci_content_id i) k
    then fmul (interaction_weight (interaction_type i)) (engagement_score i)
    else interaction_strength l k.
Proof.
  unfold interaction_strength. rewrite fold_left_app. reflexivity.
Qed.

Lemma content_id_to_index_of_set (content_ids : list UUID) :
  NoDup content_ids ->
  content_id_to_index content_ids
  = combine (sorted content_ids) (seq 0 (List.length (sorted content_ids))).
Proof.
  intros Hnd. unfold content_id_to_index.
  assert (Hlen : List.length (sorted content_ids) = List.length content_ids)
    by (symmetry; apply Permutation_length, sorted_perm).
  rewrite Hlen, (dict_update_fresh N.eqb N.eqb_eq); trivial.
  simpl. rewrite map_fst_combine_eq.
  - apply (Permutation_NoDup (sorted_perm content_ids) Hnd).
  - rewrite length_seq. exact Hlen.
Qed.

End InteractionVector.

Section InteractionVectorSpec.
Context {F : Type} {ops : PyFloat F}.

Lemma create_interaction_vector_spec
      (interactions : list (UserContentInteraction F))
      (content_ids : list UUID) :
  NoDup content_ids ->
  exists vector,
    _create_interaction_vector interactions content_ids = Ok vector
    /\ vector_inv (sorted content_ids) interactions vector.
Proof.
  intros Hnd. unfold _create_interaction_vector.
  rewrite (content_id_to_index_of_set Hnd).
  assert (Hkeys : NoDup (sorted content_ids))
    by apply (Permutation_NoDup (sorted_perm content_ids) Hnd).
  assert (Hlen : List.length content_ids = List.length (sorted content_ids))
    by apply Permutation_length, sorted_perm.
  rewrite Hlen. set (keys := sorted content_ids) in *.
  apply (for_each_seen (vector_inv keys)) with (seen := []).
  - intros seen vector i _ [Hl Hv].
    pose proof (index_lookup 0 (uci_content_id i) Hkeys) as Hidx.
    destruct (dict_get N.eqb (combine keys (seq 0 (List.length keys)))
                       (uci_content_id i)) as [idx|].
    + destruct Hidx as [j0 [-> Hj0]]. simpl.
      assert (Hb : j0 < List.length vector).
      { rewrite Hl. apply nth_error_Some. congruence. }
      destruct (list_set_spec vector
                  (fmul (interaction_weight (interaction_type i))
                        (engagement_score i)) Hb)
        as [vector' (E & Hl' & Hnth)].
      exists vector'. split; [exact E|]. split; [congruence|].
      intros j k Hj. rewrite Hnth, interaction_strength_snoc.
      destruct (Nat.eqb j j0) eqn:Ej.
      * apply Nat.eqb_eq in Ej. subst j.
        assert (k = uci_content_id i) by congruence. subst k.
        rewrite N.eqb_refl. reflexivity.
      * apply Nat.eqb_neq in Ej.
        destruct (N.eqb (uci_content_id i) k) eqn:Ek; [|apply Hv, Hj].
        apply N.eqb_eq in Ek. subst k. exfalso. apply Ej.
        apply (@nth_error_NoDup_inj keys j j0 _ Hkeys Hj Hj0).
    + exists vector. split; trivial. split; trivial.
      intros j k Hj. rewrite interaction_strength_snoc.
      destruct (N.eqb (uci_content_id i) k) eqn:Ek; [|apply Hv, Hj].
      apply N.eqb_eq in Ek. subst k. exfalso. apply Hidx.
      apply nth_error_In in Hj. exact Hj.
  - split; [apply repeat_length|].
    intros j k Hj. unfold interaction_strength. simpl.
    apply nth_error_repeat. apply nth_error_Some. congruence.
Qed.

End InteractionVectorSpec.

(** X9. [_create_interaction_vector] on a set of content ids never fails. It
    returns one number per content id, the ids taken in ascending order;
    the number at the place of a content id is weight times engagement of
    the last interaction of the list with that content, whatever came
    before it, and 0.0 when the list has no interaction with it.
    Interactions with content outside the set change nothing. *)
Theorem interaction_vector_holds_last_strength
        (F : Type) (ops : PyFloat F)
        (interactions : list (UserContentInteraction F))
        (content_ids : list UUID) :
  NoDup content_ids ->
  exists vector,
    _create_interaction_vector interactions content_ids = Ok vector
    /\ List.length vector = List.length content_ids
    /\ Permutation content_ids (sorted content_ids)
    /\ Sorted N.le (sorted content_ids)
    /\ forall j k, nth_error (sorted content_ids) j = Some k ->
                   nth_error vector j
                   = Some (interaction_strength interactions k).
Proof.
  intros Hnd.
  destruct (create_interaction_vector_spec interactions Hnd)
    as [vector [E [Hlen Hnth]]].
  exists vector. split; trivial. split.
  - rewrite Hlen. symmetry. apply Permutation_length, sorted_perm.
  - split; [apply sorted_perm|]. split; [apply sorted_is_sorted|exact Hnth].
Qed.

Lemma interaction_vector_holds_last_strength_witness :
  exists vector,
    _create_interaction_vector
      [Examples.interaction 1 21 VIEW Examples.one 0;
       Examples.interaction 1 20 LIKE Examples.one 1;
       Examples.interaction 1 21 COMPLETE Examples.one 2]
      [21%N; 20%N] = Ok vector
    /\ List.length vector = 2
    /\ Permutation [21%N; 20%N] (sorted [21%N; 20%N])
    /\ Sorted N.le (sorted [21%N; 20%N])
    /\ forall j k, nth_error (sorted [21%N; 20%N]) j = Some k ->
                   nth_error vector j
                   = Some (interaction_strength
                             [Examples.interaction 1 21 VIEW Examples.one 0;
                              Examples.interaction 1 20 LIKE Examples.one 1;
                              Examples.interaction 1 21 COMPLETE
                                                   Examples.one 2] k).
Proof.
  apply (@interaction_vector_holds_last_strength
           binary64 binary64_float
           [Examples.interaction 1 21 VIEW Examples.one 0;
            Examples.interaction 1 20 LIKE Examples.one 1;
            Examples.interaction 1 21 COMPLETE Examples.one 2]
           [21%N; 20%N]).
  repeat constructor; simpl; intuition discriminate.
Defined.

(* ================================================================= *)
(** ** Similar users *)

Section SimilarUsers.
Context {F : Type} {ops : PyFloat F}.

Lemma group_by_user_keys (l : list (UserContentInteraction F)) :
  NoDup (map fst (group_by_user l))
  /\ forall u, In u (map fst (group_by_user l)) ->
               exists i, In i l /\ uci_user_id i = u.
Proof.
  unfold group_by_user.
  apply (fold_left_invariant
           (fun m => NoDup (map fst m)
                     /\ forall u, In u (map fst m) ->
                                  exists i, In i l /\ uci_user_id i = u)).
  - intros m i Hi [Hnd Hkeys]. cbv beta zeta.
    match goal with
    | |- context [dict_get N.eqb ?x (uci_user_id i)] => set (m' := x)
    end.
    assert (Hm' : NoDup (map fst m')
                  /\ forall u, In u (map fst m') ->
                               exists i, In i l /\ uci_user_id i = u).
    { subst m'. destruct (dict_contains N.eqb m (uci_user_id i)); [auto|].
      split; [apply (dict_set_NoDup N.eqb N.eqb_eq), Hnd|].
      intros u Hu. apply (dict_set_keys N.eqb N.eqb_eq) in Hu.
      destruct Hu as [->|Hu]; eauto. }
    destruct Hm' as [Hnd' Hkeys'].
    destruct (dict_get N.eqb m' (uci_user_id i)); [|auto].
    split; [apply (dict_set_NoDup N.eqb N.eqb_eq), Hnd'|].
    intros u Hu. apply (dict_set_keys N.eqb N.eqb_eq) in Hu.
    destruct Hu as [->|Hu]; eauto.
  - split; [constructor|intros u []].
Qed.

End SimilarUsers.

Lemma find_similar_users_spec
      (F : Type) (ops : PyFloat F) (laws : PyFloatLaws ops)
      (db : Database F) (user_id : UUID)
      (user_interactions : list (UserContentInteraction F)) :
  exists similar_users,
    _find_similar_users db user_id user_interactions = Ok similar_users
    /\ List.length similar_users <= 10
    /\ NoDup (map fst similar_users)
    /\ Sorted (fun a b => fltb (snd a) (snd b) = false) similar_users
    /\ forall u s, In (u, s) similar_users ->
         u <> user_id
         /\ fltb f_0 s = true
         /\ exists i j, In i (user_content_interactions db)
                        /\ uci_user_id i = u
                        /\ In j user_interactions
                        /\ uci_content_id i = uci_content_id j.
Proof.
  unfold _find_similar_users.
  set (ids := set_of (map (@uci_content_id F) user_interactions)).
  destruct (is_empty ids).
  { exists []. split; trivial. simpl.
    split; [lia|split; [constructor|split; [constructor|intros ? ? []]]]. }
  set (others := filter (fun i => mem (uci_content_id i) ids
                                  && negb (N.eqb (uci_user_id i) user_id))
                        (user_content_interactions db)).
  destruct (group_by_user_keys others) as [Hnd Hkeys].
  assert (Hids : NoDup ids) by apply set_of_NoDup.
  destruct (create_interaction_vector_spec user_interactions Hids)
    as [target [Et [Hlt _]]].
  rewrite Et. cbn [bind].
  match goal with
  | |- context [for_each ?b (group_by_user others) []] => set (body := b)
  end.
  assert (Hbody : forall s entry,
             exists sim,
               body s entry = Ok (if fltb f_0 sim
                                  then s ++ [(fst entry, sim)] else s)).
  { intros s entry. subst body. cbv beta.
    destruct (create_interaction_vector_spec (snd entry) Hids)
      as [other [Eo [Hlo _]]].
    rewrite Eo. cbn [bind].
    destruct (@similarity_total F ops target other
                (List.length (sorted ids)) (or_intror Hlt) Hlo) as [sim Es].
    rewrite Es. cbn [bind]. exists sim. destruct (fltb f_0 sim); reflexivity. }
  destruct (for_each_total (fun _ => True) body (group_by_user others))
    with (s := @nil (UUID * F)) as [sims [Es _]]; trivial.
  { intros s entry _ _. destruct (Hbody s entry) as [sim E]. eauto. }
  rewrite Es. cbn [bind]. eexists. split; [reflexivity|].
  assert (Hsims_nd : NoDup (map fst sims)).
  { apply (for_each_append_NoDup fst fst body (group_by_user others))
      with (s := []); trivial.
    intros s entry s' Hstep. destruct (Hbody s entry) as [sim E].
    rewrite E in Hstep. injection Hstep as <-.
    destruct (fltb f_0 sim); eauto. }
  assert (Hsims : Forall (fun p => fltb f_0 (snd p) = true
                                   /\ In (fst p)
                                         (map fst (group_by_user others)))
                         sims).
  { eapply (for_each_invariant
              (Forall (fun p => fltb f_0 (snd p) = true
                                /\ In (fst p)
                                      (map fst (group_by_user others)))));
      [|constructor|exact Es].
    intros s entry s' Hentry Hs Hstep. destruct (Hbody s entry) as [sim E].
    rewrite E in Hstep. injection Hstep as <-.
    destruct (fltb f_0 sim) eqn:Hpos; trivial.
    apply Forall_app. split; trivial. constructor; [|constructor].
    simpl. split; trivial. apply in_map, Hentry. }
  split; [|split; [|split]].
  - pose proof (@slice_to_length _ (sort_desc (@snd UUID F) fltb sims) 10).
    lia.
  - apply ranked_NoDup, Hsims_nd.
  - apply slice_to_sorted.
    apply (sort_desc_sorted (@snd UUID F) fltb (@fltb_asym F ops laws)).
  - intros u s Hin. apply ranked_In in Hin. rewrite Forall_forall in Hsims.
    destruct (Hsims _ Hin) as [Hpos Hkey]. simpl in *.
    destruct (Hkeys u Hkey) as [i [Hi Hu]]. subst others.
    apply filter_In in Hi. destruct Hi as [Hi Hcond].
    apply andb_true_iff in Hcond. destruct Hcond as [Hmem Hother].
    apply mem_In in Hmem. subst ids. apply set_of_In, in_map_iff in Hmem.
    destruct Hmem as [j [Ej Hj]].
    split; [|split; trivial].
    + intros ->. rewrite <- Hu, N.eqb_refl in Hother. discriminate.
    + exists i, j. repeat split; auto.
Qed.

(** X10. [_find_similar_users] never fails. It returns at most ten users, no
    user twice and never the target user; each of them has a similarity
    above 0.0 and an interaction with a content the target user has
    interacted with; no user is followed by one of strictly larger
    similarity. *)
Theorem similar_users_are_other_users_with_shared_content
        (F : Type) (ops : PyFloat F) (laws : PyFloatLaws ops)
        (db : Database F) (user_id : UUID)
        (user_interactions : list (UserContentInteraction F)) :
  exists similar_users,
    _find_similar_users db user_id user_interactions = Ok similar_users
    /\ List.length similar_users <= 10
    /\ NoDup (map fst similar_users)
    /\ Sorted (fun a b => fltb (snd a) (snd b) = false) similar_users
    /\ forall u s, In (u, s) similar_users ->
         u <> user_id
         /\ fltb f_0 s = true
         /\ exists i j, In i (user_content_interactions db)
                        /\ uci_user_id i = u
                        /\ In j user_interactions
                        /\ uci_content_id i = uci_content_id j.
Proof. apply find_similar_users_spec, laws. Qed.

Lemma similar_users_are_other_users_with_shared_content_witness :
  let db := Examples.db_two_users false in
  exists similar_users,
    _find_similar_users db 2 (_get_user_interactions db 2) = Ok similar_users
    /\ List.length similar_users <= 10
    /\ NoDup (map fst similar_users)
    /\ Sorted (fun a b : UUID * binary64 => fltb (snd a) (snd b) = false)
              similar_users
    /\ forall u s, In (u, s) similar_users ->
         u <> 2%N
         /\ fltb f_0 s = true
         /\ exists i j, In i (user_content_interactions db)
                        /\ uci_user_id i = u
                        /\ In j (_get_user_interactions db 2)
                        /\ uci_content_id i = uci_content_id j.
Proof.
  intros db.
  apply (@similar_users_are_other_users_with_shared_content
           binary64 binary64_float binary64_laws db 2%N
           (_get_user_interactions db 2)).
Defined.

(* ================================================================= *)
(** ** The collaborative scorer *)

Section CollaborativeResults.
Context {F : Type} {ops : PyFloat F}.

(** The scores while the loop runs: no content id twice, none that the
    user has interacted with, each from an interaction of the table by a
    similar user. *)
Lemma score_step_spec (db : Database F) (user_content_ids : list UUID)
      (similar_users : list (UUID * F))
      (content_scores : list (UUID * F)) (i : UserContentInteraction F) :
  let ok := fun scores : list (UUID * F) =>
    NoDup (map fst scores)
    /\ forall k, In k (map fst scores) ->
         ~ In k user_content_ids
         /\ exists i, In i (user_content_interactions db)
                      /\ In (uci_user_id i) (map fst similar_users)
                      /\ uci_content_id i = k in
  In i (user_content_interactions db) ->
  In (uci_user_id i) (map fst similar_users) ->
  ok content_scores ->
  exists content_scores',
    score_step user_content_ids (dict_update N.eqb [] similar_users)
               content_scores i = Ok content_scores'
    /\ ok content_scores'.
Proof.
  intros ok Hi Hu [Hnd Hkeys]. unfold score_step.
  destruct (mem (uci_content_id i) user_content_ids) eqn:M.
  { exists content_scores. split; [reflexivity|split; assumption]. }
  destruct (dict_get_Some_key N.eqb N.eqb_eq
              (dict_update N.eqb [] similar_users) (uci_user_id i))
    as [w Ew].
  { apply (dict_update_keys N.eqb N.eqb_eq). auto. }
  rewrite Ew. cbv zeta.
  match goal with
  | |- context [dict_get N.eqb ?x (uci_content_id i)] => set (scores := x)
  end.
  assert (Hscores : ok scores
                    /\ exists s, dict_get N.eqb scores (uci_content_id i)
                                 = Some s).
  { subst scores. unfold dict_contains.
    destruct (dict_get N.eqb content_scores (uci_content_id i)) as [s|] eqn:G.
    - split; [split; assumption|eauto].
    - split; [|rewrite (dict_get_set_same N.eqb N.eqb_eq); eauto].
      split; [apply (dict_set_NoDup N.eqb N.eqb_eq), Hnd|].
      intros k Hk. apply (dict_set_keys N.eqb N.eqb_eq) in Hk.
      destruct Hk as [->|Hk]; [|apply Hkeys, Hk].
      split; [|eauto]. intros Hin. apply mem_In in Hin. congruence. }
  destruct Hscores as [[Hnd' Hkeys'] [s Es]]. rewrite Es.
  eexists. split; [reflexivity|]. split.
  - apply (dict_set_NoDup N.eqb N.eqb_eq), Hnd'.
  - intros k Hk. apply (dict_set_keys N.eqb N.eqb_eq) in Hk.
    destruct Hk as [->|Hk]; [|apply Hkeys', Hk].
    split; [|eauto]. intros Hin. apply mem_In in Hin. congruence.
Qed.

Lemma from_similar_users_spec (db : Database F) (user_id : UUID)
      (similar_users : list (UUID * F))
      (content_type subject difficulty_level : option string) :
  exists recs,
    _get_recommendations_from_similar_users
      db user_id similar_users content_type subject difficulty_level
    = Ok recs
    /\ NoDup (map (@rec_content_id F) recs)
    /\ forall r, In r recs ->
         recommendation_type r = COLLABORATIVE
         /\ ~ In (rec_content_id r)
                 (map (@uci_content_id F) (_get_user_interactions db user_id))
         /\ exists i, In i (user_content_interactions db)
                      /\ In (uci_user_id i) (map fst similar_users)
                      /\ uci_content_id i = rec_content_id r.
Proof.
  unfold _get_recommendations_from_similar_users.
  set (ids := set_of (map (@uci_content_id F)
                          (_get_user_interactions db user_id))).
  set (ok := fun scores : list (UUID * F) =>
    NoDup (map fst scores)
    /\ forall k, In k (map fst scores) ->
         ~ In k ids
         /\ exists i, In i (user_content_interactions db)
                      /\ In (uci_user_id i) (map fst similar_users)
                      /\ uci_content_id i = k).
  destruct (for_each_total ok
              (score_step ids (dict_update N.eqb [] similar_users))
              (filter (fun i => mem (uci_user_id i) (map fst similar_users))
                      (user_content_interactions db)))
    with (s := @nil (UUID * F)) as [scores [E [Hnd Hkeys]]].
  - intros s i Hi Hs. apply filter_In in Hi. destruct Hi as [Hi Hu].
    apply mem_In in Hu. apply (score_step_spec db ids similar_users); trivial.
  - split; [constructor|intros k []].
  - rewrite E. cbn [bind]. eexists. split; [reflexivity|]. split.
    + rewrite map_map. simpl. exact Hnd.
    + intros r Hr. apply in_map_iff in Hr. destruct Hr as [[k s] [<- Hks]].
      simpl. split; trivial.
      destruct (Hkeys k) as [Hnot Hex]; [apply (in_map fst) in Hks; exact Hks|].
      split; trivial. intros Hin. apply Hnot. subst ids.
      apply set_of_In, Hin.
Qed.

End CollaborativeResults.

Lemma collaborative_scorer_never_raises_lemma
        (F : Type) (ops : PyFloat F) (laws : PyFloatLaws ops)
        (db : Database F) (user_id : UUID)
        (content_type subject difficulty_level : option string) (limit : Z) :
  exists recs,
    _get_collaborative_recommendations
      db user_id content_type subject difficulty_level limit = Ok recs.
Proof.
  unfold _get_collaborative_recommendations.
  destruct (is_empty (_get_user_interactions db user_id)); [eauto|].
  destruct (find_similar_users_spec laws db user_id
              (_get_user_interactions db user_id)) as [sims [E _]].
  rewrite E. cbn [bind]. destruct (is_empty sims); [eauto|].
  destruct (from_similar_users_spec db user_id sims content_type subject
                                    difficulty_level) as [recs [E' _]].
  rewrite E'. cbn [bind]. eauto.
Qed.

(** X11. [_get_collaborative_recommendations] never raises: whatever the
    interaction table holds, it returns a list. *)
Theorem collaborative_scorer_never_raises
        (F : Type) (ops : PyFloat F) (laws : PyFloatLaws ops)
        (db : Database F) (user_id : UUID)
        (content_type subject difficulty_level : option string) (limit : Z) :
  exists recs,
    _get_collaborative_recommendations
      db user_id content_type subject difficulty_level limit = Ok recs.
Proof. apply collaborative_scorer_never_raises_lemma, laws. Qed.

Lemma collaborative_scorer_never_raises_witness :
  exists recs,
    _get_collaborative_recommendations
      (Examples.db_two_users false) 2 (Some "story") None None 10 = Ok recs.
Proof.
  apply (@collaborative_scorer_never_raises
           binary64 binary64_float binary64_laws
           (Examples.db_two_users false) 2%N (Some "story") None None 10%Z).
Defined.

(** X12. What [_get_collaborative_recommendations] returns: no content id
    twice; every entry of type [collaborative], for a content that the
    user has no interaction with and that another user has interacted
    with; at most [limit] entries when [limit] is not negative. *)
Theorem collaborative_results_are_unseen_content_of_others
        (F : Type) (ops : PyFloat F) (laws : PyFloatLaws ops)
        (db : Database F) (user_id : UUID)
        (content_type subject difficulty_level : option string) (limit : Z)
        (recs : list (RecommendationResponse F)) :
  _get_collaborative_recommendations
    db user_id content_type subject difficulty_level limit = Ok recs ->
  NoDup (map (@rec_content_id F) recs)
  /\ ((0 <= limit)%Z -> (Z.of_nat (List.length recs) <= limit)%Z)
  /\ forall r, In r recs ->
       recommendation_type r = COLLABORATIVE
       /\ (forall i, In i (user_content_interactions db) ->
                     uci_user_id i = user_id ->
                     uci_content_id i <> rec_content_id r)
       /\ exists i, In i (user_content_interactions db)
                    /\ uci_user_id i <> user_id
                    /\ uci_content_id i = rec_content_id r.
Proof.
  unfold _get_collaborative_recommendations.
  destruct (is_empty (_get_user_interactions db user_id)).
  { intros [= <-].
    split; [constructor|split; [simpl; lia|]].
    intros r []. }
  destruct (find_similar_users_spec laws db user_id
              (_get_user_interactions db user_id))
    as [sims (E & _ & _ & _ & Hsims)].
  rewrite E. cbn [bind]. destruct (is_empty sims).
  { intros [= <-].
    split; [constructor|split; [simpl; lia|]].
    intros r []. }
  destruct (from_similar_users_spec db user_id sims content_type subject
                                    difficulty_level)
    as [found (E' & Hnd & Hfound)].
  rewrite E'. cbn [bind]. intros [= <-]. split; [|split].
  - apply ranked_NoDup, Hnd.
  - apply slice_to_length.
  - intros r Hr. apply ranked_In in Hr.
    destruct (Hfound r Hr) as (Ht & Hnot & [i (Hi & Hu & Hc)]).
    split; trivial. split.
    + intros i' Hi' Hu' Hc'. apply Hnot. rewrite <- Hc'. apply in_map.
      apply user_interactions_In. auto.
    + exists i. split; trivial. split; trivial.
      apply in_map_iff in Hu. destruct Hu as [[u s] [Eu Hus]].
      simpl in Eu. subst u. apply (Hsims _ _ Hus).
Qed.

Lemma collaborative_results_are_unseen_content_of_others_witness :
  NoDup (map (@rec_content_id binary64) [collaborative_rec (21%N, f_3)])
  /\ ((0 <= 10)%Z ->
      (Z.of_nat (List.length [@collaborative_rec binary64 (21%N, f_3)])
       <= 10)%Z)
  /\ forall r : RecommendationResponse binary64,
       In r [collaborative_rec (21%N, f_3)] ->
       recommendation_type r = COLLABORATIVE
       /\ (forall i,
             In i (user_content_interactions (Examples.db_two_users false)) ->
             uci_user_id i = 2%N ->
             uci_content_id i <> rec_content_id r)
       /\ exists i,
            In i (user_content_interactions (Examples.db_two_users false))
            /\ uci_user_id i <> 2%N
            /\ uci_content_id i = rec_content_id r.
Proof.
  apply (@collaborative_results_are_unseen_content_of_others
           binary64 binary64_float binary64_laws
           (Examples.db_two_users false) 2%N None None None 10%Z
           [collaborative_rec (21%N, f_3)]).
  reflexivity.
Defined.

(* ================================================================= *)
(** ** The merger's content ids *)

Section MergerKeys.
Context {F : Type} {ops : PyFloat F}.

Lemma merge_content_based_keys (cbs : list (RecommendationResponse F)) :
  forall (m : list (UUID * MergedEntry F)) (k : UUID),
    In k (map fst (fold_left merge_content_based cbs m))
    <-> In k (map fst m) \/ In k (map (@rec_content_id F) cbs).
Proof.
  induction cbs as [|r cbs IH]; intros m k; simpl; [tauto|].
  rewrite IH. unfold merge_content_based.
  rewrite (dict_set_keys N.eqb N.eqb_eq). intuition congruence.
Qed.

Lemma merge_collaborative_keys (cls : list (RecommendationResponse F)) :
  forall (m : list (UUID * MergedEntry F)) (k : UUID),
    In k (map fst (fold_left merge_collaborative cls m))
    <-> In k (map fst m) \/ In k (map (@rec_content_id F) cls).
Proof.
  induction cls as [|r cls IH]; intros m k; simpl; [tauto|].
  rewrite IH. unfold merge_collaborative.
  destruct (dict_get N.eqb m (rec_content_id r));
    rewrite (dict_set_keys N.eqb N.eqb_eq); intuition congruence.
Qed.

Lemma merged_recs_of_keys (cbs cls : list (RecommendationResponse F))
      (k : UUID) :
  In k (map fst (merged_recs_of cbs cls))
  <-> In k (map (@rec_content_id F) cbs)
      \/ In k (map (@rec_content_id F) cls).
Proof.
  unfold merged_recs_of.
  rewrite merge_collaborative_keys, merge_content_based_keys. simpl. tauto.
Qed.

Lemma merged_recs_of_length (cbs cls : list (RecommendationResponse F)) :
  List.length (merged_recs_of cbs cls)
  <= List.length cbs + List.length cls.
Proof.
  unfold merged_recs_of.
  assert (H1 : forall l (m : list (UUID * MergedEntry F)),
             List.length (fold_left merge_content_based l m)
             <= List.length m + List.length l).
  { induction l as [|r l IH]; intros m; simpl; [lia|].
    specialize (IH (merge_content_based m r)).
    assert (Hl : List.length (merge_content_based m r) <= S (List.length m))
      by (unfold merge_content_based; apply dict_set_length).
    lia. }
  assert (H2 : forall l (m : list (UUID * MergedEntry F)),
             List.length (fold_left merge_collaborative l m)
             <= List.length m + List.length l).
  { induction l as [|r l IH]; intros m; simpl; [lia|].
    specialize (IH (merge_collaborative m r)).
    assert (Hl : List.length (merge_collaborative m r) <= S (List.length m)).
    { unfold merge_collaborative.
      destruct (dict_get N.eqb m (rec_content_id r));
        apply dict_set_length. }
    lia. }
  specialize (H1 cbs []). specialize (H2 cls (fold_left merge_content_based
                                                        cbs [])).
  simpl in H1. lia.
Qed.

Lemma hybrid_rec_ids (m : list (UUID * MergedEntry F)) :
  map (@rec_content_id F) (map hybrid_rec m) = map fst m.
Proof. rewrite map_map. apply map_ext. reflexivity. Qed.

Lemma hybrid_merge_NoDup (cbs cls : list (RecommendationResponse F))
      (limit : Z) :
  NoDup (map (@rec_content_id F)
             (_hybrid_merge_recommendations cbs cls limit)).
Proof.
  unfold _hybrid_merge_recommendations. apply ranked_NoDup.
  rewrite hybrid_rec_ids. apply merged_recs_of_inv.
Qed.

End MergerKeys.

(** X13. The hybrid merger returns no content id twice, whatever its inputs,
    and every content id it returns is one of an input list; when the
    limit is at least the number of input entries, it returns every
    content id of both lists. *)
Theorem hybrid_merge_is_the_deduplicated_union
        (F : Type) (ops : PyFloat F)
        (content_based_recs collaborative_recs
         : list (RecommendationResponse F))
        (limit : Z) :
  let ids := map (@rec_content_id F) in
  let merged :=
    _hybrid_merge_recommendations content_based_recs collaborative_recs
                                  limit in
  NoDup (ids merged)
  /\ (forall k, In k (ids merged) ->
                In k (ids content_based_recs)
                \/ In k (ids collaborative_recs))
  /\ ((Z.of_nat (List.length content_based_recs
                 + List.length collaborative_recs) <= limit)%Z ->
      forall k, In k (ids content_based_recs)
                \/ In k (ids collaborative_recs) ->
                In k (ids merged)).
Proof.
  intros ids merged. subst ids merged. split; [apply hybrid_merge_NoDup|].
  unfold _hybrid_merge_recommendations. split.
  - intros k Hk. apply in_map_iff in Hk. destruct Hk as [r [<- Hr]].
    apply ranked_In in Hr. apply (in_map (@rec_content_id F)) in Hr.
    rewrite hybrid_rec_ids in Hr. apply merged_recs_of_keys, Hr.
  - intros Hlimit k Hk. rewrite slice_to_all.
    + apply merged_recs_of_keys in Hk. rewrite <- hybrid_rec_ids in Hk.
      apply in_map_iff in Hk. destruct Hk as [r [<- Hr]].
      apply in_map, sort_desc_In, Hr.
    + rewrite sort_desc_length, length_map.
      pose proof (merged_recs_of_length content_based_recs
                                        collaborative_recs).
      lia.
Qed.

(* ================================================================= *)
(** ** The request as a whole *)

Section Request.
Context {F : Type} {ops : PyFloat F}.

Lemma filter_nothing {A : Type} (f : A -> bool) (l : list A) :
  (forall x, In x l -> f x = false) -> filter f l = [].
Proof.
  induction l as [|x l IH]; simpl; intros Hf; trivial.
  rewrite (Hf x (or_introl eq_refl)). apply IH. auto.
Qed.

Lemma find_nothing {A : Type} (f : A -> bool) (l : list A) :
  (forall x, In x l -> f x = false) -> find f l = None.
Proof.
  induction l as [|x l IH]; simpl; intros Hf; trivial.
  rewrite (Hf x (or_introl eq_refl)). apply IH. auto.
Qed.

Lemma record_nothing (db : Database F) (user_id : UUID) :
  commit_fails db = false ->
  _record_recommendations db user_id [] = (Ok tt, db).
Proof.
  intros Hc. unfold _record_recommendations. rewrite Hc. simpl.
  rewrite app_nil_r. destruct db. simpl in *. subst. reflexivity.
Qed.

End Request.

(** X14. A successful request changes nothing but the history table, and adds
    to it, after what was there, one record per returned recommendation,
    in the order of the list: with the user, the content id, the score
    and the metadata of the recommendation, and the type [hybrid]. *)
Theorem successful_request_appends_its_history
        (F : Type) (ops : PyFloat F) (db db' : Database F) (user_id : UUID)
        (content_type subject difficulty_level : option string) (limit : Z)
        (recs : list (RecommendationResponse F)) :
  get_recommendations db user_id content_type subject difficulty_level limit
  = (Ok recs, db') ->
  user_preferences db' = user_preferences db
  /\ user_content_interactions db' = user_content_interactions db
  /\ content_feature_vectors db' = content_feature_vectors db
  /\ exists added,
       recommendation_history db' = recommendation_history db ++ added
       /\ map (@rh_content_id F) added = map (@rec_content_id F) recs
       /\ map (@rh_score F) added = map (@score F) recs
       /\ map (@rh_metadata F) added = map (@metadata F) recs
       /\ Forall (fun h => rh_user_id h = user_id
                           /\ rh_recommendation_type h = HYBRID) added.
Proof.
  unfold get_recommendations.
  destruct (_get_content_based_recommendations _ _ _ _ _ _ _)
    as [cbs|e]; [|discriminate].
  destruct (_get_collaborative_recommendations _ _ _ _ _ _)
    as [cls|e]; [|discriminate].
  unfold _record_recommendations.
  destruct (commit_fails db); [discriminate|].
  intros [= <- <-]. simpl. repeat split.
  exists (map (history_of user_id)
              (_hybrid_merge_recommendations cbs cls limit)).
  split; trivial. rewrite !map_map. simpl. repeat split.
  rewrite Forall_forall. intros h Hh. apply in_map_iff in Hh.
  destruct Hh as [r [<- Hr]]. simpl. split; trivial.
  apply hybrid_merge_In in Hr. destruct Hr as [item [_ ->]]. reflexivity.
Qed.

Lemma successful_request_appends_its_history_witness :
  let db := Examples.db_two_users false in
  let db' := snd (get_recommendations db 2 None None None 10) in
  user_preferences db' = user_preferences db
  /\ user_content_interactions db' = user_content_interactions db
  /\ content_feature_vectors db' = content_feature_vectors db
  /\ exists added,
       recommendation_history db' = recommendation_history db ++ added
       /\ map (@rh_content_id binary64) added
          = map (@rec_content_id binary64) [Examples.example_hybrid]
       /\ map (@rh_score binary64) added
          = map (@score binary64) [Examples.example_hybrid]
       /\ map (@rh_metadata binary64) added
          = map (@metadata binary64) [Examples.example_hybrid]
       /\ Forall (fun h => rh_user_id h = 2%N
                           /\ rh_recommendation_type h = HYBRID) added.
Proof.
  intros db db'.
  apply (@successful_request_appends_its_history
           binary64 binary64_float db db' 2%N None None None 10%Z
           [Examples.example_hybrid]).
  vm_compute. reflexivity.
Defined.

(** X15. A request that fails leaves the database as it was, and it fails in
    one of two ways only: with [ValueError], from vectors of different
    lengths, or with the error of a commit that the storage refuses. *)
Theorem failed_request_changes_nothing
        (F : Type) (ops : PyFloat F) (laws : PyFloatLaws ops)
        (db db' : Database F) (user_id : UUID)
        (content_type subject difficulty_level : option string) (limit : Z)
        (e : PyError) :
  get_recommendations db user_id content_type subject difficulty_level limit
  = (Raise e, db') ->
  db' = db
  /\ (e = ValueError \/ (e = DatabaseError /\ commit_fails db = true)).
Proof.
  unfold get_recommendations.
  destruct (_get_content_based_recommendations _ _ _ _ _ _ _)
    as [cbs|e1] eqn:Ecb.
  - destruct (collaborative_scorer_never_raises_lemma
                laws db user_id content_type subject difficulty_level limit)
      as [cls Ecl].
    rewrite Ecl. unfold _record_recommendations.
    destruct (commit_fails db); [|discriminate].
    intros [= <- <-]. auto.
  - intros [= <- <-]. split; trivial. left.
    apply (content_based_raises _ _ _ _ _ _ _ Ecb).
Qed.

Lemma failed_request_changes_nothing_witness :
  Examples.db_mismatch = Examples.db_mismatch
  /\ (ValueError = ValueError
      \/ (ValueError = DatabaseError
          /\ commit_fails Examples.db_mismatch = true)).
Proof.
  apply (@failed_request_changes_nothing
           binary64 binary64_float binary64_laws
           Examples.db_mismatch Examples.db_mismatch 1%N None None None 10%Z
           ValueError).
  reflexivity.
Defined.

(** X16. On storage whose feature vectors all have the same number of
    components, and with a commit that succeeds, a request succeeds: it
    returns a list without repeated content ids, of at most [limit]
    entries when [limit] is not negative. *)
Theorem request_succeeds_on_uniform_vectors
        (F : Type) (ops : PyFloat F) (laws : PyFloatLaws ops)
        (db : Database F) (n : nat) (user_id : UUID)
        (content_type subject difficulty_level : option string) (limit : Z) :
  uniform_dimension db n ->
  commit_fails db = false ->
  exists recs db',
    get_recommendations db user_id content_type subject difficulty_level
                        limit
    = (Ok recs, db')
    /\ NoDup (map (@rec_content_id F) recs)
    /\ ((0 <= limit)%Z -> (Z.of_nat (List.length recs) <= limit)%Z).
Proof.
  intros Hu Hc. unfold get_recommendations.
  destruct (content_based_total user_id (_get_user_preferences db user_id)
              content_type subject difficulty_level limit Hu) as [cbs Ecb].
  destruct (collaborative_scorer_never_raises_lemma
              laws db user_id content_type subject difficulty_level limit)
    as [cls Ecl].
  rewrite Ecb, Ecl. unfold _record_recommendations. rewrite Hc.
  eexists. eexists. split; [reflexivity|]. split.
  - apply hybrid_merge_NoDup.
  - unfold _hybrid_merge_recommendations. apply slice_to_length.
Qed.

Lemma request_succeeds_on_uniform_vectors_witness :
  exists recs db',
    get_recommendations (Examples.db_two_users false) 2 None None None 10
    = (Ok recs, db')
    /\ NoDup (map (@rec_content_id binary64) recs)
    /\ ((0 <= 10)%Z -> (Z.of_nat (List.length recs) <= 10)%Z).
Proof.
  apply (@request_succeeds_on_uniform_vectors
           binary64 binary64_float binary64_laws
           (Examples.db_two_users false) 2 2%N None None None 10%Z).
  - repeat constructor.
  - reflexivity.
Defined.

(** X17. A user without any interaction and without a preference record gets
    the empty list, and the database stays as it is, provided the commit
    (of no record) succeeds; when the storage refuses that commit, the
    request fails also for this user. *)
Theorem new_user_gets_the_empty_list
        (F : Type) (ops : PyFloat F) (db : Database F) (user_id : UUID)
        (content_type subject difficulty_level : option string) (limit : Z) :
  (forall i, In i (user_content_interactions db) ->
             uci_user_id i <> user_id) ->
  (forall p, In p (user_preferences db) -> up_user_id p <> user_id) ->
  get_recommendations db user_id content_type subject difficulty_level limit
  = if commit_fails db then (Raise DatabaseError, db) else (Ok [], db).
Proof.
  intros Hi Hp.
  assert (Hno : _get_user_interactions db user_id = []).
  { unfold _get_user_interactions. rewrite filter_nothing; trivial.
    intros i Hin. apply N.eqb_neq, Hi, Hin. }
  assert (Hpref : _get_user_preferences db user_id = None).
  { unfold _get_user_preferences. apply find_nothing.
    intros p Hin. apply N.eqb_neq, Hp, Hin. }
  unfold get_recommendations, _get_content_based_recommendations,
    _get_collaborative_recommendations.
  rewrite Hno, Hpref. simpl.
  destruct (commit_fails db) eqn:Hc.
  - unfold _record_recommendations. rewrite Hc. reflexivity.
  - unfold _hybrid_merge_recommendations, merged_recs_of. simpl.
    replace (slice_to [] limit) with (@nil (RecommendationResponse F))
      by (unfold slice_to; destruct (0 <=? limit)%Z;
          [rewrite firstn_nil|simpl]; reflexivity).
    rewrite (record_nothing db user_id Hc). reflexivity.
Qed.

Lemma new_user_gets_the_empty_list_witness :
  get_recommendations Examples.db_scenario 7 None None None 10
  = if commit_fails Examples.db_scenario
    then (Raise DatabaseError, Examples.db_scenario)
    else (Ok [], Examples.db_scenario).
Proof.
  apply (@new_user_gets_the_empty_list
           binary64 binary64_float Examples.db_scenario 7%N
           None None None 10%Z).
  - simpl. intros i [<-|[]]. discriminate.
  - intros p [].
Defined.

(* ================================================================= *)
(** ** The weight of an unknown interaction type in the three loops *)

Lemma for_each_app {A S : Type} (body : S -> A -> result S)
      (l l' : list A) (s : S) :
  for_each body (l ++ l') s
  = (do s' <- for_each body l s; for_each body l' s').
Proof.
  revert s. induction l as [|x l IH]; intros s; simpl; trivial.
  destruct (body s x); simpl; trivial.
Qed.

Section UnknownTypeInLoops.
Context {F : Type} {ops : PyFloat F}.

(** The lookup in the vectors of the interacted contents is the lookup in
    the whole table. *)
Lemma filtered_vector_lookup (ids : list UUID)
      (rows : list (ContentFeatureVector F)) (k : UUID) :
  forall d d' : list (UUID * list F),
    dict_get N.eqb d' k
    = (if mem k ids then dict_get N.eqb d k else None) ->
    dict_get N.eqb
      (fold_left (fun d v => dict_set N.eqb d (cfv_content_id v)
                                      (feature_vector v))
                 (filter (fun v => mem (cfv_content_id v) ids) rows) d') k
    = (if mem k ids
       then dict_get N.eqb
              (fold_left (fun d v => dict_set N.eqb d (cfv_content_id v)
                                              (feature_vector v))
                         rows d) k
       else None).
Proof.
  induction rows as [|v rows IH]; intros d d' Hd; simpl; trivial.
  destruct (mem (cfv_content_id v) ids) eqn:M; simpl; apply IH.
  - destruct (N.eq_dec k (cfv_content_id v)) as [->|Hk].
    + rewrite M, !(dict_get_set_same N.eqb N.eqb_eq). reflexivity.
    + rewrite !(dict_get_set_other N.eqb N.eqb_eq) by exact Hk. exact Hd.
  - destruct (N.eq_dec k (cfv_content_id v)) as [->|Hk].
    + rewrite M in *. exact Hd.
    + rewrite (dict_get_set_other N.eqb N.eqb_eq) by exact Hk. exact Hd.
Qed.

Lemma profile_step_lookup (cv cv' : list (UUID * list F)) st
      (i : UserContentInteraction F) :
  dict_get N.eqb cv (uci_content_id i)
  = dict_get N.eqb cv' (uci_content_id i) ->
  profile_step cv st i = profile_step cv' st i.
Proof. unfold profile_step. intros ->. reflexivity. Qed.

(** The profile loop reads, for each interaction, the stored vector of
    its content. *)
Lemma accumulate_profile_stored (db : Database F)
      (l : list (UserContentInteraction F)) :
  accumulate_profile db l
  = for_each (profile_step (vector_dict (content_feature_vectors db))) l
             (None, f_0).
Proof.
  unfold accumulate_profile. apply for_each_ext. intros st i Hi.
  apply profile_step_lookup.
  assert (Hin : In (uci_content_id i) (map (@uci_content_id F) l))
    by (apply in_map, Hi).
  destruct (map (@uci_content_id F) l) as [|k0 ids] eqn:E; [destruct Hin|].
  simpl is_empty. cbv iota. unfold vector_dict.
  apply (proj2 (mem_In _ _)) in Hin.
  etransitivity.
  - apply (filtered_vector_lookup (k0 :: ids) (content_feature_vectors db)
             (uci_content_id i) [] []).
    rewrite Hin. reflexivity.
  - rewrite Hin. reflexivity.
Qed.

(** One more interaction, of a type outside the table, in the profile
    loop. *)
Lemma accumulate_profile_unknown (db : Database F)
      (l : list (UserContentInteraction F)) (i : UserContentInteraction F)
      (vector : list F) :
  known_interaction_type (interaction_type i) = false ->
  stored_vector db (uci_content_id i) = Some vector ->
  accumulate_profile db (l ++ [i])
  = (do st <- accumulate_profile db l;
     do pv <- match fst st with
              | None =>
                  Ok (np_scale vector (fmul f_1 (engagement_score i)))
              | Some p =>
                  np_iadd p (np_scale vector
                                      (fmul f_1 (engagement_score i)))
              end;
     Ok (Some pv, fadd (snd st) (fmul f_1 (engagement_score i)))).
Proof.
  intros Hk Hv. rewrite !accumulate_profile_stored, for_each_app.
  destruct (for_each _ l (None, f_0)) as [st|e]; simpl; trivial.
  unfold profile_step. unfold stored_vector in Hv. rewrite Hv.
  rewrite (interaction_weight_unknown _ Hk).
  destruct (fst st); simpl; [|reflexivity].
  destruct (np_iadd _ _); reflexivity.
Qed.

(** The same in the whole of [_calculate_user_profile]: the row of the
    content, times [1.0] and the engagement score, is added to the sum,
    and [1.0] times the engagement score to the total weight. *)
Lemma calculate_user_profile_unknown (db : Database F) (user_id : UUID)
      (l : list (UserContentInteraction F)) (i : UserContentInteraction F)
      (user_prefs : option UserPreference) (vector : list F) :
  known_interaction_type (interaction_type i) = false ->
  stored_vector db (uci_content_id i) = Some vector ->
  _calculate_user_profile db user_id (l ++ [i]) user_prefs
  = (do st <- accumulate_profile db l;
     do pv <- match fst st with
              | None =>
                  Ok (np_scale vector (fmul f_1 (engagement_score i)))
              | Some p =>
                  np_iadd p (np_scale vector
                                      (fmul f_1 (engagement_score i)))
              end;
     Ok (if fltb f_0 (fadd (snd st) (fmul f_1 (engagement_score i)))
         then np_div pv (fadd (snd st) (fmul f_1 (engagement_score i)))
         else pv)).
Proof.
  intros Hk Hv. unfold _calculate_user_profile, interaction_profile.
  replace (is_empty (l ++ [i])) with false by (destruct l; reflexivity).
  cbn [andb]. rewrite (accumulate_profile_unknown db l i Hk Hv).
  destruct (accumulate_profile db l) as [[pv total]|e]; cbn [bind];
    [|reflexivity].
  cbn [fst snd].
  destruct (match pv with
            | None => Ok (np_scale vector (fmul f_1 (engagement_score i)))
            | Some p =>
                np_iadd p (np_scale vector (fmul f_1 (engagement_score i)))
            end) as [pv'|e]; cbn [bind fst snd]; [|reflexivity].
  destruct (fltb f_0 (fadd total (fmul f_1 (engagement_score i))));
    cbn [bind]; destruct user_prefs; reflexivity.
Qed.

(** One more interaction, of a type outside the table, on a content of
    the index, in the interaction vector. *)
Lemma create_interaction_vector_unknown
      (l : list (UserContentInteraction F)) (i : UserContentInteraction F)
      (content_ids : list UUID) :
  known_interaction_type (interaction_type i) = false ->
  NoDup content_ids ->
  In (uci_content_id i) content_ids ->
  exists vector before j,
    _create_interaction_vector (l ++ [i]) content_ids = Ok vector
    /\ _create_interaction_vector l content_ids = Ok before
    /\ List.length vector = List.length content_ids
    /\ nth_error (sorted content_ids) j = Some (uci_content_id i)
    /\ nth_error vector j = Some (fmul f_1 (engagement_score i))
    /\ forall j', j' <> j -> nth_error vector j' = nth_error before j'.
Proof.
  intros Hk Hnd Hin.
  destruct (create_interaction_vector_spec (l ++ [i]) Hnd)
    as [vector [Erun [Hlen Hentries]]].
  destruct (create_interaction_vector_spec l Hnd)
    as [before [Erun0 [Hlen0 Hentries0]]].
  assert (Hperm := sorted_perm content_ids).
  assert (Hin' : In (uci_content_id i) (sorted content_ids))
    by (eapply Permutation_in; [exact Hperm|exact Hin]).
  destruct (In_nth_error _ _ Hin') as [j Hj].
  exists vector, before, j. split; [exact Erun|]. split; [exact Erun0|].
  split; [rewrite Hlen; symmetry; apply Permutation_length, Hperm|].
  split; [exact Hj|]. split.
  - rewrite (Hentries j _ Hj), interaction_strength_snoc, N.eqb_refl.
    rewrite (interaction_weight_unknown _ Hk). reflexivity.
  - intros j' Hne.
    destruct (nth_error (sorted content_ids) j') as [k|] eqn:Ek.
    + rewrite (Hentries j' k Ek), (Hentries0 j' k Ek).
      rewrite interaction_strength_snoc.
      destruct (N.eqb (uci_content_id i) k) eqn:E; [|reflexivity].
      apply N.eqb_eq in E. subst k. exfalso. apply Hne.
      assert (Hs : NoDup (sorted content_ids))
        by apply (Permutation_NoDup Hperm Hnd).
      apply (proj1 (NoDup_nth_error (sorted content_ids)) Hs).
      * apply nth_error_Some. rewrite Ek. discriminate.
      * rewrite Ek, Hj. reflexivity.
    + apply nth_error_None in Ek.
      rewrite (proj2 (nth_error_None vector j')) by (rewrite Hlen; exact Ek).
      rewrite (proj2 (nth_error_None before j')) by (rewrite Hlen0; exact Ek).
      reflexivity.
Qed.

(** The collaborative score of a content id is its entry in the loop's
    dictionary. *)
Lemma component_score_of_dict (scores : list (UUID * F)) (k : UUID) :
  NoDup (map fst scores) ->
  component_score (map collaborative_rec scores) k
  = match dict_get N.eqb scores k with Some s => s | None => f_0 end.
Proof.
  unfold component_score. generalize (f_0 : F).
  induction scores as [|[k0 s0] scores IH]; intros acc Hnd; simpl; trivial.
  inversion Hnd as [|? ? Hk0 Hrest]; subst. rewrite (N.eqb_sym k k0).
  destruct (N.eqb k0 k) eqn:E.
  - apply N.eqb_eq in E. subst k0. rewrite (IH s0 Hrest).
    apply (dict_get_None N.eqb N.eqb_eq) in Hk0. rewrite Hk0. reflexivity.
  - apply IH, Hrest.
Qed.

Lemma score_loop_NoDup ids weights
      (rows : list (UserContentInteraction F)) (scores : list (UUID * F)) :
  for_each (score_step ids weights) rows [] = Ok scores ->
  NoDup (map fst scores).
Proof.
  intros Hrun.
  apply (for_each_invariant (fun s : list (UUID * F) => NoDup (map fst s))
           (score_step ids weights) rows) with (s := []);
    [|constructor|exact Hrun].
  intros s i s' _ Hs. unfold score_step.
  destruct (mem _ ids); [intros [= <-]; exact Hs|].
  destruct (dict_get N.eqb weights _); [|discriminate]. cbv zeta.
  match goal with
  | |- context [dict_get N.eqb ?x (uci_content_id i)] => set (sc := x)
  end.
  assert (Hsc : NoDup (map fst sc)).
  { subst sc. destruct (dict_contains _ _ _); trivial.
    apply (dict_set_NoDup N.eqb N.eqb_eq), Hs. }
  destruct (dict_get N.eqb sc _); [|discriminate].
  intros [= <-]. apply (dict_set_NoDup N.eqb N.eqb_eq), Hsc.
Qed.

(** One more interaction, of a type outside the table, by a similar user
    on a content the target user has not seen, in the aggregation. *)
Lemma score_step_unknown ids weights (scores : list (UUID * F))
      (i : UserContentInteraction F) (w : F) :
  known_interaction_type (interaction_type i) = false ->
  mem (uci_content_id i) ids = false ->
  dict_get N.eqb weights (uci_user_id i) = Some w ->
  exists scores',
    score_step ids weights scores i = Ok scores'
    /\ dict_get N.eqb scores' (uci_content_id i)
       = Some (fadd (match dict_get N.eqb scores (uci_content_id i) with
                     | Some s => s
                     | None => f_0
                     end)
                    (fmul w (fmul f_1 (engagement_score i))))
    /\ forall k, k <> uci_content_id i ->
                 dict_get N.eqb scores' k = dict_get N.eqb scores k.
Proof.
  intros Hk Hm Hw. unfold score_step. rewrite Hm, Hw. cbv zeta.
  rewrite (interaction_weight_unknown _ Hk). unfold dict_contains.
  destruct (dict_get N.eqb scores (uci_content_id i)) as [s|] eqn:G.
  - rewrite G. eexists. split; [reflexivity|]. split.
    + apply (dict_get_set_same N.eqb N.eqb_eq).
    + intros k Hne. apply (dict_get_set_other N.eqb N.eqb_eq), Hne.
  - rewrite (dict_get_set_same N.eqb N.eqb_eq).
    eexists. split; [reflexivity|]. split.
    + apply (dict_get_set_same N.eqb N.eqb_eq).
    + intros k Hne.
      rewrite !(dict_get_set_other N.eqb N.eqb_eq) by exact Hne.
      reflexivity.
Qed.

Lemma user_interactions_with_other (db : Database F) (user_id : UUID)
      (i : UserContentInteraction F) :
  uci_user_id i <> user_id ->
  _get_user_interactions (with_interaction db i) user_id
  = _get_user_interactions db user_id.
Proof.
  intros Hu. unfold _get_user_interactions, with_interaction. simpl.
  rewrite filter_app. simpl.
  apply N.eqb_neq in Hu. rewrite Hu, app_nil_r. reflexivity.
Qed.

Lemma from_similar_users_unknown (db : Database F) (user_id : UUID)
      (similar_users : list (UUID * F))
      (content_type subject difficulty_level : option string)
      (i : UserContentInteraction F) (w : F)
      (recs : list (RecommendationResponse F)) :
  known_interaction_type (interaction_type i) = false ->
  uci_user_id i <> user_id ->
  dict_get N.eqb (dict_update N.eqb [] similar_users) (uci_user_id i)
  = Some w ->
  (forall j, In j (user_content_interactions db) ->
             uci_user_id j = user_id ->
             uci_content_id j <> uci_content_id i) ->
  _get_recommendations_from_similar_users
    db user_id similar_users content_type subject difficulty_level
  = Ok recs ->
  exists recs',
    _get_recommendations_from_similar_users
      (with_interaction db i) user_id similar_users
      content_type subject difficulty_level
    = Ok recs'
    /\ component_score recs' (uci_content_id i)
       = fadd (component_score recs (uci_content_id i))
              (fmul w (fmul f_1 (engagement_score i)))
    /\ forall k, k <> uci_content_id i ->
                 component_score recs' k = component_score recs k.
Proof.
  intros Hk Hu Hw Hunseen. unfold _get_recommendations_from_similar_users.
  rewrite (@user_interactions_with_other db user_id i Hu).
  set (ids := set_of (map (@uci_content_id F)
                          (_get_user_interactions db user_id))).
  set (weights := dict_update N.eqb [] similar_users) in *.
  assert (Hsim : mem (uci_user_id i) (map fst similar_users) = true).
  { apply mem_In.
    assert (Hkey : In (uci_user_id i) (map fst weights)).
    { apply (dict_get_In N.eqb N.eqb_eq) in Hw.
      apply (in_map fst) in Hw. exact Hw. }
    subst weights. apply (dict_update_keys N.eqb N.eqb_eq) in Hkey.
    destruct Hkey as [[]|Hkey]. exact Hkey. }
  simpl user_content_interactions. rewrite filter_app. simpl filter.
  rewrite Hsim, for_each_app.
  destruct (for_each (score_step ids weights) _ []) as [scores|e] eqn:Loop;
    cbn [bind]; [|discriminate].
  intros [= <-].
  assert (Hm : mem (uci_content_id i) ids = false).
  { destruct (mem (uci_content_id i) ids) eqn:M; trivial. exfalso.
    apply mem_In in M. subst ids. apply set_of_In, in_map_iff in M.
    destruct M as [j [Ej Hj]]. apply user_interactions_In in Hj.
    destruct Hj as [Hj Huj]. apply (Hunseen j Hj Huj Ej). }
  destruct (score_step_unknown ids weights scores i Hk Hm Hw)
    as [scores' (Estep & Hnew & Hother)].
  simpl for_each. rewrite Estep. cbn [bind].
  eexists. split; [reflexivity|].
  assert (Hnd : NoDup (map fst scores)) by apply (score_loop_NoDup _ _ _ Loop).
  assert (Hnd' : NoDup (map fst scores')).
  { apply (score_loop_NoDup ids weights
             (filter (fun i0 => mem (uci_user_id i0) (map fst similar_users))
                     (user_content_interactions db) ++ [i])).
    rewrite for_each_app, Loop. cbn [bind]. simpl. rewrite Estep.
    reflexivity. }
  rewrite !component_score_of_dict by assumption. split.
  - rewrite Hnew. reflexivity.
  - intros k Hne. rewrite !component_score_of_dict by assumption.
    rewrite (Hother k Hne). reflexivity.
Qed.

End UnknownTypeInLoops.

(** C10. An interaction type [t] that is none of view, complete, like and
    bookmark is given the weight [1.0], the weight of view, in each of the
    three loops that look the weight up.  The loops run on interactions of
    unknown type exactly as on the same interactions typed view, with the
    same result and the same exception if any; and an interaction [i] of
    type [t] coming last contributes with the factor [1.0]:
    - profile building adds the stored vector of its content times
      [1.0 * engagement_score] to the sum and [1.0 * engagement_score] to
      the total weight by which [_calculate_user_profile] divides;
    - the interaction vector holds [1.0 * engagement_score] at the index
      of its content, and the entries of the other indices are those of
      the vector without [i];
    - in the aggregation over similar users, when [i] is by a similar user
      of similarity [w] on a content that the target user has not
      interacted with, the score of that content grows by
      [w * (1.0 * engagement_score)], and the scores of the other contents
      stay. *)
Theorem unknown_interaction_type_weighs_as_view
        (F : Type) (ops : PyFloat F) (t : string) :
  known_interaction_type t = false ->
  interaction_weight t = f_1
  /\ interaction_weight t = interaction_weight VIEW
  /\ (forall (i : UserContentInteraction F),
        interaction_type i = t -> interaction_type (as_view i) = VIEW)
  /\ (forall db user_id (l : list (UserContentInteraction F)) user_prefs,
        _calculate_user_profile db user_id (map as_view l) user_prefs
        = _calculate_user_profile db user_id l user_prefs)
  /\ (forall (l : list (UserContentInteraction F)) content_ids,
        _create_interaction_vector (map as_view l) content_ids
        = _create_interaction_vector l content_ids)
  /\ (forall ids weights (l : list (UserContentInteraction F)) content_scores,
        for_each (score_step ids weights) (map as_view l) content_scores
        = for_each (score_step ids weights) l content_scores)
  /\ (forall (db : Database F) user_id l i user_prefs vector,
        interaction_type i = t ->
        stored_vector db (uci_content_id i) = Some vector ->
        _calculate_user_profile db user_id (l ++ [i]) user_prefs
        = (do st <- accumulate_profile db l;
           do pv <- match fst st with
                    | None =>
                        Ok (np_scale vector (fmul f_1 (engagement_score i)))
                    | Some p =>
                        np_iadd p (np_scale vector
                                            (fmul f_1 (engagement_score i)))
                    end;
           Ok (if fltb f_0 (fadd (snd st) (fmul f_1 (engagement_score i)))
               then np_div pv (fadd (snd st)
                                    (fmul f_1 (engagement_score i)))
               else pv)))
  /\ (forall (l : list (UserContentInteraction F)) i content_ids,
        interaction_type i = t ->
        NoDup content_ids ->
        In (uci_content_id i) content_ids ->
        exists vector before j,
          _create_interaction_vector (l ++ [i]) content_ids = Ok vector
          /\ _create_interaction_vector l content_ids = Ok before
          /\ List.length vector = List.length content_ids
          /\ nth_error (sorted content_ids) j = Some (uci_content_id i)
          /\ nth_error vector j = Some (fmul f_1 (engagement_score i))
          /\ forall j', j' <> j -> nth_error vector j' = nth_error before j')
  /\ (forall (db : Database F) user_id similar_users
             content_type subject difficulty_level i w recs,
        interaction_type i = t ->
        uci_user_id i <> user_id ->
        dict_get N.eqb (dict_update N.eqb [] similar_users) (uci_user_id i)
        = Some w ->
        (forall j, In j (user_content_interactions db) ->
                   uci_user_id j = user_id ->
                   uci_content_id j <> uci_content_id i) ->
        _get_recommendations_from_similar_users
          db user_id similar_users content_type subject difficulty_level
        = Ok recs ->
        exists recs',
          _get_recommendations_from_similar_users
            (with_interaction db i) user_id similar_users
            content_type subject difficulty_level
          = Ok recs'
          /\ component_score recs' (uci_content_id i)
             = fadd (component_score recs (uci_content_id i))
                    (fmul w (fmul f_1 (engagement_score i)))
          /\ forall k, k <> uci_content_id i ->
                       component_score recs' k = component_score recs k).
Proof.
  intros Hk. repeat match goal with |- _ /\ _ => split end.
  - apply interaction_weight_unknown, Hk.
  - rewrite (interaction_weight_unknown _ Hk). reflexivity.
  - intros i <-. unfold as_view. rewrite Hk. reflexivity.
  - intros. apply calculate_user_profile_as_view.
  - intros. apply create_interaction_vector_as_view.
  - intros. rewrite for_each_map. apply for_each_ext.
    intros s x _. apply score_step_as_view.
  - intros db user_id l i user_prefs vector Ht Hv. subst t.
    apply calculate_user_profile_unknown; assumption.
  - intros l i content_ids Ht Hnd Hin. subst t.
    apply create_interaction_vector_unknown; assumption.
  - intros db user_id similar_users content_type subject difficulty_level
           i w recs Ht Hu Hw Hunseen Hrun. subst t.
    apply (@from_similar_users_unknown F ops db user_id similar_users
             content_type subject difficulty_level i w recs);
      assumption.
Qed.

Lemma unknown_interaction_type_weighs_as_view_witness :
  known_interaction_type "share" = false
  /\ interaction_weight "share" = Examples.one
  /\ _calculate_user_profile
       Examples.db_unknown_type 1
       (map as_view (_get_user_interactions Examples.db_unknown_type 1)) None
     = _calculate_user_profile
         Examples.db_unknown_type 1
         (_get_user_interactions Examples.db_unknown_type 1) None
  /\ _calculate_user_profile
       Examples.db_unknown_type 1
       ([] ++ [Examples.interaction 1 10 "share" b64_2 0]) None
     = Ok [Examples.one; Examples.zero].
Proof.
  pose proof (@unknown_interaction_type_weighs_as_view
                binary64 binary64_float "share" eq_refl)
    as (Hweight & _ & _ & Hprofile & _ & _ & Hlast & _).
  split; [reflexivity|]. split; [exact Hweight|]. split; [apply Hprofile|].
  rewrite (Hlast Examples.db_unknown_type 1%N []
                 (Examples.interaction 1 10 "share" b64_2 0) None
                 [Examples.one; Examples.zero] eq_refl eq_refl).
  vm_compute. reflexivity.
Defined.

(* ================================================================= *)
(** ** Cosine similarity in binary64 *)

(** The square, the square root and the quotient of [SpecFloat], followed
    through their integer algorithms on a normal number [m * 2 ^ e]. *)

Local Open Scope Z_scope.

Lemma digits2_pos_bounds (p : positive) : forall k : nat,
  2 ^ Z.of_nat k <= Z.pos p < 2 ^ Z.of_nat (S k) ->
  Z.pos (digits2_pos p) = Z.of_nat (S k).
Proof.
  induction p as [p IH|p IH|]; intros k Hk.
  - destruct k as [|k].
    + simpl in Hk. lia.
    + rewrite !Nat2Z.inj_succ, !Z.pow_succ_r in Hk by lia.
      simpl digits2_pos. rewrite Pos2Z.inj_succ, (IH k).
      * lia.
      * rewrite Nat2Z.inj_succ, Z.pow_succ_r by lia. lia.
  - destruct k as [|k].
    + simpl in Hk. lia.
    + rewrite !Nat2Z.inj_succ, !Z.pow_succ_r in Hk by lia.
      simpl digits2_pos. rewrite Pos2Z.inj_succ, (IH k).
      * lia.
      * rewrite Nat2Z.inj_succ, Z.pow_succ_r by lia. lia.
  - destruct k as [|k]; [reflexivity|].
    rewrite Nat2Z.inj_succ, Z.pow_succ_r in Hk by lia.
    assert (0 < 2 ^ Z.of_nat k) by (apply Z.pow_pos_nonneg; lia). lia.
Qed.

Lemma digits2_pos_53 (m : positive) :
  2 ^ 52 <= Z.pos m < 2 ^ 53 -> digits2_pos m = 53%positive.
Proof.
  intros Hm. pose proof (@digits2_pos_bounds m 52 Hm) as H.
  injection H as H. exact H.
Qed.

Lemma iter_pos_nat {A : Type} (f : A -> A) (p : positive) : forall x : A,
  SpecFloat.iter_pos f p x = Nat.iter (Pos.to_nat p) f x.
Proof.
  induction p as [p IH|p IH|]; intros x; simpl SpecFloat.iter_pos.
  - rewrite !IH, Pos2Nat.inj_xI, <- Nat.iter_add, <- Nat.iter_succ_r.
    f_equal. lia.
  - rewrite !IH, Pos2Nat.inj_xO, <- Nat.iter_add. f_equal. lia.
  - reflexivity.
Qed.

Lemma shr_1_iter (M : Z) (k : nat) :
  0 <= M ->
  exists m r s rem,
    Nat.iter k shr_1 (Build_shr_record M false false)
    = Build_shr_record m r s
    /\ 0 <= m
    /\ M = m * 2 ^ Z.of_nat k + rem
    /\ 0 <= rem < 2 ^ Z.of_nat k
    /\ match r, s with
       | false, false => rem = 0
       | false, true => 0 < rem /\ 2 * rem < 2 ^ Z.of_nat k
       | true, false => 2 * rem = 2 ^ Z.of_nat k
       | true, true => 2 ^ Z.of_nat k < 2 * rem
       end.
Proof.
  intros HM. induction k as [|k IH].
  - exists M, false, false, 0. simpl. repeat split; lia.
  - destruct IH as (m & r & s & rem & Eit & Hm & HMeq & Hrem & Hloc).
    rewrite Nat.iter_succ, Eit, Nat2Z.inj_succ, Z.pow_succ_r by lia.
    set (P := 2 ^ Z.of_nat k) in *.
    destruct m as [|[p|p|]|p]; [| | | |lia]; simpl shr_1.
    + exists 0, false, (r || s)%bool, rem.
      split; [reflexivity|]. repeat split; try lia.
      destruct r, s; cbn [orb] in *; lia.
    + exists (Z.pos p), true, (r || s)%bool, (rem + P).
      split; [reflexivity|]. repeat split; try lia.
      destruct r, s; cbn [orb] in *; lia.
    + exists (Z.pos p), false, (r || s)%bool, rem.
      split; [reflexivity|]. repeat split; try lia.
      destruct r, s; cbn [orb] in *; lia.
    + exists 0, true, (r || s)%bool, (rem + P).
      split; [reflexivity|]. repeat split; try lia.
      destruct r, s; cbn [orb] in *; lia.
Qed.

Lemma fexp_b64 (x : Z) : -1021 <= x -> fexp 53 1024 x = x - 53.
Proof. intros Hx. unfold fexp, emin. lia. Qed.

Lemma shr_fexp_keep (m : positive) (e : Z) (l : location) :
  2 ^ 52 <= Z.pos m < 2 ^ 53 -> -1074 <= e ->
  shr_fexp 53 1024 (Z.pos m) e l = (shr_record_of_loc (Z.pos m) l, e).
Proof.
  intros Hm He. unfold shr_fexp, Zdigits2.
  rewrite (digits2_pos_53 Hm), fexp_b64 by lia.
  replace (53 + e - 53 - e) with 0 by lia. reflexivity.
Qed.

Lemma shr_fexp_shift (M e : Z) (n : positive) :
  Zdigits2 M = 53 + Z.pos n -> -1074 <= e + Z.pos n ->
  shr_fexp 53 1024 M e loc_Exact
  = (Nat.iter (Pos.to_nat n) shr_1 (Build_shr_record M false false),
     e + Z.pos n).
Proof.
  intros Hd He. unfold shr_fexp. rewrite Hd, fexp_b64 by lia.
  replace (53 + Z.pos n + e - 53 - e) with (Z.pos n) by lia.
  unfold shr, shr_record_of_loc. rewrite iter_pos_nat. reflexivity.
Qed.

(** A mantissa of [53] bits as it leaves the rounding, the carry into a
    54th bit included. *)
Lemma round_carry (m1 e : Z) :
  2 ^ 52 <= m1 <= 2 ^ 53 -> -1074 <= e -> e + 1 <= 971 ->
  (let '(mrs, e') := shr_fexp 53 1024 m1 e loc_Exact in
   match shr_m mrs with
   | 0 => S754_zero false
   | Z.pos m => if e' <=? 1024 - 53 then S754_finite false m e'
                else S754_infinity false
   | Z.neg _ => S754_nan
   end)
  = if m1 <? 2 ^ 53 then S754_finite false (Z.to_pos m1) e
    else S754_finite false (Z.to_pos (2 ^ 52)) (e + 1).
Proof.
  intros Hm He He'. destruct (m1 <? 2 ^ 53) eqn:C.
  - apply Z.ltb_lt in C. destruct m1 as [|m|m]; try lia.
    rewrite shr_fexp_keep by lia.
    cbn [shr_record_of_loc shr_m].
    destruct (Z.leb_spec e (1024 - 53)); [reflexivity|lia].
  - apply Z.ltb_ge in C. assert (m1 = 2 ^ 53) by lia. subst m1.
    unfold shr_fexp. change (Zdigits2 (2 ^ 53)) with 54.
    rewrite fexp_b64 by lia. replace (54 + e - 53 - e) with 1 by lia.
    cbn [shr SpecFloat.iter_pos shr_record_of_loc shr_1 shr_m].
    destruct (Z.leb_spec (e + 1) (1024 - 53)); [reflexivity|lia].
Qed.

Lemma round_shift (M ex : Z) (n : positive) :
  Zdigits2 M = 53 + Z.pos n ->
  2 ^ 52 * 2 ^ Z.pos n <= M < 2 ^ 53 * 2 ^ Z.pos n ->
  -1074 <= ex + Z.pos n -> ex + Z.pos n + 1 <= 971 ->
  exists m1,
    2 ^ 52 <= m1 <= 2 ^ 53
    /\ - 2 ^ Z.pos n <= 2 * (m1 * 2 ^ Z.pos n - M) <= 2 ^ Z.pos n
    /\ binary_round_aux 53 1024 false M ex loc_Exact
       = if m1 <? 2 ^ 53
         then S754_finite false (Z.to_pos m1) (ex + Z.pos n)
         else S754_finite false (Z.to_pos (2 ^ 52)) (ex + Z.pos n + 1).
Proof.
  intros Hd HM He He'.
  assert (HP : 0 < 2 ^ Z.pos n) by (apply Z.pow_pos_nonneg; lia).
  assert (HM0 : 0 <= M) by nia.
  destruct (shr_1_iter (Pos.to_nat n) HM0)
    as (m & r & s & rem & Eit & Hm & HMeq & Hrem & Hloc).
  rewrite positive_nat_Z in HMeq, Hrem, Hloc.
  set (P := 2 ^ Z.pos n) in *.
  unfold binary_round_aux. rewrite (@shr_fexp_shift M ex n Hd) by lia.
  rewrite Eit. cbn [shr_m loc_of_shr_record].
  set (m1 := round_nearest_even m
               (loc_of_shr_record (Build_shr_record m r s))).
  assert (Hm1 : (m1 = m \/ m1 = m + 1)
                /\ - P <= 2 * (m1 * P - M) <= P).
  { subst m1. destruct r, s; cbn [loc_of_shr_record round_nearest_even];
      try destruct (Z.even m); split; auto; nia. }
  destruct Hm1 as [Hcases Hnear].
  assert (Hb : 2 ^ 52 <= m1 <= 2 ^ 53) by nia.
  exists m1. split; [exact Hb|]. split; [exact Hnear|].
  apply round_carry; lia.
Qed.

(** The square of a normal number whose square is in range: a normal
    number, as an integer multiple of [2 ^ (2 * e)] at most [m] away from
    the exact [m * m]. *)
Lemma SFmul_self (m : positive) (e : Z) :
  2 ^ 52 <= Z.pos m < 2 ^ 53 -> -563 <= e <= 458 ->
  exists mp ep,
    SFmul 53 1024 (S754_finite false m e) (S754_finite false m e)
    = S754_finite false mp ep
    /\ 2 ^ 52 <= Z.pos mp < 2 ^ 53
    /\ (ep = 2 * e + 52 \/ ep = 2 * e + 53)
    /\ Z.pos m * Z.pos m - Z.pos m < Z.pos mp * 2 ^ (ep - 2 * e)
       <= Z.pos m * Z.pos m + Z.pos m.
Proof.
  intros Hm He. cbn [SFmul xorb].
  assert (Hsq : 2 ^ 104 <= Z.pos (m * m) < 2 ^ 106)
    by (rewrite Pos2Z.inj_mul; nia).
  destruct (Z.lt_ge_cases (Z.pos (m * m)) (2 ^ 105)) as [Hlow|Hhigh].
  - assert (Hd : Zdigits2 (Z.pos (m * m)) = 53 + 52).
    { apply (@digits2_pos_bounds (m * m) 104). split; [apply Hsq|exact Hlow]. }
    destruct (@round_shift (Z.pos (m * m)) (e + e) 52 Hd)
      as (m1 & Hb & Hnear & Eround); try lia.
    rewrite Eround. rewrite Pos2Z.inj_mul in *. clear Eround Hd.
    destruct (m1 <? 2 ^ 53) eqn:C.
    + apply Z.ltb_lt in C. exists (Z.to_pos m1), (e + e + 52).
      split; [reflexivity|]. rewrite Z2Pos.id by lia.
      replace (e + e + 52 - 2 * e) with 52 by lia.
      repeat split; try lia.
    + apply Z.ltb_ge in C. exists (Z.to_pos (2 ^ 52)), (e + e + 52 + 1).
      split; [reflexivity|]. rewrite Z2Pos.id by lia.
      replace (e + e + 52 + 1 - 2 * e) with 53 by lia.
      assert (m1 = 2 ^ 53) by lia. subst m1.
      repeat split; try lia.
  - assert (Hd : Zdigits2 (Z.pos (m * m)) = 53 + 53).
    { apply (@digits2_pos_bounds (m * m) 105). split; [exact Hhigh|apply Hsq]. }
    destruct (@round_shift (Z.pos (m * m)) (e + e) 53 Hd)
      as (m1 & Hb & Hnear & Eround); try lia.
    rewrite Eround. rewrite Pos2Z.inj_mul in *. clear Eround Hd.
    assert (Hm' : 2 ^ 52 < Z.pos m) by nia.
    assert (C : m1 < 2 ^ 53) by nia.
    apply Z.ltb_lt in C. rewrite C. apply Z.ltb_lt in C.
    exists (Z.to_pos m1), (e + e + 53).
    split; [reflexivity|]. rewrite Z2Pos.id by lia.
    replace (e + e + 53 - 2 * e) with 53 by lia.
    repeat split; try lia.
Qed.

Lemma div2_even (x : Z) : Z.div2 (2 * x) = x.
Proof. rewrite Z.div2_div. symmetry. apply Z.div_unique with 0; lia. Qed.

Lemma div2_odd (x : Z) : Z.div2 (2 * x + 1) = x.
Proof. rewrite Z.div2_div. symmetry. apply Z.div_unique with 1; lia. Qed.

Lemma round_keep (q : positive) (e : Z) (l : location) (m : positive) :
  2 ^ 52 <= Z.pos q < 2 ^ 53 -> 2 ^ 52 <= Z.pos m < 2 ^ 53 ->
  -1074 <= e <= 971 ->
  round_nearest_even (Z.pos q) l = Z.pos m ->
  binary_round_aux 53 1024 false (Z.pos q) e l = S754_finite false m e.
Proof.
  intros Hq Hm He Hround. unfold binary_round_aux.
  rewrite shr_fexp_keep by lia.
  replace (loc_of_shr_record (shr_record_of_loc (Z.pos q) l)) with l
    by (destruct l as [|[]]; reflexivity).
  replace (shr_m (shr_record_of_loc (Z.pos q) l)) with (Z.pos q)
    by (destruct l as [|[]]; reflexivity).
  rewrite Hround, shr_fexp_keep by lia. cbn [shr_record_of_loc shr_m].
  destruct (Z.leb_spec e (1024 - 53)); [reflexivity|lia].
Qed.

(** The square root of a number that is at most [m] away from
    [m * m], in units of [2 ^ (2 * e)], is [m * 2 ^ e]. *)
Lemma SFsqrt_near_square (m mp : positive) (e ep : Z) :
  2 ^ 52 <= Z.pos m < 2 ^ 53 -> 2 ^ 52 <= Z.pos mp < 2 ^ 53 ->
  -1074 <= e <= 971 ->
  ep = 2 * e + 52 \/ ep = 2 * e + 53 ->
  Z.pos m * Z.pos m - Z.pos m < Z.pos mp * 2 ^ (ep - 2 * e)
  <= Z.pos m * Z.pos m + Z.pos m ->
  SFsqrt 53 1024 (S754_finite false mp ep) = S754_finite false m e.
Proof.
  intros Hm Hmp He Hep Hnear. cbn [SFsqrt]. unfold SFsqrt_core_binary.
  unfold Zdigits2. rewrite (digits2_pos_53 Hmp).
  assert (Hhalf : Z.div2 (53 + ep + 1) = e + 53 /\ Z.div2 ep = e + 26).
  { destruct Hep as [-> | ->].
    - replace (53 + (2 * e + 52) + 1) with (2 * (e + 53)) by lia.
      replace (2 * e + 52) with (2 * (e + 26)) by lia.
      rewrite !div2_even. split; reflexivity.
    - replace (53 + (2 * e + 53) + 1) with (2 * (e + 53) + 1) by lia.
      replace (2 * e + 53) with (2 * (e + 26) + 1) by lia.
      rewrite !div2_odd. split; reflexivity. }
  destruct Hhalf as [-> ->]. rewrite fexp_b64 by lia.
  replace (Z.min (e + 53 - 53) (e + 26)) with e by lia.
  set (s := ep - 2 * e) in *.
  assert (Hs : s = 52 \/ s = 53) by lia.
  assert (Es : match s with
               | 0 => Z.pos mp
               | Z.pos _ => Z.shiftl (Z.pos mp) s
               | Z.neg _ => 0
               end = Z.pos mp * 2 ^ s).
  { destruct Hs as [-> | ->]; rewrite Z.shiftl_mul_pow2; lia. }
  rewrite Es. clear Es.
  assert (HMlow : 2 ^ 104 <= Z.pos mp * 2 ^ s)
    by (destruct Hs as [Es | Es]; rewrite Es; lia).
  set (M := Z.pos mp * 2 ^ s) in *.
  assert (HM : 0 <= M) by lia.
  pose proof (Z.sqrtrem_spec M HM) as Hspec.
  destruct (Z.sqrtrem M) as [q r]. destruct Hspec as [EM Hr].
  assert (Hq : q = Z.pos m - 1 \/ q = Z.pos m).
  { assert (Hup : q < Z.pos m + 1).
    { destruct (Z.lt_ge_cases q (Z.pos m + 1)) as [|Hge]; trivial.
      assert ((Z.pos m + 1) * (Z.pos m + 1) <= q * q)
        by (apply Z.mul_le_mono_nonneg; lia).
      lia. }
    assert (Hdown : Z.pos m - 2 < q).
    { destruct (Z.lt_ge_cases (Z.pos m - 2) q) as [|Hle]; trivial.
      assert (q * q <= (Z.pos m - 2) * (Z.pos m - 2))
        by (apply Z.mul_le_mono_nonneg; lia).
      lia. }
    lia. }
  assert (Hq0 : 2 ^ 52 <= q < 2 ^ 53).
  { split; [|lia]. destruct Hq as [-> | ->]; [|lia].
    assert (Z.pos m <> 2 ^ 52); [|lia].
    intros Em. rewrite Em in EM. lia. }
  destruct q as [|q|q]; try lia.
  apply round_keep; try lia.
  destruct (Z.eqb_spec r 0) as [->|Hr0].
  - cbn [round_nearest_even]. nia.
  - destruct (Z.leb_spec r (Z.pos q)); cbn [round_nearest_even]; nia.
Qed.

Lemma div_eucl_pair (a b : Z) : Z.div_eucl a b = (a / b, a mod b).
Proof. unfold Z.div, Z.modulo. destruct (Z.div_eucl a b). reflexivity. Qed.

(** A normal number divided by itself is [1.0]. *)
Lemma SFdiv_self (m : positive) (e : Z) :
  2 ^ 52 <= Z.pos m < 2 ^ 53 ->
  SFdiv 53 1024 (S754_finite false m e) (S754_finite false m e) = b64_1.
Proof.
  intros Hm. cbn [SFdiv xorb]. unfold SFdiv_core_binary, Zdigits2.
  rewrite (digits2_pos_53 Hm).
  replace (53 + e - (53 + e)) with 0 by lia.
  replace (e - e) with 0 by lia.
  change (Z.min (fexp 53 1024 0) 0) with (-53).
  change (0 - -53) with 53.
  rewrite Z.shiftl_mul_pow2, div_eucl_pair by lia.
  rewrite (Z.mul_comm (Z.pos m)), Z.div_mul, Z.mod_mul by lia.
  replace (new_location (Z.pos m) 0) with loc_Exact
    by (unfold new_location; destruct (Z.even (Z.pos m)); reflexivity).
  vm_compute. reflexivity.
Qed.

Local Close Scope Z_scope.

Lemma SFeqb_number (x : binary64) :
  b64_is_number x = true -> SFeqb x x = true.
Proof.
  unfold SFeqb.
  destruct x as [[]|[]| |[] m e]; cbn [b64_is_number SFcompare];
    try reflexivity; try discriminate; intros _;
    rewrite Z.compare_refl;
    change (Pos.compare_cont Eq m m) with (Pos.compare m m);
    rewrite Pos.compare_refl; reflexivity.
Qed.

(** The quotient that scipy forms for a vector and itself, from a squared
    norm in the range: [1.0]. *)
Lemma norm_ratio_one (s : binary64) :
  squarable s ->
  SFdiv 53 1024 s (SFsqrt 53 1024 (SFmul 53 1024 s s)) = b64_1.
Proof.
  destruct s as [| | |[] m e]; cbn [squarable]; try tauto.
  intros [Hm He].
  destruct (@SFmul_self m e Hm He) as (mp & ep & -> & Hmp & Hep & Hnear).
  rewrite (@SFsqrt_near_square m mp e ep Hm Hmp) by (trivial; lia).
  apply SFdiv_self, Hm.
Qed.

Lemma self_similarity_in_range (v : list binary64) :
  v <> [] -> squarable (dot v v) ->
  _calculate_similarity_score v v = Ok b64_1.
Proof.
  intros Hv Hs. unfold _calculate_similarity_score, cosine.
  destruct v as [|x v]; [contradiction|].
  cbn [is_empty orb]. rewrite Nat.eqb_refl. cbn [bind].
  cbn [fsub fdiv fsqrt fmul f_1 binary64_float].
  rewrite (@norm_ratio_one _ Hs). vm_compute. reflexivity.
Qed.

(** The squared norm of a one-component vector [[x]], [x] normal of
    magnitude from [2 ^ -255] up to [2 ^ 255], is in the range. *)
Lemma squarable_norm_of_singleton (sx : bool) (m : positive) (e : Z) :
  (2 ^ 52 <= Z.pos m < 2 ^ 53)%Z -> (-307 <= e <= 202)%Z ->
  squarable (dot [S754_finite sx m e] [S754_finite sx m e]).
Proof.
  intros Hm He.
  assert (He' : (-563 <= e <= 458)%Z) by lia.
  destruct (@SFmul_self m e Hm He') as (mp & ep & Emul & Hmp & Hep & _).
  unfold dot. cbn [combine fold_left fst snd].
  cbn [fadd fmul f_0 binary64_float].
  replace (SFmul 53 1024 (S754_finite sx m e) (S754_finite sx m e))
    with (S754_finite false mp ep)
    by (rewrite <- Emul; destruct sx; reflexivity).
  cbn [SFadd squarable]. split; [exact Hmp|lia].
Qed.

(** C5, as binary64 has it. The similarity of [a] and [b] is that of [b]
    and [a]: the same float (or the same exception, when the lengths
    differ), which Python's [==] confirms whenever it is not NaN. With an
    empty vector the similarity is [0.0]. The similarity of a non-empty
    vector with itself is exactly [1.0], hence within [1e-9] of it,
    whenever its squared norm [dot v v], as the code computes it, is a
    normal number from [2 ^ -511] up to [2 ^ 511]: for every such number
    [s], in whatever order the squares were added, [s / sqrt(s * s)] is
    [1.0], the clipped distance [0.0] and the similarity [1.0]. Every
    one-component vector [[x]] with [x] normal of magnitude from
    [2 ^ -255] up to [2 ^ 255] has such a squared norm. *)
Theorem similarity_symmetric_and_one_in_range :
  (forall a b : list binary64,
     _calculate_similarity_score a b = _calculate_similarity_score b a)
  /\ (forall (a b : list binary64) (s : binary64),
        _calculate_similarity_score a b = Ok s ->
        b64_is_number s = true ->
        exists s', _calculate_similarity_score b a = Ok s'
                   /\ SFeqb s s' = true)
  /\ (forall v : list binary64,
        _calculate_similarity_score [] v = Ok f_0
        /\ _calculate_similarity_score v [] = Ok f_0)
  /\ (forall s : binary64,
        squarable s ->
        fdiv s (fsqrt (fmul s s)) = b64_1
        /\ fsub f_1 (clip_0_2 (fsub f_1 (fdiv s (fsqrt (fmul s s)))))
           = b64_1)
  /\ (forall v : list binary64,
        v <> [] -> squarable (dot v v) ->
        exists s, _calculate_similarity_score v v = Ok s
                  /\ s = b64_1
                  /\ within_tolerance_of_one s = true)
  /\ (forall (sx : bool) (m : positive) (e : Z),
        (2 ^ 52 <= Z.pos m < 2 ^ 53)%Z -> (-307 <= e <= 202)%Z ->
        exists s, _calculate_similarity_score [S754_finite sx m e]
                                              [S754_finite sx m e] = Ok s
                  /\ s = b64_1
                  /\ within_tolerance_of_one s = true).
Proof.
  split; [|split; [|split; [|split; [|split]]]].
  - intros a b. apply (@similarity_comm binary64 binary64_float binary64_laws).
  - intros a b s Hab Hs. exists s. split.
    + rewrite <- Hab.
      apply (@similarity_comm binary64 binary64_float binary64_laws).
    + apply SFeqb_number, Hs.
  - intros v. unfold _calculate_similarity_score. cbn [is_empty orb].
    rewrite orb_true_r. auto.
  - intros s Hs. cbn [fsub fdiv fsqrt fmul f_1 binary64_float].
    rewrite (@norm_ratio_one s Hs). split; [reflexivity|].
    vm_compute. reflexivity.
  - intros v Hv Hs. exists b64_1.
    split; [apply self_similarity_in_range; assumption|].
    split; [reflexivity|vm_compute; reflexivity].
  - intros sx m e Hm He. exists b64_1.
    split; [|split; [reflexivity|vm_compute; reflexivity]].
    apply self_similarity_in_range; [discriminate|].
    apply squarable_norm_of_singleton; assumption.
Qed.

Lemma similarity_symmetric_and_one_in_range_witness :
  squarable (dot [b64_3; b64_of_Z 4] [b64_3; b64_of_Z 4])
  /\ _calculate_similarity_score [b64_3; b64_of_Z 4] [b64_3; b64_of_Z 4]
     = Ok b64_1
  /\ _calculate_similarity_score [b64_of_Z (-7)] [b64_of_Z (-7)] = Ok b64_1.
Proof.
  pose proof similarity_symmetric_and_one_in_range
    as (_ & _ & _ & _ & Hself & Hsingle).
  assert (Hs : squarable (dot [b64_3; b64_of_Z 4] [b64_3; b64_of_Z 4])).
  { vm_compute. repeat split; discriminate. }
  split; [exact Hs|]. split.
  - destruct (Hself [b64_3; b64_of_Z 4]) as (s & Es & -> & _).
    + discriminate.
    + exact Hs.
    + exact Es.
  - destruct (Hsingle true 7881299347898368%positive (-50)%Z)
      as (s & Es & -> & _).
    + vm_compute. split; [discriminate|reflexivity].
    + lia.
    + exact Es.
Defined.

(** C5 as stated fails in binary64 at non-empty vectors: the zero vector
    has the similarity NaN with itself ([0/0]); so has [[2 ^ 600]], whose
    squared norm overflows; and [[2 ^ 400]], the square of whose squared
    norm overflows, has the similarity [0.0] with itself. None is within
    [1e-9] of [1.0]. *)
Lemma self_similarity_outside_range :
  (_calculate_similarity_score [Examples.zero] [Examples.zero]
   = Ok S754_nan
   /\ within_tolerance_of_one S754_nan = false)
  /\ _calculate_similarity_score [Examples.two_to_600] [Examples.two_to_600]
     = Ok S754_nan
  /\ (_calculate_similarity_score [Examples.two_to_400] [Examples.two_to_400]
      = Ok (S754_zero false)
      /\ within_tolerance_of_one (S754_zero false) = false).
Proof. vm_compute. repeat split. Qed.
